(** * iommufd device binding: attach, replace and detach of hardware page tables

    A shallow embedding of [drivers/iommu/iommufd/device.c] and
    [drivers/iommu/iommufd/pasid.c], of the bind, unbind, attach and detach
    handlers of [drivers/vfio/device_cdev.c] and of the domain operations
    of [drivers/iommu/intel/nested.c].  Kernel objects live in finite maps
    keyed by their address (a [nat]); a pointer is the key, and a function
    that follows a pointer to no object has no result ([None]).  Every
    function threads the kernel state explicitly; a failing path is the
    chain of labels the C code jumps to.

    Calls that leave the two files (the IOMMU core, the io page table, the
    xarray, the object registry) are answered by an environment record:
    it gives the errno of each call, so that every theorem holds for all
    behaviours of those collaborators.  What such a call does to the state
    follows the interface section of the specification.  The helpers of
    the VFIO and VT-d files are recorded as calls, in program order; a
    call that takes something is paired with the call that gives it back.

    The two iommufd files come from different kernel versions and have
    their own [struct iommufd_device]; each file has its module here. *)

From stdpp Require Import gmap list.

Local Open Scope Z_scope.

(** ** errno values (include/uapi/asm-generic/errno-base.h) *)

Definition EPERM : Z := 1.
Definition ENOENT : Z := 2.
Definition ENOMEM : Z := 12.
Definition EBUSY : Z := 16.
Definition ENODEV : Z := 19.
Definition EINVAL : Z := 22.

(** Addresses of kernel objects. *)
Abbreviation idev_id := nat (only parsing).
Abbreviation hwpt_id := nat (only parsing).
Abbreviation ioas_id := nat (only parsing).
Abbreviation ioasid_t := nat (only parsing).

(** A pointer-sized result: [NULL], an errno folded into a pointer, or the
    address of a hardware page table.  It is what [xa_cmpxchg]/[xa_store]
    hand back and what the two [do_*] functions of pasid.c return. *)
Inductive hwpt_ptr :=
  | PtrNull
  | PtrErr (rc : Z)
  | PtrHwpt (h : hwpt_id).

Global Instance hwpt_ptr_eq_dec : EqDecision hwpt_ptr.
Proof. solve_decision. Defined.

(** [ERR_PTR(0)] is the null pointer. *)
Definition ERR_PTR (rc : Z) : hwpt_ptr :=
  if decide (rc = 0) then PtrNull else PtrErr rc.

(** [xa_err]: the errno carried by an entry, 0 for a normal entry. *)
Definition xa_err (p : hwpt_ptr) : Z :=
  match p with
  | PtrErr rc => rc
  | _ => 0
  end.

(** ** pasid.c *)

Module Pasid.

(** What the (device, PASID) protocol does that others can observe, in
    program order: stores into and erasures from [idev->pasid_hwpts], and
    calls into the hardware layer. *)
Inductive event :=
  | EvXaPublish (idev : idev_id) (pasid : ioasid_t) (hwpt : hwpt_id)
  | EvXaErase (idev : idev_id) (pasid : ioasid_t)
  | EvHwAttach (hwpt : hwpt_id) (idev : idev_id) (pasid : ioasid_t)
  | EvHwReplace (idev : idev_id) (pasid : ioasid_t) (hwpt old : hwpt_id).

Global Instance event_eq_dec : EqDecision event.
Proof. solve_decision. Defined.

(** [pasid_hwpts s !! (idev, pasid)] is entry [pasid] of the xarray
    [idev->pasid_hwpts]; [hwpt_users] is [hwpt->obj.users], the one field
    pasid.c touches through a page-table pointer. *)
Record state := mk_state {
  pasid_hwpts : gmap (idev_id * ioasid_t) hwpt_id;
  hwpt_users : gmap hwpt_id Z;
  trace : list event
}.

(** The collaborators of pasid.c.  [xa_nomem] tells whether the node
    allocation needed to store at an index that holds nothing fails; a
    store over an existing entry allocates nothing. *)
Record Env := mk_env {
  xa_nomem : idev_id → ioasid_t → bool;
  hwpt_attach_device_rc : hwpt_id → idev_id → ioasid_t → Z;
  hwpt_replace_device_rc : idev_id → ioasid_t → hwpt_id → hwpt_id → Z
}.

Definition set_pasid_hwpts (f : gmap (idev_id * ioasid_t) hwpt_id → gmap (idev_id * ioasid_t) hwpt_id)
    (s : state) : state :=
  {| pasid_hwpts := f (pasid_hwpts s); hwpt_users := hwpt_users s; trace := trace s |}.

Definition set_hwpt_users (f : gmap hwpt_id Z → gmap hwpt_id Z) (s : state) : state :=
  {| pasid_hwpts := pasid_hwpts s; hwpt_users := f (hwpt_users s); trace := trace s |}.

Definition emit (ev : event) (s : state) : state :=
  {| pasid_hwpts := pasid_hwpts s; hwpt_users := hwpt_users s; trace := trace s ++ [ev] |}.

(** [refcount_inc(&hwpt->obj.users)] and [refcount_dec]; the counts stay
    far from the point where a [refcount_t] saturates. *)
Definition refcount_inc (hwpt : hwpt_id) : state → state :=
  set_hwpt_users (alter (λ n, n + 1) hwpt).

Definition refcount_dec (hwpt : hwpt_id) : state → state :=
  set_hwpt_users (alter (λ n, n - 1) hwpt).

(** Modelled from the spec: the "mapping from PASID → current HWPT
    reference" of a binding, the absent xarray.
    [xa_cmpxchg(&idev->pasid_hwpts, pasid, NULL, hwpt, GFP_KERNEL)] stores
    only into a free index and hands back what the index held. *)
Definition xa_cmpxchg_null (e : Env) (idev : idev_id) (pasid : ioasid_t) (hwpt : hwpt_id)
    (s : state) : hwpt_ptr * state :=
  match pasid_hwpts s !! (idev, pasid) with
  | Some cur => (PtrHwpt cur, s)
  | None =>
      if xa_nomem e idev pasid then (PtrErr (- ENOMEM), s)
      else (PtrNull, emit (EvXaPublish idev pasid hwpt)
                       (set_pasid_hwpts (insert (idev, pasid) hwpt) s))
  end.

(** Modelled from the spec: the same mapping.
    [xa_store(&idev->pasid_hwpts, pasid, hwpt, GFP_KERNEL)] stores and
    hands back what the index held. *)
Definition xa_store (e : Env) (idev : idev_id) (pasid : ioasid_t) (hwpt : hwpt_id)
    (s : state) : hwpt_ptr * state :=
  let s' := emit (EvXaPublish idev pasid hwpt)
              (set_pasid_hwpts (insert (idev, pasid) hwpt) s) in
  match pasid_hwpts s !! (idev, pasid) with
  | Some cur => (PtrHwpt cur, s')
  | None => if xa_nomem e idev pasid then (PtrErr (- ENOMEM), s) else (PtrNull, s')
  end.

(** Modelled from the spec: the same mapping.
    [xa_erase(&idev->pasid_hwpts, pasid)]. *)
Definition xa_erase (idev : idev_id) (pasid : ioasid_t) (s : state) : state :=
  emit (EvXaErase idev pasid) (set_pasid_hwpts (delete (idev, pasid)) s).

(** Modelled from the spec: [setup_pasid(domain, device, pasid) -> Result],
    the absent [iommufd_hwpt_attach_device]. *)
Definition iommufd_hwpt_attach_device (e : Env) (hwpt : hwpt_id) (idev : idev_id)
    (pasid : ioasid_t) (s : state) : Z * state :=
  (hwpt_attach_device_rc e hwpt idev pasid, emit (EvHwAttach hwpt idev pasid) s).

(** Modelled from the spec: "asks the hardware layer to perform the
    device-visible swap", the absent [iommufd_hwpt_replace_device]. *)
Definition iommufd_hwpt_replace_device (e : Env) (idev : idev_id) (pasid : ioasid_t)
    (hwpt old : hwpt_id) (s : state) : Z * state :=
  (hwpt_replace_device_rc e idev pasid hwpt old, emit (EvHwReplace idev pasid hwpt old) s).

(** The label [err_put_hwpt] / [out_put_hwpt]. *)
Definition put_hwpt (hwpt : hwpt_id) (rc : Z) (s : state) : hwpt_ptr * state :=
  (ERR_PTR rc, refcount_dec hwpt s).

Definition iommufd_device_pasid_do_attach (e : Env) (idev : idev_id) (pasid : ioasid_t)
    (hwpt : hwpt_id) (s : state) : hwpt_ptr * state :=
  let s := refcount_inc hwpt s in
  let '(curr, s) := xa_cmpxchg_null e idev pasid hwpt s in
  if decide (curr ≠ PtrNull) then
    let rc :=
      if decide (curr = PtrHwpt hwpt) then 0
      else if decide (xa_err curr ≠ 0) then xa_err curr else - EBUSY in
    put_hwpt hwpt rc s
  else
    let '(rc, s) := iommufd_hwpt_attach_device e hwpt idev pasid s in
    if decide (rc ≠ 0) then
      let s := xa_erase idev pasid s in
      put_hwpt hwpt rc s
    else (PtrNull, s).

Definition iommufd_device_pasid_do_replace (e : Env) (idev : idev_id) (pasid : ioasid_t)
    (hwpt : hwpt_id) (s : state) : hwpt_ptr * state :=
  let s := refcount_inc hwpt s in
  let '(curr, s) := xa_store e idev pasid hwpt s in
  let rc := xa_err curr in
  if decide (rc ≠ 0) then put_hwpt hwpt rc s
  else
    match curr with
    | PtrHwpt old =>
        if decide (old = hwpt) then put_hwpt hwpt rc s
        else
          let '(rc, s) := iommufd_hwpt_replace_device e idev pasid hwpt old s in
          if decide (rc ≠ 0) then
            let '(_, s) := xa_store e idev pasid old s in
            put_hwpt hwpt rc s
          else (PtrHwpt old, s)
    | _ =>
        let s := xa_erase idev pasid s in
        put_hwpt hwpt (- EINVAL) s
    end.

(** [xa_erase] with the entry it hands back, NULL ([None]) for a free
    index. *)
Definition xa_erase_entry (idev : idev_id) (pasid : ioasid_t) (s : state) :
    option hwpt_id * state :=
  (pasid_hwpts s !! (idev, pasid), xa_erase idev pasid s).

(** What [iommufd_device_pasid_detach] works on: the state of the two
    [do_*] functions, the hardware tear-downs made so far (latest first)
    and the number of [WARN_ON]s that fired. *)
Record detach_state := mk_detach_state {
  ds_state : state;
  ds_torn_down : list (hwpt_id * idev_id * ioasid_t);
  ds_warnings : nat
}.

(** Modelled from the spec: [teardown_pasid(domain, device, pasid)], the
    absent [iommufd_hwpt_detach_device]; it has no result. *)
Definition iommufd_hwpt_detach_device (hwpt : hwpt_id) (idev : idev_id) (pasid : ioasid_t)
    (d : detach_state) : detach_state :=
  mk_detach_state (ds_state d) ((hwpt, idev, pasid) :: ds_torn_down d) (ds_warnings d).

(** Modelled from the spec: "drops the HWPT reference", the absent
    [iommufd_hw_pagetable_put]. *)
Definition iommufd_hw_pagetable_put (hwpt : hwpt_id) (d : detach_state) : detach_state :=
  mk_detach_state (refcount_dec hwpt (ds_state d)) (ds_torn_down d) (ds_warnings d).

Definition iommufd_device_pasid_detach (idev : idev_id) (pasid : ioasid_t)
    (d : detach_state) : detach_state :=
  let '(hwpt, s) := xa_erase_entry idev pasid (ds_state d) in
  let d := mk_detach_state s (ds_torn_down d) (ds_warnings d) in
  match hwpt with
  | None =>
      (* WARN_ON(!hwpt) *)
      mk_detach_state (ds_state d) (ds_torn_down d) (S (ds_warnings d))
  | Some hwpt =>
      let d := iommufd_hwpt_detach_device hwpt idev pasid d in
      iommufd_hw_pagetable_put hwpt d
  end.

(** *** Vocabulary of the properties, sample environments and states *)

(** Whether every publication of the mapping of a key comes after a
    hardware set-up of that page table for the key. *)
Definition published_after_setup (idev : idev_id) (pasid : ioasid_t) (hwpt : hwpt_id)
    (tr : list event) : Prop :=
  ∀ k, tr !! k = Some (EvXaPublish idev pasid hwpt) →
       ∃ j, (j < k)%nat ∧ tr !! j = Some (EvHwAttach hwpt idev pasid).

(** Hardware that accepts everything, and hardware that refuses every
    attach and every replace. *)
Definition env_ok : Env := mk_env (λ _ _, false) (λ _ _ _, 0) (λ _ _ _ _, 0).
Definition env_hw_fails : Env := mk_env (λ _ _, false) (λ _ _ _, - EINVAL) (λ _ _ _ _, - EINVAL).

(** Device 0, no PASID attached, page tables 1 and 2 with one reference. *)
Definition st_fresh : state :=
  mk_state ∅ (<[1%nat := 1]> (<[2%nat := 1]> ∅)) [].

(** Device 0 with PASID 5 attached to page table 1. *)
Definition st_bound : state :=
  mk_state (<[(0%nat, 5%nat) := 1%nat]> ∅) (<[1%nat := 2]> (<[2%nat := 1]> ∅)) [].

End Pasid.

(** ** device.c *)

Module Device.

Abbreviation dev_id := nat (only parsing).
Abbreviation group_id := nat (only parsing).
Abbreviation domain_id := nat (only parsing).
Abbreviation ctx_id := nat (only parsing).

Inductive iommu_cap :=
  | IOMMU_CAP_CACHE_COHERENCY
  | IOMMU_CAP_INTR_REMAP
  | IOMMU_CAP_ENFORCE_CACHE_COHERENCY.

Inductive iommufd_object_type :=
  | IOMMUFD_OBJ_DEVICE
  | IOMMUFD_OBJ_HW_PAGETABLE
  | IOMMUFD_OBJ_IOAS.

(** [struct iommufd_device].  [devices_item] is the membership of the
    device in [hwpt_devices] of its page table. *)
Record iommufd_device := mk_idev {
  idev_users : Z;
  idev_ictx : ctx_id;
  idev_hwpt : option hwpt_id;
  idev_dev : dev_id;
  idev_group : group_id;
  idev_enforce_cache_coherency : bool
}.

(** [struct iommufd_hw_pagetable].  [hwpt_item] is the membership of the
    page table in [ioas_hwpt_list] of its address space. *)
Record iommufd_hw_pagetable := mk_hwpt {
  hwpt_users : Z;
  hwpt_ioas : ioas_id;
  hwpt_domain : domain_id;
  hwpt_auto_domain : bool;
  hwpt_enforce_cache_coherency : bool;
  hwpt_msi_cookie : bool;
  hwpt_devices : list idev_id
}.

(** [struct iommufd_ioas] with the two parts of its [iopt] that device.c
    reaches: the reserved ranges (owner, first and last address) and the
    domains the mappings are propagated to. *)
Record iommufd_ioas := mk_ioas {
  ioas_users : Z;
  ioas_hwpt_list : list hwpt_id;
  iopt_reserved : list (dev_id * (Z * Z));
  iopt_domains : list domain_id
}.

(** The kernel state device.c works on: the three kinds of iommufd
    object, then the state of the IOMMU core and of the object registry. *)
Record state := mk_state {
  idevs : gmap idev_id iommufd_device;
  hwpts : gmap hwpt_id iommufd_hw_pagetable;
  ioass : gmap ioas_id iommufd_ioas;
  (** (domain, group) attachments made by [iommu_attach_group] *)
  group_domains : list (domain_id * group_id);
  (** domains [iommu_get_msi_cookie] was called on, latest first *)
  msi_cookie_calls : list domain_id;
  (** DMA owner of a device and the claims it made beyond the first *)
  dma_owner : gmap dev_id (ctx_id * nat);
  group_refs : gmap group_id Z;
  ctx_refs : gmap ctx_id Z;
  (** objects published by [iommufd_object_finalize], latest first *)
  finalized : list nat;
  (** number of [WARN_ON]s that fired *)
  warnings : nat
}.

(** Answers of the collaborators.  [domain_enforce_cache_coherency d] is
    [None] when the driver has no [enforce_cache_coherency] op.  A field
    named [_rc] is the errno of the call, 0 for success;
    [hw_pagetable_alloc_res] gives the errno of the allocation and, when
    that is 0, the domain of the new page table. *)
Record Env := mk_env {
  device_iommu_capable : dev_id → iommu_cap → bool;
  iommu_group_of : dev_id → option group_id;
  irq_domain_check_msi_remap : bool;
  IOMMUFD_ATTACH_FLAGS_ALLOW_UNSAFE_INTERRUPT : Z;
  domain_enforce_cache_coherency : domain_id → option bool;
  resv_regions : ioas_id → dev_id → group_id → Z * list (Z * Z) * Z;
  get_msi_cookie_rc : domain_id → Z → Z;
  attach_group_rc : domain_id → group_id → Z;
  table_add_domain_rc : ioas_id → domain_id → Z;
  object_alloc_rc : ctx_id → Z;
  hw_pagetable_alloc_res : ctx_id → ioas_id → dev_id → Z * domain_id
}.

(** *** Field updates *)

Definition idev_set_users (n : Z) (d : iommufd_device) : iommufd_device :=
  mk_idev n (idev_ictx d) (idev_hwpt d) (idev_dev d) (idev_group d)
    (idev_enforce_cache_coherency d).

Definition idev_set_hwpt (h : option hwpt_id) (d : iommufd_device) : iommufd_device :=
  mk_idev (idev_users d) (idev_ictx d) h (idev_dev d) (idev_group d)
    (idev_enforce_cache_coherency d).

Definition hwpt_set_users (n : Z) (p : iommufd_hw_pagetable) : iommufd_hw_pagetable :=
  mk_hwpt n (hwpt_ioas p) (hwpt_domain p) (hwpt_auto_domain p)
    (hwpt_enforce_cache_coherency p) (hwpt_msi_cookie p) (hwpt_devices p).

Definition hwpt_set_auto_domain (b : bool) (p : iommufd_hw_pagetable) : iommufd_hw_pagetable :=
  mk_hwpt (hwpt_users p) (hwpt_ioas p) (hwpt_domain p) b
    (hwpt_enforce_cache_coherency p) (hwpt_msi_cookie p) (hwpt_devices p).

Definition hwpt_set_enforce_cache_coherency (b : bool) (p : iommufd_hw_pagetable) :
    iommufd_hw_pagetable :=
  mk_hwpt (hwpt_users p) (hwpt_ioas p) (hwpt_domain p) (hwpt_auto_domain p)
    b (hwpt_msi_cookie p) (hwpt_devices p).

Definition hwpt_set_msi_cookie (b : bool) (p : iommufd_hw_pagetable) : iommufd_hw_pagetable :=
  mk_hwpt (hwpt_users p) (hwpt_ioas p) (hwpt_domain p) (hwpt_auto_domain p)
    (hwpt_enforce_cache_coherency p) b (hwpt_devices p).

Definition hwpt_set_devices (l : list idev_id) (p : iommufd_hw_pagetable) : iommufd_hw_pagetable :=
  mk_hwpt (hwpt_users p) (hwpt_ioas p) (hwpt_domain p) (hwpt_auto_domain p)
    (hwpt_enforce_cache_coherency p) (hwpt_msi_cookie p) l.

Definition ioas_set_users (n : Z) (a : iommufd_ioas) : iommufd_ioas :=
  mk_ioas n (ioas_hwpt_list a) (iopt_reserved a) (iopt_domains a).

Definition ioas_set_hwpt_list (l : list hwpt_id) (a : iommufd_ioas) : iommufd_ioas :=
  mk_ioas (ioas_users a) l (iopt_reserved a) (iopt_domains a).

Definition ioas_set_reserved (l : list (dev_id * (Z * Z))) (a : iommufd_ioas) : iommufd_ioas :=
  mk_ioas (ioas_users a) (ioas_hwpt_list a) l (iopt_domains a).

Definition ioas_set_domains (l : list domain_id) (a : iommufd_ioas) : iommufd_ioas :=
  mk_ioas (ioas_users a) (ioas_hwpt_list a) (iopt_reserved a) l.

Definition set_idevs (f : gmap idev_id iommufd_device → gmap idev_id iommufd_device)
    (s : state) : state :=
  mk_state (f (idevs s)) (hwpts s) (ioass s) (group_domains s) (msi_cookie_calls s)
    (dma_owner s) (group_refs s) (ctx_refs s) (finalized s) (warnings s).

Definition set_hwpts (f : gmap hwpt_id iommufd_hw_pagetable → gmap hwpt_id iommufd_hw_pagetable)
    (s : state) : state :=
  mk_state (idevs s) (f (hwpts s)) (ioass s) (group_domains s) (msi_cookie_calls s)
    (dma_owner s) (group_refs s) (ctx_refs s) (finalized s) (warnings s).

Definition set_ioass (f : gmap ioas_id iommufd_ioas → gmap ioas_id iommufd_ioas)
    (s : state) : state :=
  mk_state (idevs s) (hwpts s) (f (ioass s)) (group_domains s) (msi_cookie_calls s)
    (dma_owner s) (group_refs s) (ctx_refs s) (finalized s) (warnings s).

Definition set_group_domains (f : list (domain_id * group_id) → list (domain_id * group_id))
    (s : state) : state :=
  mk_state (idevs s) (hwpts s) (ioass s) (f (group_domains s)) (msi_cookie_calls s)
    (dma_owner s) (group_refs s) (ctx_refs s) (finalized s) (warnings s).

Definition set_msi_cookie_calls (f : list domain_id → list domain_id) (s : state) : state :=
  mk_state (idevs s) (hwpts s) (ioass s) (group_domains s) (f (msi_cookie_calls s))
    (dma_owner s) (group_refs s) (ctx_refs s) (finalized s) (warnings s).

Definition set_dma_owner (f : gmap dev_id (ctx_id * nat) → gmap dev_id (ctx_id * nat))
    (s : state) : state :=
  mk_state (idevs s) (hwpts s) (ioass s) (group_domains s) (msi_cookie_calls s)
    (f (dma_owner s)) (group_refs s) (ctx_refs s) (finalized s) (warnings s).

Definition set_group_refs (f : gmap group_id Z → gmap group_id Z) (s : state) : state :=
  mk_state (idevs s) (hwpts s) (ioass s) (group_domains s) (msi_cookie_calls s)
    (dma_owner s) (f (group_refs s)) (ctx_refs s) (finalized s) (warnings s).

Definition set_ctx_refs (f : gmap ctx_id Z → gmap ctx_id Z) (s : state) : state :=
  mk_state (idevs s) (hwpts s) (ioass s) (group_domains s) (msi_cookie_calls s)
    (dma_owner s) (group_refs s) (f (ctx_refs s)) (finalized s) (warnings s).

Definition set_finalized (f : list nat → list nat) (s : state) : state :=
  mk_state (idevs s) (hwpts s) (ioass s) (group_domains s) (msi_cookie_calls s)
    (dma_owner s) (group_refs s) (ctx_refs s) (f (finalized s)) (warnings s).

Definition set_warnings (f : nat → nat) (s : state) : state :=
  mk_state (idevs s) (hwpts s) (ioass s) (group_domains s) (msi_cookie_calls s)
    (dma_owner s) (group_refs s) (ctx_refs s) (finalized s) (f (warnings s)).

(** Writing through a pointer to an object. *)
Definition upd_idev (i : idev_id) (f : iommufd_device → iommufd_device) : state → state :=
  set_idevs (alter f i).

Definition upd_hwpt (h : hwpt_id) (f : iommufd_hw_pagetable → iommufd_hw_pagetable) :
    state → state :=
  set_hwpts (alter f h).

Definition upd_ioas (a : ioas_id) (f : iommufd_ioas → iommufd_ioas) : state → state :=
  set_ioass (alter f a).

(** [WARN_ON(cond)]: logs when the condition holds, and goes on. *)
Definition WARN_ON (cond : bool) (s : state) : state :=
  if cond then set_warnings S s else s.

(** *** Kernel lists *)

(** Modelled from the spec: the "device membership list" of a page table
    and the "ordered list of member HWPTs" of an address space, the absent
    include/linux/list.h.  A list is the sequence of the objects linked on
    it, in list order. *)

(** [list_add]: at the head. *)
Definition list_add (x : nat) (l : list nat) : list nat := x :: l.

(** [list_add_tail]: at the end.  Nothing looks for [x] in the list. *)
Definition list_add_tail (x : nat) (l : list nat) : list nat := l ++ [x].

(** [list_del]: the object leaves the list. *)
Definition list_del (x : nat) (l : list nat) : list nat :=
  filter (λ y, y ≠ x) l.

Definition list_empty (l : list nat) : bool :=
  match l with
  | [] => true
  | _ => false
  end.

(** *** Collaborators *)

(** [refcount_inc] and [refcount_dec] on [obj.users] of a page table and
    of a device; the counts stay far from the point where a [refcount_t]
    saturates. *)
Definition refcount_inc_hwpt (h : hwpt_id) : state → state :=
  upd_hwpt h (λ p, hwpt_set_users (hwpt_users p + 1) p).

Definition refcount_dec_hwpt (h : hwpt_id) : state → state :=
  upd_hwpt h (λ p, hwpt_set_users (hwpt_users p - 1) p).

Definition refcount_inc_idev (i : idev_id) : state → state :=
  upd_idev i (λ d, idev_set_users (idev_users d + 1) d).

Definition refcount_dec_idev (i : idev_id) : state → state :=
  upd_idev i (λ d, idev_set_users (idev_users d - 1) d).

(** Modelled from the spec: [reserve_ranges(ioas, device, group) ->
    (Result, msi_window_addr)], the absent
    [iopt_table_enforce_group_resv_regions].  The ranges the environment
    names are entered with the device as owner; a failing call may leave
    some behind. *)
Definition iopt_table_enforce_group_resv_regions (e : Env) (a : ioas_id) (dev : dev_id)
    (group : group_id) (s : state) : Z * Z * state :=
  let '(rc, ranges, sw_msi_start) := resv_regions e a dev group in
  (rc, sw_msi_start,
   upd_ioas a (λ io, ioas_set_reserved (iopt_reserved io ++ ((λ r, (dev, r)) <$> ranges)) io) s).

(** Modelled from the spec: [release_ranges(ioas, device)], the absent
    [iopt_remove_reserved_iova]: every range the device owns goes. *)
Definition iopt_remove_reserved_iova (a : ioas_id) (dev : dev_id) : state → state :=
  upd_ioas a (λ io, ioas_set_reserved (filter (λ r, r.1 ≠ dev) (iopt_reserved io)) io).

(** Modelled from the spec: [register_domain(ioas, domain) -> Result], the
    absent [iopt_table_add_domain]. *)
Definition iopt_table_add_domain (e : Env) (a : ioas_id) (domain : domain_id)
    (s : state) : Z * state :=
  let rc := table_add_domain_rc e a domain in
  if decide (rc ≠ 0) then (rc, s)
  else (0, upd_ioas a (λ io, ioas_set_domains (iopt_domains io ++ [domain]) io) s).

(** Modelled from the spec: [unregister_domain(ioas, domain)], the absent
    [iopt_table_remove_domain]. *)
Definition iopt_table_remove_domain (a : ioas_id) (domain : domain_id) : state → state :=
  upd_ioas a (λ io, ioas_set_domains (list_del domain (iopt_domains io)) io).

(** Modelled from the spec: [attach_group(domain, group) -> Result], the
    absent [iommu_attach_group]. *)
Definition iommu_attach_group (e : Env) (domain : domain_id) (group : group_id)
    (s : state) : Z * state :=
  let rc := attach_group_rc e domain group in
  if decide (rc ≠ 0) then (rc, s)
  else (0, set_group_domains (cons (domain, group)) s).

(** One attachment of the pair is taken back. *)
Fixpoint remove_attachment (x : domain_id * group_id) (l : list (domain_id * group_id)) :
    list (domain_id * group_id) :=
  match l with
  | [] => []
  | y :: l' => if decide (y = x) then l' else y :: remove_attachment x l'
  end.

(** Modelled from the spec: [detach_group(domain, group)], the absent
    [iommu_detach_group]. *)
Definition iommu_detach_group (domain : domain_id) (group : group_id) : state → state :=
  set_group_domains (remove_attachment (domain, group)).

(** Modelled from the spec: [install_msi_window(domain, addr) -> Result],
    the absent [iommu_get_msi_cookie].  The call is recorded. *)
Definition iommu_get_msi_cookie (e : Env) (domain : domain_id) (base : Z)
    (s : state) : Z * state :=
  (get_msi_cookie_rc e domain base, set_msi_cookie_calls (cons domain) s).

(** Modelled from the spec: [claim_owner(device, context) -> Result], the
    absent [iommu_device_claim_dma_owner]: refused when another owner
    holds the device, counted when the same owner claims again. *)
Definition iommu_device_claim_dma_owner (dev : dev_id) (owner : ctx_id)
    (s : state) : Z * state :=
  match dma_owner s !! dev with
  | None => (0, set_dma_owner (insert dev (owner, 0%nat)) s)
  | Some (o, more) =>
      if decide (o = owner) then (0, set_dma_owner (insert dev (o, S more)) s)
      else (- EPERM, s)
  end.

(** Modelled from the spec: [release_owner(device)], the absent
    [iommu_device_release_dma_owner]: one claim is given back. *)
Definition iommu_device_release_dma_owner (dev : dev_id) (s : state) : state :=
  match dma_owner s !! dev with
  | Some (o, S more) => set_dma_owner (insert dev (o, more)) s
  | Some (o, O) => set_dma_owner (delete dev) s
  | None => WARN_ON true s
  end.

(** Modelled from the spec: "stores the device-group handle", the absent
    [iommu_group_get]: the group of the device with a reference on it, or
    NULL. *)
Definition iommu_group_get (e : Env) (dev : dev_id) (s : state) : option group_id * state :=
  match iommu_group_of e dev with
  | Some g => (Some g, set_group_refs (alter (λ n, n + 1) g) s)
  | None => (None, s)
  end.

(** Modelled from the spec: "releases the device-group handle", the absent
    [iommu_group_put]. *)
Definition iommu_group_put (g : group_id) : state → state :=
  set_group_refs (alter (λ n, n - 1) g).

(** Modelled from the spec: the "owning context reference" of a binding,
    the absent [iommufd_ctx_get]. *)
Definition iommufd_ctx_get (ictx : ctx_id) : state → state :=
  set_ctx_refs (alter (λ n, n + 1) ictx).

(** Modelled from the spec: "destruction releases the device-group handle
    and context reference", the absent [iommufd_ctx_put]. *)
Definition iommufd_ctx_put (ictx : ctx_id) : state → state :=
  set_ctx_refs (alter (λ n, n - 1) ictx).

(** Object ids come from one name space shared by the three kinds. *)
Definition fresh_id (s : state) : nat :=
  fresh (dom (idevs s) ∪ dom (hwpts s) ∪ dom (ioass s)).

(** Modelled from the spec: [alloc_object(context, kind) -> handle], the
    absent [iommufd_object_alloc] for a device: a zeroed object under an
    unused id, holding the creating reference. *)
Definition iommufd_object_alloc_idev (e : Env) (ictx : ctx_id) (s : state) :
    (Z + idev_id) * state :=
  let rc := object_alloc_rc e ictx in
  if decide (rc ≠ 0) then (inl rc, s)
  else
    let id := fresh_id s in
    (inr id, set_idevs (insert id (mk_idev 1 0%nat None 0%nat 0%nat false)) s).

(** Modelled from the spec: [finalize(handle)], the absent
    [iommufd_object_finalize]: from now on the id resolves. *)
Definition iommufd_object_finalize (id : nat) : state → state :=
  set_finalized (cons id).

(** Modelled from the spec: "allocate a new HWPT against this IOAS and this
    device's hardware topology", the absent [iommufd_hw_pagetable_alloc]:
    a page table under an unused id, holding the creating reference, with
    no device, no flag set and a back-reference to the address space. *)
Definition iommufd_hw_pagetable_alloc (e : Env) (ictx : ctx_id) (a : ioas_id) (dev : dev_id)
    (s : state) : (Z + hwpt_id) * state :=
  let '(rc, domain) := hw_pagetable_alloc_res e ictx a dev in
  if decide (rc ≠ 0) then (inl rc, s)
  else
    let id := fresh_id s in
    (inr id, set_hwpts (insert id (mk_hwpt 1 a domain false false false [])) s).

(** Modelled from the spec: [abort(handle)], "abort and fully destroy the
    freshly allocated HWPT", the absent [iommufd_object_abort_and_destroy]. *)
Definition iommufd_object_abort_and_destroy (h : hwpt_id) : state → state :=
  set_hwpts (delete h).

(** Modelled from the spec: the absent [iommufd_object_destroy_user] for a
    page table.  "Destroys it (drops the creating reference)"; an object
    is "destroyed when reference count reaches zero, which for an
    auto-created HWPT happens automatically when its last device
    detaches".  The caller's reference is dropped; when only the creating
    reference is left, that one is dropped too and the object goes.  The
    result tells whether it went. *)
Definition iommufd_object_destroy_user (h : hwpt_id) (s : state) : option (bool * state) :=
  p ← hwpts s !! h;
  let s := refcount_dec_hwpt h s in
  if decide (hwpt_users p - 1 = 1) then
    Some (true, set_finalized (list_del h) (set_hwpts (delete h) s))
  else Some (false, s).

(** Modelled from the spec: [lookup(context, id, expected_kind) ->
    Result<object>], the absent [iommufd_get_object] with
    [IOMMUFD_OBJ_ANY]: the kind of the object, which is held by one more
    reference until [iommufd_put_object]. *)
Definition iommufd_get_object (id : nat) (s : state) : (Z + iommufd_object_type) * state :=
  if decide (is_Some (hwpts s !! id)) then
    (inr IOMMUFD_OBJ_HW_PAGETABLE, refcount_inc_hwpt id s)
  else if decide (is_Some (ioass s !! id)) then
    (inr IOMMUFD_OBJ_IOAS, upd_ioas id (λ io, ioas_set_users (ioas_users io + 1) io) s)
  else if decide (is_Some (idevs s !! id)) then
    (inr IOMMUFD_OBJ_DEVICE, refcount_inc_idev id s)
  else (inl (- ENOENT), s).

(** Modelled from the spec: the absent [iommufd_put_object], which gives
    back the reference [iommufd_get_object] took. *)
Definition iommufd_put_object (id : nat) (ty : iommufd_object_type) : state → state :=
  match ty with
  | IOMMUFD_OBJ_HW_PAGETABLE => refcount_dec_hwpt id
  | IOMMUFD_OBJ_IOAS => upd_ioas id (λ io, ioas_set_users (ioas_users io - 1) io)
  | IOMMUFD_OBJ_DEVICE => refcount_dec_idev id
  end.

(** *** The functions of device.c *)

(** [iommufd_device_destroy], the destroy operation of a device object. *)
Definition iommufd_device_destroy (i : idev_id) (s : state) : option state :=
  idev ← idevs s !! i;
  let s := iommu_device_release_dma_owner (idev_dev idev) s in
  let s := iommu_group_put (idev_group idev) s in
  Some (iommufd_ctx_put (idev_ictx idev) s).

(** [iommufd_device_bind]: an errno, or the new device object, whose
    address doubles as the id written to [*id]. *)
Definition iommufd_device_bind (e : Env) (ictx : ctx_id) (dev : dev_id) (s : state) :
    (Z + idev_id) * state :=
  if negb (device_iommu_capable e dev IOMMU_CAP_CACHE_COHERENCY) then (inl (- EINVAL), s)
  else
    match iommu_group_get e dev s with
    | (None, s) => (inl (- ENODEV), s)
    | (Some group, s) =>
        let '(rc, s) := iommu_device_claim_dma_owner dev ictx s in
        if decide (rc ≠ 0) then
          (* out_group_put *)
          (inl rc, iommu_group_put group s)
        else
          match iommufd_object_alloc_idev e ictx s with
          | (inl rc, s) =>
              (* out_release_owner, out_group_put *)
              (inl rc, iommu_group_put group (iommu_device_release_dma_owner dev s))
          | (inr idev, s) =>
              let s := upd_idev idev (λ d,
                         mk_idev (idev_users d) ictx (idev_hwpt d) (idev_dev d)
                           (idev_group d) (idev_enforce_cache_coherency d)) s in
              let s := iommufd_ctx_get ictx s in
              let s := upd_idev idev (λ d,
                         mk_idev (idev_users d) (idev_ictx d) (idev_hwpt d) dev
                           (idev_group d)
                           (device_iommu_capable e dev IOMMU_CAP_ENFORCE_CACHE_COHERENCY)) s in
              let s := refcount_inc_idev idev s in
              let s := upd_idev idev (λ d,
                         mk_idev (idev_users d) (idev_ictx d) (idev_hwpt d) (idev_dev d)
                           group (idev_enforce_cache_coherency d)) s in
              let s := iommufd_object_finalize idev s in
              (inr idev, s)
          end
    end.

(** Modelled from the spec: the absent [iommufd_object_destroy_user] for a
    device object, "destroyed only after all PASID entries and the default
    attachment are detached; destruction releases the device-group handle
    and context reference".  As for a page table the caller's reference is
    dropped, and when only the creating reference is left the destroy
    operation runs and the object goes.  The result tells whether it
    went. *)
Definition iommufd_object_destroy_user_idev (i : idev_id) (s : state) :
    option (bool * state) :=
  d ← idevs s !! i;
  let s := refcount_dec_idev i s in
  if decide (idev_users d - 1 = 1) then
    s ← iommufd_device_destroy i s;
    Some (true, set_finalized (list_del i) (set_idevs (delete i) s))
  else Some (false, s).

Definition iommufd_device_unbind (i : idev_id) (s : state) : option state :=
  '(was_destroyed, s) ← iommufd_object_destroy_user_idev i s;
  Some (WARN_ON (negb was_destroyed) s).

Definition iommufd_device_enforced_coherent (i : idev_id) (s : state) : option bool :=
  idev ← idevs s !! i;
  Some (idev_enforce_cache_coherency idev).

Definition iommufd_device_setup_msi (e : Env) (i : idev_id) (h : hwpt_id)
    (sw_msi_start flags : Z) (s : state) : option (Z * state) :=
  idev ← idevs s !! i;
  hwpt ← hwpts s !! h;
  if device_iommu_capable e (idev_dev idev) IOMMU_CAP_INTR_REMAP then Some (0, s)
  else if irq_domain_check_msi_remap e then
    if decide (sw_msi_start = 0) then Some (- EPERM, WARN_ON true s)
    else if hwpt_msi_cookie hwpt then Some (0, s)
    else
      let '(rc, s) := iommu_get_msi_cookie e (hwpt_domain hwpt) sw_msi_start s in
      if decide (rc ≠ 0 ∧ rc ≠ - ENODEV) then Some (rc, s)
      else Some (0, upd_hwpt h (hwpt_set_msi_cookie true) s)
  else if decide (Z.land flags (IOMMUFD_ATTACH_FLAGS_ALLOW_UNSAFE_INTERRUPT e) = 0) then
    Some (- EPERM, s)
  else Some (0, s).

(** The walk of [list_for_each_entry (cur_dev, &hwpt->devices, devices_item)]. *)
Fixpoint devices_have_group (ds : gmap idev_id iommufd_device) (l : list idev_id)
    (group : group_id) : option bool :=
  match l with
  | [] => Some false
  | c :: l' =>
      cur_dev ← ds !! c;
      if decide (idev_group cur_dev = group) then Some true
      else devices_have_group ds l' group
  end.

Definition iommufd_hw_pagetable_has_group (h : hwpt_id) (group : group_id) (s : state) :
    option bool :=
  hwpt ← hwpts s !! h;
  devices_have_group (idevs s) (hwpt_devices hwpt) group.

(** The labels of [iommufd_device_do_attach]. *)
Definition out_unlock (rc : Z) (s : state) : option (Z * state) := Some (rc, s).

Definition out_iova (a : ioas_id) (dev : dev_id) (rc : Z) (s : state) : option (Z * state) :=
  out_unlock rc (iopt_remove_reserved_iova a dev s).

Definition out_detach (a : ioas_id) (dev : dev_id) (domain : domain_id) (group : group_id)
    (rc : Z) (s : state) : option (Z * state) :=
  out_iova a dev rc (iommu_detach_group domain group s).

(** [iommufd_device_do_attach] from the reservation of the device's
    ranges on. *)
Definition do_attach_resv (e : Env) (i : idev_id) (h : hwpt_id) (flags : Z) (s : state) :
    option (Z * state) :=
  idev ← idevs s !! i;
  hwpt ← hwpts s !! h;
  let a := hwpt_ioas hwpt in
  let dev := idev_dev idev in
  let group := idev_group idev in
  let domain := hwpt_domain hwpt in
  let '(rc, sw_msi_start, s) := iopt_table_enforce_group_resv_regions e a dev group s in
  if decide (rc ≠ 0) then out_iova a dev rc s
  else
    '(rc, s) ← iommufd_device_setup_msi e i h sw_msi_start flags s;
    if decide (rc ≠ 0) then out_iova a dev rc s
    else
      has ← iommufd_hw_pagetable_has_group h group s;
      let '(rc, s) := if (has : bool) then (rc, s) else iommu_attach_group e domain group s in
      if decide (rc ≠ 0) then out_iova a dev rc s
      else
        let '(rc, s) :=
          if list_empty (hwpt_devices hwpt) then iopt_table_add_domain e a domain s
          else (rc, s) in
        if decide (rc ≠ 0) then out_detach a dev domain group rc s
        else
          let s := upd_idev i (idev_set_hwpt (Some h)) s in
          let s := refcount_inc_hwpt h s in
          let s := upd_hwpt h (λ p, hwpt_set_devices (list_add i (hwpt_devices p)) p) s in
          Some (0, s).

Definition iommufd_device_do_attach (e : Env) (i : idev_id) (h : hwpt_id) (flags : Z)
    (s : state) : option (Z * state) :=
  idev ← idevs s !! i;
  hwpt ← hwpts s !! h;
  _ ← ioass s !! hwpt_ioas hwpt;
  if idev_enforce_cache_coherency idev && negb (hwpt_enforce_cache_coherency hwpt) then
    let s :=
      match domain_enforce_cache_coherency e (hwpt_domain hwpt) with
      | Some b => upd_hwpt h (hwpt_set_enforce_cache_coherency b) s
      | None => s
      end in
    hwpt ← hwpts s !! h;
    if negb (hwpt_enforce_cache_coherency hwpt) then
      out_unlock (- EINVAL) (WARN_ON (list_empty (hwpt_devices hwpt)) s)
    else do_attach_resv e i h flags s
  else do_attach_resv e i h flags s.

Inductive scan_result :=
  | ScanDone (rc : Z) (s : state)
  | ScanExhausted (s : state).

(** The loop of [iommufd_device_auto_get_domain] over [ioas->hwpt_list]:
    it either leaves through [goto out_unlock] or falls off the end. *)
Fixpoint auto_scan (e : Env) (i : idev_id) (flags : Z) (l : list hwpt_id) (s : state) :
    option scan_result :=
  match l with
  | [] => Some (ScanExhausted s)
  | h :: l' =>
      hwpt ← hwpts s !! h;
      if negb (hwpt_auto_domain hwpt) || bool_decide (hwpt_users hwpt = 0) then
        auto_scan e i flags l' s
      else
        let s := refcount_inc_hwpt h s in
        '(rc, s) ← iommufd_device_do_attach e i h flags s;
        let s := refcount_dec_hwpt h s in
        if decide (rc ≠ 0) then
          if decide (rc = - EINVAL) then auto_scan e i flags l' s
          else Some (ScanDone rc s)
        else Some (ScanDone rc s)
  end.

Definition iommufd_device_auto_get_domain (e : Env) (i : idev_id) (a : ioas_id) (flags : Z)
    (s : state) : option (Z * state) :=
  idev ← idevs s !! i;
  ioas ← ioass s !! a;
  r ← auto_scan e i flags (ioas_hwpt_list ioas) s;
  match r with
  | ScanDone rc s => Some (rc, s)
  | ScanExhausted s =>
      match iommufd_hw_pagetable_alloc e (idev_ictx idev) a (idev_dev idev) s with
      | (inl rc, s) => Some (rc, s)
      | (inr h, s) =>
          let s := upd_hwpt h (hwpt_set_auto_domain true) s in
          '(rc, s) ← iommufd_device_do_attach e i h flags s;
          if decide (rc ≠ 0) then
            (* out_abort *)
            Some (rc, iommufd_object_abort_and_destroy h s)
          else
            let s := upd_ioas a (λ io,
                       ioas_set_hwpt_list (list_add_tail h (ioas_hwpt_list io)) io) s in
            let s := iommufd_object_finalize h s in
            Some (0, s)
      end
  end.

(** [iommufd_device_attach]: the errno and the value left in [*pt_id]. *)
Definition iommufd_device_attach (e : Env) (i : idev_id) (pt_id : nat) (flags : Z)
    (s : state) : option (Z * nat * state) :=
  match iommufd_get_object pt_id s with
  | (inl rc, s) => Some (rc, pt_id, s)
  | (inr ty, s) =>
      '(rc, s) ←
        match ty with
        | IOMMUFD_OBJ_HW_PAGETABLE =>
            '(rc, s) ← iommufd_device_do_attach e i pt_id flags s;
            if decide (rc ≠ 0) then Some (rc, s)
            else
              hwpt ← hwpts s !! pt_id;
              Some (rc, upd_ioas (hwpt_ioas hwpt) (λ io,
                          ioas_set_hwpt_list (list_add_tail pt_id (ioas_hwpt_list io)) io) s)
        | IOMMUFD_OBJ_IOAS => iommufd_device_auto_get_domain e i pt_id flags s
        | IOMMUFD_OBJ_DEVICE => Some (- EINVAL, s)
        end;
      if decide (rc ≠ 0) then
        (* out_put_pt_obj *)
        Some (rc, pt_id, iommufd_put_object pt_id ty s)
      else
        let s := refcount_inc_idev i s in
        idev ← idevs s !! i;
        h ← idev_hwpt idev;
        Some (0, h, iommufd_put_object pt_id ty s)
  end.

Definition iommufd_device_detach (i : idev_id) (s : state) : option state :=
  idev ← idevs s !! i;
  h ← idev_hwpt idev;
  hwpt ← hwpts s !! h;
  let a := hwpt_ioas hwpt in
  _ ← ioass s !! a;
  let s := upd_hwpt h (λ p, hwpt_set_devices (list_del i (hwpt_devices p)) p) s in
  has ← iommufd_hw_pagetable_has_group h (idev_group idev) s;
  s ← (if (has : bool) then Some s
       else
         hwpt' ← hwpts s !! h;
         let s :=
           if list_empty (hwpt_devices hwpt') then
             let s := iopt_table_remove_domain a (hwpt_domain hwpt) s in
             upd_ioas a (λ io, ioas_set_hwpt_list (list_del h (ioas_hwpt_list io)) io) s
           else s in
         let s := iopt_remove_reserved_iova a (idev_dev idev) s in
         Some (iommu_detach_group (hwpt_domain hwpt) (idev_group idev) s));
  s ← (if hwpt_auto_domain hwpt then snd <$> iommufd_object_destroy_user h s
       else Some (refcount_dec_hwpt h s));
  let s := upd_idev i (idev_set_hwpt None) s in
  Some (refcount_dec_idev i s).

(** *** Vocabulary of the properties *)

(** What a failed [iommufd_device_do_attach] leaves: everything as it was,
    but for the two flags of the page table, which may have gone up, the
    reserved ranges of the address space, of which those of the device may
    be gone, and the record of MSI cookie requests, which may have grown
    by one. *)
Definition rolled_back (i : idev_id) (h : hwpt_id) (s s' : state) : Prop :=
  idevs s' = idevs s ∧
  group_domains s' = group_domains s ∧
  dma_owner s' = dma_owner s ∧ group_refs s' = group_refs s ∧
  ctx_refs s' = ctx_refs s ∧ finalized s' = finalized s ∧
  ∃ idev hwpt ioas,
    idevs s !! i = Some idev ∧ hwpts s !! h = Some hwpt ∧
    ioass s !! hwpt_ioas hwpt = Some ioas ∧
    ∃ (ecc msi : bool) (R : list (nat * (Z * Z))),
      hwpts s' = <[h := hwpt_set_msi_cookie msi (hwpt_set_enforce_cache_coherency ecc hwpt)]> (hwpts s) ∧
      (hwpt_enforce_cache_coherency hwpt = true → ecc = true) ∧
      (hwpt_msi_cookie hwpt = true → msi = true) ∧
      ioass s' = <[hwpt_ioas hwpt := ioas_set_reserved R ioas]> (ioass s) ∧
      (R = iopt_reserved ioas ∨
       R = filter (λ r, r.1 ≠ idev_dev idev) (iopt_reserved ioas)) ∧
      (msi_cookie_calls s' = msi_cookie_calls s ∨
       hwpt_msi_cookie hwpt = false ∧
       msi_cookie_calls s' = hwpt_domain hwpt :: msi_cookie_calls s).

(** What a successful [iommufd_device_do_attach] leaves, [ecc] being the
    final cache-coherency flag of the page table: the device points to the
    page table, the page table has one more reference and the device at
    the head of its list, and its address space keeps users and member
    list. *)
Definition attach_result (ecc : bool) (i : idev_id) (h : hwpt_id) (s s' : state) : Prop :=
  dma_owner s' = dma_owner s ∧ group_refs s' = group_refs s ∧
  ctx_refs s' = ctx_refs s ∧ finalized s' = finalized s ∧
  ∃ idev hwpt ioas,
    idevs s !! i = Some idev ∧ hwpts s !! h = Some hwpt ∧
    ioass s !! hwpt_ioas hwpt = Some ioas ∧
    idevs s' = <[i := idev_set_hwpt (Some h) idev]> (idevs s) ∧
    ∃ (msi : bool) (R : list (nat * (Z * Z))) (D : list nat),
      hwpts s' = <[h := mk_hwpt (hwpt_users hwpt + 1) (hwpt_ioas hwpt) (hwpt_domain hwpt)
                          (hwpt_auto_domain hwpt) ecc msi (i :: hwpt_devices hwpt)]> (hwpts s) ∧
      (hwpt_msi_cookie hwpt = true → msi = true) ∧
      ioass s' = <[hwpt_ioas hwpt := mk_ioas (ioas_users ioas) (ioas_hwpt_list ioas) R D]> (ioass s) ∧
      (msi_cookie_calls s' = msi_cookie_calls s ∨
       hwpt_msi_cookie hwpt = false ∧ msi = true ∧
       msi_cookie_calls s' = hwpt_domain hwpt :: msi_cookie_calls s).

(** [attach_result] for some final flag that is up whenever it was up
    before or the device requires it. *)
Definition attached (i : idev_id) (h : hwpt_id) (s s' : state) : Prop :=
  ∃ ecc : bool,
    attach_result ecc i h s s' ∧
    (∀ hwpt, hwpts s !! h = Some hwpt → hwpt_enforce_cache_coherency hwpt = true → ecc = true) ∧
    (∀ idev, idevs s !! i = Some idev → idev_enforce_cache_coherency idev = true → ecc = true).


(** The page tables that exist, each with its auto-created mark. *)
Definition hwpt_kinds (s : state) : gmap hwpt_id bool := hwpt_auto_domain <$> hwpts s.

(** The member list of every address space. *)
Definition member_lists (s : state) : gmap ioas_id (list hwpt_id) :=
  ioas_hwpt_list <$> ioass s.


(** Every device that requires enforced cache coherency and points to a
    page table points to one that enforces it. *)
Definition coherency_respected (s : state) : Prop :=
  ∀ i idev h hwpt,
    idevs s !! i = Some idev → idev_hwpt idev = Some h →
    hwpts s !! h = Some hwpt →
    idev_enforce_cache_coherency idev = true →
    hwpt_enforce_cache_coherency hwpt = true.

(** *** Sample environments and states *)

(** A platform with interrupt remapping and a driver that accepts
    everything. *)
Definition env_plain : Env :=
  mk_env (λ _ _, true) (λ d, Some d) false 1 (λ _, Some true)
    (λ _ _ _, (0, [], 0)) (λ _ _, 0) (λ _ _, 0) (λ _ _, 0) (λ _, 0) (λ _ _ _, (0, 7%nat)).

(** The driver cannot make the domain enforce cache coherency. *)
Definition env_no_upgrade : Env :=
  mk_env (λ _ _, true) (λ d, Some d) false 1 (λ _, Some false)
    (λ _ _ _, (0, [], 0)) (λ _ _, 0) (λ _ _, 0) (λ _ _, 0) (λ _, 0) (λ _ _ _, (0, 31%nat)).

(** A platform that needs a software MSI window; the driver upgrades the
    domain and installs the window, then refuses the group. *)
Definition env_group_refused : Env :=
  mk_env (λ _ c, match c with IOMMU_CAP_INTR_REMAP => false | _ => true end)
    (λ d, Some d) true 1 (λ _, Some true)
    (λ _ _ _, (0, [(134217728, 135266303)], 134217728))
    (λ _ _, 0) (λ _ _, - ENOMEM) (λ _ _, 0) (λ _, 0) (λ _ _ _, (0, 31%nat)).

(** A platform that needs a software MSI window, with a driver that
    accepts everything. *)
Definition env_sw_msi : Env :=
  mk_env (λ _ c, match c with IOMMU_CAP_INTR_REMAP => false | _ => true end)
    (λ d, Some d) true 1 (λ _, Some true)
    (λ _ _ _, (0, [(134217728, 135266303)], 134217728))
    (λ _ _, 0) (λ _ _, 0) (λ _ _, 0) (λ _, 0) (λ _ _ _, (0, 31%nat)).


(** Device 3 is already owned by context 9. *)
Definition st_owned : state :=
  mk_state ∅ ∅ ∅ [] [] (<[3%nat := (9%nat, 0%nat)]> ∅) (<[3%nat := 1]> ∅) ∅ [] 0.

(** Device 1 (requires enforced coherency) and device 2 are bound and
    unattached; page table 20 of address space 10 has no device yet. *)
Definition st_unattached : state :=
  mk_state
    (<[1%nat := mk_idev 1 0 None 100 200 true]>
       (<[2%nat := mk_idev 1 0 None 101 201 false]> ∅))
    (<[20%nat := mk_hwpt 1 10 30 false false false []]> ∅)
    (<[10%nat := mk_ioas 1 [] [] []]> ∅)
    [] [] ∅ ∅ ∅ [20%nat; 10%nat; 2%nat; 1%nat] 0.

(** Device 2 is attached to page table 20 of address space 10; device 1,
    which requires enforced coherency, is bound and unattached. *)
Definition st_one_attached : state :=
  mk_state
    (<[1%nat := mk_idev 1 0 None 100 200 true]>
       (<[2%nat := mk_idev 2 0 (Some 20%nat) 101 201 false]> ∅))
    (<[20%nat := mk_hwpt 2 10 30 false false false [2%nat]]> ∅)
    (<[10%nat := mk_ioas 1 [20%nat] [] [30%nat]]> ∅)
    [(30%nat, 201%nat)] [] ∅ ∅ ∅ [20%nat; 10%nat; 2%nat; 1%nat] 0.

(** Devices 1 and 2 are bound; address space 10 has no page table yet. *)
Definition st_bound_pair : state :=
  mk_state
    (<[1%nat := mk_idev 1 0 None 100 200 true]>
       (<[2%nat := mk_idev 1 0 None 101 201 false]> ∅))
    ∅
    (<[10%nat := mk_ioas 1 [] [] []]> ∅)
    [] [] ∅ ∅ ∅ [10%nat; 2%nat; 1%nat] 0.

(** Device 1 is attached to the auto-created page table 11 of address
    space 10; device 2 is bound and unattached. *)
Definition st_shared : state :=
  mk_state
    (<[1%nat := mk_idev 2 0 (Some 11%nat) 100 200 true]>
       (<[2%nat := mk_idev 1 0 None 101 201 false]> ∅))
    (<[11%nat := mk_hwpt 2 10 7 true true false [1%nat]]> ∅)
    (<[10%nat := mk_ioas 1 [11%nat] [] [7%nat]]> ∅)
    [(7%nat, 200%nat)] [] ∅ ∅ ∅ [11%nat; 10%nat; 2%nat; 1%nat] 0.

(** Address space 10 without page table; no device is bound.  Group 3
    and context 9 hold one reference each. *)
Definition st_ioas_only : state :=
  mk_state ∅ ∅ (<[10%nat := mk_ioas 1 [] [] []]> ∅) [] [] ∅
    (<[3%nat := 1]> ∅) (<[9%nat := 1]> ∅) [10%nat] 0.

(** [st_ioas_only] after device 3 was bound for context 9, as object 11,
    and attached through address space 10, which made page table 12. *)
Definition st_in_use : state :=
  mk_state
    (<[11%nat := mk_idev 3 9 (Some 12%nat) 3 3 true]> ∅)
    (<[12%nat := mk_hwpt 2 10 7 true true false [11%nat]]> ∅)
    (<[10%nat := mk_ioas 1 [12%nat] [] [7%nat]]> ∅)
    [(7%nat, 3%nat)] [] (<[3%nat := (9%nat, 0%nat)]> ∅)
    (<[3%nat := 2]> ∅) (<[9%nat := 2]> ∅) [12%nat; 11%nat; 10%nat] 0.

End Device.

(** ** Resources taken and given back by a sequence of calls *)

(** What one call does to the resources its caller holds. *)
Inductive change (R : Type) :=
  | Take (r : R)
  | Give (r : R)
  | Keep.

Arguments Take {R} r.
Arguments Give {R} r.
Arguments Keep {R}.

(** Take one [r] out of the resources held; no result when none is held. *)
Fixpoint remove_one {R : Type} `{EqDecision R} (r : R) (l : list R) : option (list R) :=
  match l with
  | [] => None
  | x :: l => if decide (x = r) then Some l else cons x <$> remove_one r l
  end.

Definition apply_change {R : Type} `{EqDecision R} (c : change R) (acc : list R) :
    option (list R) :=
  match c with
  | Take r => Some (r :: acc)
  | Give r => remove_one r acc
  | Keep => Some acc
  end.

(** The resources held after the calls of [log], starting from [acc], the
    latest first; no result when the log gives back what is not held. *)
Fixpoint held_from {C R : Type} `{EqDecision R} (effect : C → change R)
    (log : list C) (acc : list R) : option (list R) :=
  match log with
  | [] => Some acc
  | c :: log => acc ← apply_change (effect c) acc; held_from effect log acc
  end.

Definition held {C R : Type} `{EqDecision R} (effect : C → change R) (log : list C) :
    option (list R) :=
  held_from effect log [].

(** ** drivers/vfio/device_cdev.c *)

Module Vfio.

(** errno values (include/uapi/asm-generic/errno-base.h and errno.h) *)
Definition EFAULT : Z := 14.
Definition EOPNOTSUPP : Z := 95.

(** The block an ioctl argument points to, as the two handlers use it:
    the header words [argsz] and [flags], the fields behind them, and
    whether each of the three user copies faults. *)
Record user_arg := mk_user_arg {
  head_faults : bool;
  ext_faults : bool;
  out_faults : bool;
  argsz : Z;
  flags : Z;
  pt_id : Z;
  pasid : Z
}.

(** The local copy of the block ([attach], [detach]).  The extended field
    holds whatever the stack held when it was not fetched. *)
Record local_arg := mk_local_arg {
  l_flags : Z;
  l_pt_id : Z;
  l_pasid : Z
}.

(** [device->ops]: an operation the driver does not have is NULL.  An
    attach operation gives its errno and the id it leaves in [*pt_id]. *)
Record vfio_device_ops := mk_ops {
  attach_ioas : option (Z → Z * Z);
  detach_ioas : bool;
  pasid_attach_ioas : option (Z → Z → Z * Z);
  pasid_detach_ioas : bool
}.

(** Modelled from the spec: the absent include/uapi/linux/vfio.h.  The
    user-visible command encoding is out of the specification's scope, so
    the layout of the two argument structs and the two flag bits are
    parameters: [offsetofend] of the last initial field and of the most
    recent field, and the flag that marks the [pasid] field. *)
Record Env := mk_env {
  ops : vfio_device_ops;
  attach_minsz : Z;
  attach_xend : Z;
  VFIO_DEVICE_ATTACH_PASID : Z;
  detach_minsz : Z;
  detach_xend : Z;
  VFIO_DEVICE_DETACH_PASID : Z;
  stack_garbage : Z
}.

(** What a handler does that others can observe, in program order. *)
Inductive op_call :=
  | MutexLock
  | MutexUnlock
  | AttachIoas (pt_id : Z)
  | PasidAttachIoas (pasid pt_id : Z)
  | DetachIoas
  | PasidDetachIoas (pasid : Z).

Global Instance op_call_eq_dec : EqDecision op_call.
Proof. solve_decision. Defined.

(** [~x] on a [u32]. *)
Definition u32_not (x : Z) : Z := Z.lxor x 4294967295.

(** [vfio_copy_from_user]: the errno and whether the extended part of the
    struct was fetched. *)
Definition vfio_copy_from_user (u : user_arg) (minsz xend flags_mask xflags_mask : Z) :
    Z * bool :=
  if head_faults u then (- EFAULT, false)
  else if decide (argsz u < minsz) then (- EINVAL, false)
  else if decide (Z.land (flags u) (u32_not flags_mask) ≠ 0) then (- EINVAL, false)
  else if decide (Z.land (flags u) xflags_mask ≠ 0 ∧ xend ≠ 0) then
    if decide (argsz u < xend) then (- EINVAL, false)
    else if ext_faults u then (- EFAULT, false)
    else (0, true)
  else (0, false).

(** The local struct after [VFIO_COPY_USER_DATA]. *)
Definition local_of (e : Env) (u : user_arg) (fetched : bool) : local_arg :=
  mk_local_arg (flags u) (pt_id u) (if fetched then pasid u else stack_garbage e).

(** [vfio_df_ioctl_attach_pt]: the errno, the id written to [arg->pt_id]
    and the calls made; no result when a NULL operation is called. *)
Definition vfio_df_ioctl_attach_pt (e : Env) (u : user_arg) :
    option (Z * option Z * list op_call) :=
  let '(ret, fetched) :=
    vfio_copy_from_user u (attach_minsz e) (attach_xend e)
      (VFIO_DEVICE_ATTACH_PASID e) (VFIO_DEVICE_ATTACH_PASID e) in
  if decide (ret ≠ 0) then Some (ret, None, [])
  else
    let attach := local_of e u fetched in
    let with_pasid := bool_decide (Z.land (l_flags attach) (VFIO_DEVICE_ATTACH_PASID e) ≠ 0) in
    if with_pasid && bool_decide (pasid_attach_ioas (ops e) = None) then
      Some (- EOPNOTSUPP, None, [])
    else
      '(ret, pt, log) ←
        (if with_pasid then
           f ← pasid_attach_ioas (ops e);
           let '(ret, pt) := f (l_pasid attach) (l_pt_id attach) in
           Some (ret, pt, [MutexLock; PasidAttachIoas (l_pasid attach) (l_pt_id attach)])
         else
           f ← attach_ioas (ops e);
           let '(ret, pt) := f (l_pt_id attach) in
           Some (ret, pt, [MutexLock; AttachIoas (l_pt_id attach)]));
      if decide (ret ≠ 0) then
        (* out_unlock *)
        Some (ret, None, log ++ [MutexUnlock])
      else if out_faults u then
        (* out_detach, out_unlock *)
        if detach_ioas (ops e) then Some (- EFAULT, None, log ++ [DetachIoas; MutexUnlock])
        else None
      else Some (0, Some pt, log ++ [MutexUnlock]).

(** [vfio_df_ioctl_detach_pt]. *)
Definition vfio_df_ioctl_detach_pt (e : Env) (u : user_arg) : option (Z * list op_call) :=
  let '(ret, fetched) :=
    vfio_copy_from_user u (detach_minsz e) (detach_xend e)
      (VFIO_DEVICE_DETACH_PASID e) (VFIO_DEVICE_DETACH_PASID e) in
  if decide (ret ≠ 0) then Some (ret, [])
  else
    let detach := local_of e u fetched in
    let with_pasid := bool_decide (Z.land (l_flags detach) (VFIO_DEVICE_DETACH_PASID e) ≠ 0) in
    if with_pasid && negb (pasid_detach_ioas (ops e)) then Some (- EOPNOTSUPP, [])
    else if with_pasid then
      if pasid_detach_ioas (ops e) then
        Some (0, [MutexLock; PasidDetachIoas (l_pasid detach); MutexUnlock])
      else None
    else if detach_ioas (ops e) then Some (0, [MutexLock; DetachIoas; MutexUnlock])
    else None.

(** The struct layout and flags of include/uapi/linux/vfio.h, with a
    driver that has every operation and accepts every attach. *)
Definition env_pasid_driver : Env :=
  mk_env (mk_ops (Some (λ pt, (0, pt))) true (Some (λ _ pt, (0, pt))) true)
    12 16 1 8 12 1 3735928559.

(** The same with a driver that has no PASID operation. *)
Definition env_plain_driver : Env :=
  mk_env (mk_ops (Some (λ pt, (0, pt))) true None false) 12 16 1 8 12 1 3735928559.

(** A PASID attach request whose block cannot be written back. *)
Definition arg_pasid_readonly : user_arg := mk_user_arg false false true 16 1 7 5.

(** A plain attach request. *)
Definition arg_plain : user_arg := mk_user_arg false false false 12 0 7 0.

(** *** Binding the device file to an iommufd *)

Definition MAX_ERRNO : Z := 4095.

(** [IS_ERR] on a pointer read as a signed long: the last [MAX_ERRNO]
    addresses carry an errno, and [PTR_ERR] is the pointer itself. *)
Definition IS_ERR (p : Z) : bool := bool_decide (- MAX_ERRNO ≤ p < 0).

(** The fields of [struct vfio_device_file] and of its [struct vfio_device]
    that bind and unbind read or write: whether [df->group] is set,
    [df->access_granted], the pointer [df->iommufd] (0 is NULL) and
    [device->cdev_opened]. *)
Record device_file := mk_device_file {
  df_group : bool;
  df_access_granted : bool;
  df_iommufd : Z;
  cdev_opened : bool
}.

Definition set_df_iommufd (p : Z) (df : device_file) : device_file :=
  mk_device_file (df_group df) (df_access_granted df) p (cdev_opened df).

(** The [struct vfio_device_bind_iommufd] the ioctl argument points to,
    and whether the copy in and the copy out of [out_devid] fault. *)
Record bind_arg := mk_bind_arg {
  bind_in_faults : bool;
  bind_out_faults : bool;
  bind_argsz : Z;
  bind_flags : Z;
  bind_iommufd : Z
}.

(** Answers of the helpers of vfio.h and of iommufd: [offsetofend] of
    [out_devid], the errno of [vfio_device_block_group], the pointer
    [iommufd_ctx_from_fd] returns for a descriptor and the errno of
    [vfio_df_open]. *)
Record BindEnv := mk_bind_env {
  bind_minsz : Z;
  block_group_rc : Z;
  iommufd_ctx_from_fd : Z → Z;
  df_open_rc : Z
}.

(** The calls bind and unbind make, in program order, with what the call
    returned where the caller tests it. *)
Inductive cdev_call :=
  | BlockGroup (rc : Z)
  | UnblockGroup
  | DevSetLock
  | DevSetUnlock
  | CtxFromFd (fd p : Z)
  | CtxPut (p : Z)
  | KvmRefLock
  | GetKvmSafe
  | KvmRefUnlock
  | PutKvm
  | DfOpen (rc : Z)
  | DfClose
  | CopyDevid (faults : bool).

(** What a device file can hold from these calls.  [KvmRef] pairs
    [vfio_device_get_kvm_safe] with [vfio_device_put_kvm], which allows
    for a file without a KVM. *)
Inductive resource :=
  | GroupBlock
  | DevSetMutex
  | CtxRef (p : Z)
  | KvmRefSpin
  | KvmRef
  | DeviceOpen.

Global Instance resource_eq_dec : EqDecision resource.
Proof. solve_decision. Defined.

(** A call that reports failure has taken nothing. *)
Definition cdev_effect (c : cdev_call) : change resource :=
  match c with
  | BlockGroup rc => if decide (rc = 0) then Take GroupBlock else Keep
  | UnblockGroup => Give GroupBlock
  | DevSetLock => Take DevSetMutex
  | DevSetUnlock => Give DevSetMutex
  | CtxFromFd _ p => if IS_ERR p then Keep else Take (CtxRef p)
  | CtxPut p => Give (CtxRef p)
  | KvmRefLock => Take KvmRefSpin
  | GetKvmSafe => Take KvmRef
  | KvmRefUnlock => Give KvmRefSpin
  | PutKvm => Give KvmRef
  | DfOpen rc => if decide (rc = 0) then Take DeviceOpen else Keep
  | DfClose => Give DeviceOpen
  | CopyDevid _ => Keep
  end.

(** [vfio_df_get_kvm_safe] *)
Definition vfio_df_get_kvm_safe : list cdev_call :=
  [KvmRefLock; GetKvmSafe; KvmRefUnlock].

(** Label [out_unlock] of [vfio_df_ioctl_bind_iommufd]. *)
Definition bind_out_unlock (ret : Z) (df : device_file) (log : list cdev_call) :
    Z * device_file * list cdev_call :=
  (ret, df, log ++ [DevSetUnlock; UnblockGroup]).

(** Label [out_put_kvm]. *)
Definition bind_out_put_kvm (ret : Z) (df : device_file) (log : list cdev_call) :
    Z * device_file * list cdev_call :=
  let log := log ++ [PutKvm; CtxPut (df_iommufd df)] in
  let df := set_df_iommufd 0 df in
  bind_out_unlock ret df log.

(** Label [out_close_device]. *)
Definition bind_out_close_device (ret : Z) (df : device_file) (log : list cdev_call) :
    Z * device_file * list cdev_call :=
  bind_out_put_kvm ret df (log ++ [DfClose]).

(** [vfio_df_ioctl_bind_iommufd]: the errno, the device file afterwards
    and the calls made. *)
Definition vfio_df_ioctl_bind_iommufd (e : BindEnv) (u : bind_arg) (df : device_file) :
    Z * device_file * list cdev_call :=
  if bind_in_faults u then (- EFAULT, df, [])
  else if decide (bind_argsz u < bind_minsz e ∨ bind_flags u ≠ 0 ∨ bind_iommufd u < 0) then
    (- EINVAL, df, [])
  else if df_group df then (- EINVAL, df, [])
  else
    let ret := block_group_rc e in
    let log := [BlockGroup ret] in
    if decide (ret ≠ 0) then (ret, df, log)
    else
      let log := log ++ [DevSetLock] in
      if df_access_granted df then bind_out_unlock (- EINVAL) df log
      else
        let p := iommufd_ctx_from_fd e (bind_iommufd u) in
        let df := set_df_iommufd p df in
        let log := log ++ [CtxFromFd (bind_iommufd u) p] in
        if IS_ERR (df_iommufd df) then
          bind_out_unlock (df_iommufd df) (set_df_iommufd 0 df) log
        else
          let log := log ++ vfio_df_get_kvm_safe in
          let ret := df_open_rc e in
          let log := log ++ [DfOpen ret] in
          if decide (ret ≠ 0) then bind_out_put_kvm ret df log
          else
            let ret := if bind_out_faults u then - EFAULT else 0 in
            let log := log ++ [CopyDevid (bind_out_faults u)] in
            if decide (ret ≠ 0) then bind_out_close_device ret df log
            else
              let df := mk_device_file (df_group df) true (df_iommufd df) true in
              (0, df, log ++ [DevSetUnlock]).

(** [vfio_df_unbind_iommufd] *)
Definition vfio_df_unbind_iommufd (df : device_file) : device_file * list cdev_call :=
  if negb (df_access_granted df) then (df, [])
  else
    (mk_device_file (df_group df) (df_access_granted df) (df_iommufd df) false,
     [DevSetLock; DfClose; PutKvm; CtxPut (df_iommufd df); DevSetUnlock; UnblockGroup]).

(** A device file just opened, and a bind request for descriptor 3. *)
Definition df_unbound : device_file := mk_device_file false false 0 false.
Definition arg_bind : bind_arg := mk_bind_arg false false 16 0 3.

(** Helpers that all succeed, with the context at address 4096; the same
    with a device that cannot be opened. *)
Definition env_bind_ok : BindEnv := mk_bind_env 16 0 (λ _, 4096) 0.
Definition env_bind_no_open : BindEnv := mk_bind_env 16 0 (λ _, 4096) (- ENODEV).

End Vfio.

(** ** drivers/iommu/intel/nested.c *)

Module IntelNested.

(** An entry of [dmar_domain->dev_pasids]: the address of the
    [struct dev_pasid_info] and its [dev] and [pasid]. *)
Record dev_pasid_info := mk_dev_pasid_info {
  dpi_addr : nat;
  dpi_dev : nat;
  dpi_pasid : Z
}.

(** What the two attach functions read or write: [info->domain] of the
    device, and the lists [devices] and [dev_pasids] of the nested domain,
    the head first. *)
Record state := mk_state {
  info_domain : option nat;
  devices : list nat;
  dev_pasids : list dev_pasid_info
}.

(** Answers of the helpers of iommu.h and pasid.h: the address widths
    [iommu->agaw] and [s2_domain->agaw], [pasid_supported], the errnos of
    [prepare_domain_attach_device], [domain_attach_iommu] and
    [intel_pasid_setup_nested], the pointer [kzalloc] returns, the value of
    [IOMMU_NO_PASID], and the state [device_block_translation] leaves. *)
Record Env := mk_env {
  iommu_agaw : Z;
  s2_domain_agaw : Z;
  pasid_supported : bool;
  prepare_domain_attach_device : Z;
  kzalloc : option nat;
  domain_attach_iommu : Z;
  intel_pasid_setup_nested : Z → Z;
  IOMMU_NO_PASID : Z;
  device_block_translation : state → state
}.

(** The calls of the two attach functions, in program order, with what the
    call returned where the caller tests it.  The rate-limited messages
    are left out. *)
Inductive attach_call :=
  | DeviceBlockTranslation
  | PrepareDomainAttachDevice (rc : Z)
  | Kzalloc (p : option nat)
  | Kfree (p : nat)
  | DomainAttachIommu (rc : Z)
  | DomainDetachIommu
  | IntelPasidSetupNested (pasid rc : Z)
  | DomainLock
  | DomainUnlock.

Inductive resource :=
  | Allocation (p : nat)
  | IommuAttachment
  | DomainSpinLock.

Global Instance resource_eq_dec : EqDecision resource.
Proof. solve_decision. Defined.

(** A call that reports failure has taken nothing; a PASID entry is not
    counted, the caller never takes it back. *)
Definition attach_effect (c : attach_call) : change resource :=
  match c with
  | Kzalloc (Some p) => Take (Allocation p)
  | Kfree p => Give (Allocation p)
  | DomainAttachIommu rc => if decide (rc = 0) then Take IommuAttachment else Keep
  | DomainDetachIommu => Give IommuAttachment
  | DomainLock => Take DomainSpinLock
  | DomainUnlock => Give DomainSpinLock
  | _ => Keep
  end.

(** [intel_nested_attach_dev] for the device [dev] and the nested domain at
    [dom]. *)
Definition intel_nested_attach_dev (e : Env) (dom dev : nat) (s : state) :
    Z * state * list attach_call :=
  let '(s, log) :=
    match info_domain s with
    | Some _ => (device_block_translation e s, [DeviceBlockTranslation])
    | None => (s, [])
    end in
  if decide (iommu_agaw e < s2_domain_agaw e) then (- ENODEV, s, log)
  else
    let ret := prepare_domain_attach_device e in
    let log := log ++ [PrepareDomainAttachDevice ret] in
    if decide (ret ≠ 0) then (ret, s, log)
    else
      let ret := domain_attach_iommu e in
      let log := log ++ [DomainAttachIommu ret] in
      if decide (ret ≠ 0) then (ret, s, log)
      else
        let ret := intel_pasid_setup_nested e (IOMMU_NO_PASID e) in
        let log := log ++ [IntelPasidSetupNested (IOMMU_NO_PASID e) ret] in
        if decide (ret ≠ 0) then (ret, s, log ++ [DomainDetachIommu])
        else
          let s := mk_state (Some dom) (dev :: devices s) (dev_pasids s) in
          (0, s, log ++ [DomainLock; DomainUnlock]).

(** [intel_nested_set_dev_pasid] *)
Definition intel_nested_set_dev_pasid (e : Env) (dev : nat) (pasid : Z) (s : state) :
    Z * state * list attach_call :=
  if negb (pasid_supported e) then (- Vfio.EOPNOTSUPP, s, [])
  else if decide (iommu_agaw e < s2_domain_agaw e) then (- EINVAL, s, [])
  else
    let ret := prepare_domain_attach_device e in
    let log := [PrepareDomainAttachDevice ret] in
    if decide (ret ≠ 0) then (ret, s, log)
    else
      let log := log ++ [Kzalloc (kzalloc e)] in
      match kzalloc e with
      | None => (- ENOMEM, s, log)
      | Some dev_pasid =>
          let ret := domain_attach_iommu e in
          let log := log ++ [DomainAttachIommu ret] in
          if decide (ret ≠ 0) then
            (* err_free *)
            (ret, s, log ++ [Kfree dev_pasid])
          else
            let ret := intel_pasid_setup_nested e pasid in
            let log := log ++ [IntelPasidSetupNested pasid ret] in
            if decide (ret ≠ 0) then
              (* err_detach_iommu, err_free *)
              (ret, s, log ++ [DomainDetachIommu; Kfree dev_pasid])
            else
              let s :=
                mk_state (info_domain s) (devices s)
                  (mk_dev_pasid_info dev_pasid dev pasid :: dev_pasids s) in
              (0, s, log ++ [DomainLock; DomainUnlock])
      end.

(** One [struct iommu_hwpt_vtd_s1_invalidate] of the user's array: [addr]
    and [npages] are [u64], [flags] and [__reserved] are [u32]. *)
Record iommu_hwpt_vtd_s1_invalidate := mk_invalidate {
  inv_addr : Z;
  inv_npages : Z;
  inv_flags : Z;
  inv_reserved : Z
}.

(** The user's array and the constants of the absent headers:
    [fetch i] is the errno of [iommu_copy_struct_from_user_array] at index
    [i] and the entry it copied, [iommu_array] the IOMMUs of the domain in
    index order, [ret_uninit] what the local [ret] holds before it is
    first assigned. *)
Record InvEnv := mk_inv_env {
  fetch : nat → Z * iommu_hwpt_vtd_s1_invalidate;
  IOMMU_VTD_INV_FLAGS_LEAF : Z;
  VTD_PAGE_SHIFT : Z;
  iommu_array : list nat;
  ret_uninit : Z
}.

Definition VTD_PAGE_SIZE (e : InvEnv) : Z := Z.shiftl 1 (VTD_PAGE_SHIFT e).

(** [IS_ALIGNED(x, a)] *)
Definition IS_ALIGNED (x a : Z) : bool := bool_decide (Z.land x (a - 1) = 0).

Inductive flush_call :=
  | IntelFlushIotlbAll
  | IommuFlushIotlbPsi (iommu : nat) (pfn npages : Z).

(** [domain_flush_iotlb_psi] *)
Definition domain_flush_iotlb_psi (e : InvEnv) (addr npages : Z) : list flush_call :=
  (λ iommu, IommuFlushIotlbPsi iommu (Z.shiftr addr (VTD_PAGE_SHIFT e)) npages)
    <$> iommu_array e.

(** The test that makes the loop give up on a fetched entry. *)
Definition inv_rejected (e : InvEnv) (inv_info : iommu_hwpt_vtd_s1_invalidate) : bool :=
  bool_decide (inv_reserved inv_info ≠ 0) ||
  bool_decide (Z.land (inv_flags inv_info) (Vfio.u32_not (IOMMU_VTD_INV_FLAGS_LEAF e)) ≠ 0) ||
  negb (IS_ALIGNED (inv_addr inv_info) (VTD_PAGE_SIZE e)).

(** The flush of one entry; [-1] compared with a [u64] is [2^64 - 1]. *)
Definition inv_flush (e : InvEnv) (inv_info : iommu_hwpt_vtd_s1_invalidate) :
    list flush_call :=
  if decide (inv_addr inv_info = 0 ∧ inv_npages inv_info = 18446744073709551615) then
    [IntelFlushIotlbAll]
  else domain_flush_iotlb_psi e (inv_addr inv_info) (inv_npages inv_info).

(** The loop of [intel_nested_cache_invalidate_user] with [todo] entries
    left from [index] on: the value of [ret] and of [index] when it ends,
    and the flushes. *)
Fixpoint invalidate_loop (e : InvEnv) (todo index : nat) (ret : Z) :
    Z * nat * list flush_call :=
  match todo with
  | O => (ret, index, [])
  | S todo =>
      let '(ret, inv_info) := fetch e index in
      if decide (ret ≠ 0) then (ret, index, [])
      else if inv_rejected e inv_info then (- EINVAL, index, [])
      else
        let '(ret, index', log) := invalidate_loop e todo (S index) ret in
        (ret, index', inv_flush e inv_info ++ log)
  end.

(** [intel_nested_cache_invalidate_user]: the errno, [array->entry_num]
    and [*cerror_idx] afterwards, and the flushes. *)
Definition intel_nested_cache_invalidate_user (e : InvEnv) (entry_num : nat) :
    Z * nat * Z * list flush_call :=
  let '(ret, index, log) := invalidate_loop e entry_num 0 (ret_uninit e) in
  (ret, index, 0, log).

(** An array of three entries: a range flush, a flush of everything, and
    an entry with a misaligned address; one IOMMU in the domain. *)
Definition env_three_entries : InvEnv :=
  mk_inv_env
    (λ i, match i with
          | 0%nat => (0, mk_invalidate 8192 2 1 0)
          | 1%nat => (0, mk_invalidate 0 18446744073709551615 0 0)
          | _ => (0, mk_invalidate 4097 1 0 0)
          end)
    1 12 [0%nat] 3735928559.

(** Helpers that all succeed; the same with a PASID entry that cannot be
    set up. *)
Definition env_attach_ok : Env :=
  mk_env 2 2 true 0 (Some 64%nat) 0 (λ _, 0) 0 (λ s, mk_state None [] (dev_pasids s)).
Definition env_no_pasid_entry : Env :=
  mk_env 2 2 true 0 (Some 64%nat) 0 (λ _, - EBUSY) 0 (λ s, mk_state None [] (dev_pasids s)).

Definition st_detached : state := mk_state None [] [].

End IntelNested.

(** * Properties of pasid.c *)

Section pasid_properties.
Import Pasid.

Lemma alter_inc_dec (m : gmap nat Z) (h : nat) :
  alter (λ n, n - 1) h (alter (λ n, n + 1) h m) = m.
Proof.
  rewrite alter_alter_eq. apply alter_id. intros x _. simpl. lia.
Qed.

Lemma alter_inc_insert (m : gmap nat Z) (h : nat) (n : Z) :
  m !! h = Some n → alter (λ n, n + 1) h m = <[h := n + 1]> m.
Proof.
  intros Hn. apply map_eq. intros k. rewrite lookup_alter, lookup_insert.
  case_decide; subst; [by rewrite Hn|done].
Qed.

Lemma do_replace_swapped (e : Env) (idev : idev_id) (pasid : ioasid_t)
    (A B : hwpt_id) (s : state) :
  pasid_hwpts s !! (idev, pasid) = Some A →
  A ≠ B →
  hwpt_replace_device_rc e idev pasid B A = 0 →
  iommufd_device_pasid_do_replace e idev pasid B s =
    (PtrHwpt A,
     emit (EvHwReplace idev pasid B A)
       (emit (EvXaPublish idev pasid B)
          (set_pasid_hwpts (insert (idev, pasid) B) (refcount_inc B s)))).
Proof.
  intros HA Hne Hrc.
  unfold iommufd_device_pasid_do_replace, xa_store. simpl. rewrite HA. simpl.
  rewrite (decide_False (P := A = B)) by done.
  unfold iommufd_hwpt_replace_device. by rewrite Hrc.
Qed.

Lemma do_replace_restored (e : Env) (idev : idev_id) (pasid : ioasid_t)
    (A B : hwpt_id) (s : state) :
  pasid_hwpts s !! (idev, pasid) = Some A →
  A ≠ B →
  hwpt_replace_device_rc e idev pasid B A ≠ 0 →
  iommufd_device_pasid_do_replace e idev pasid B s =
    (PtrErr (hwpt_replace_device_rc e idev pasid B A),
     refcount_dec B
       (emit (EvXaPublish idev pasid A)
          (set_pasid_hwpts (insert (idev, pasid) A)
             (emit (EvHwReplace idev pasid B A)
                (emit (EvXaPublish idev pasid B)
                   (set_pasid_hwpts (insert (idev, pasid) B) (refcount_inc B s))))))).
Proof.
  intros HA Hne Hrc.
  unfold iommufd_device_pasid_do_replace, xa_store. simpl. rewrite HA. simpl.
  rewrite (decide_False (P := A = B)) by done.
  unfold iommufd_hwpt_replace_device.
  rewrite (decide_True (P := _ ≠ 0)) by done.
  simpl. rewrite lookup_insert_eq. unfold put_hwpt, ERR_PTR.
  by rewrite decide_False by done.
Qed.

(** C2: a key bound to A and replaced by a different B.  When the hardware
    swap succeeds the key is bound to B, B has one more reference, A keeps
    its own and is returned.  When the swap fails the errno is returned,
    and the mapping and all reference counts are as before. *)
Theorem pasid_replace_atomic (e : Env) (idev : idev_id) (pasid : ioasid_t)
    (A B : hwpt_id) (n : Z) (s : state) :
  pasid_hwpts s !! (idev, pasid) = Some A →
  A ≠ B →
  hwpt_users s !! B = Some n →
  let r := iommufd_device_pasid_do_replace e idev pasid B s in
  (hwpt_replace_device_rc e idev pasid B A = 0 →
     r.1 = PtrHwpt A ∧
     pasid_hwpts r.2 = <[(idev, pasid) := B]> (pasid_hwpts s) ∧
     hwpt_users r.2 = <[B := n + 1]> (hwpt_users s) ∧
     hwpt_users r.2 !! A = hwpt_users s !! A) ∧
  (hwpt_replace_device_rc e idev pasid B A ≠ 0 →
     r.1 = PtrErr (hwpt_replace_device_rc e idev pasid B A) ∧
     pasid_hwpts r.2 = pasid_hwpts s ∧
     hwpt_users r.2 = hwpt_users s).
Proof.
  intros HA Hne HB r. subst r. split; intros Hrc.
  - rewrite (do_replace_swapped e idev pasid A B s HA Hne Hrc). simpl.
    split; [done|]. split; [done|].
    rewrite (alter_inc_insert _ _ _ HB). split; [done|].
    by rewrite lookup_insert_ne.
  - rewrite (do_replace_restored e idev pasid A B s HA Hne Hrc). simpl.
    split; [done|]. split.
    + rewrite insert_insert_eq. by apply insert_id.
    + apply alter_inc_dec.
Qed.

Lemma pasid_replace_atomic_witness :
  (iommufd_device_pasid_do_replace env_ok 0 5 2 st_bound).1 = PtrHwpt 1%nat ∧
  (iommufd_device_pasid_do_replace env_hw_fails 0 5 2 st_bound).1 = PtrErr (- EINVAL).
Proof.
  assert (H1 : pasid_hwpts st_bound !! (0%nat, 5%nat) = Some 1%nat) by reflexivity.
  assert (H2 : (1 ≠ 2)%nat) by lia.
  assert (H3 : hwpt_users st_bound !! 2%nat = Some 1) by reflexivity.
  split.
  - apply (pasid_replace_atomic env_ok 0 5 1 2 1 st_bound H1 H2 H3). reflexivity.
  - apply (pasid_replace_atomic env_hw_fails 0 5 1 2 1 st_bound H1 H2 H3). vm_compute. discriminate.
Defined.

(** C10: a replace on a key that holds no mapping fails with an errno,
    leaves the key without mapping (the whole xarray is as before) and
    leaves every reference count as it was. *)
Theorem pasid_replace_unmapped (e : Env) (idev : idev_id) (pasid : ioasid_t)
    (B : hwpt_id) (s : state) :
  pasid_hwpts s !! (idev, pasid) = None →
  let r := iommufd_device_pasid_do_replace e idev pasid B s in
  (∃ rc, rc ≠ 0 ∧ r.1 = PtrErr rc) ∧
  pasid_hwpts r.2 !! (idev, pasid) = None ∧
  pasid_hwpts r.2 = pasid_hwpts s ∧
  hwpt_users r.2 = hwpt_users s.
Proof.
  intros Hnone r. subst r.
  unfold iommufd_device_pasid_do_replace, xa_store. simpl. rewrite Hnone.
  destruct (xa_nomem e idev pasid); simpl.
  - split; [exists (- ENOMEM); split; done|].
    split; [done|]. split; [done|]. apply alter_inc_dec.
  - split; [exists (- EINVAL); split; done|].
    rewrite delete_insert_id by done.
    split; [done|]. split; [done|]. apply alter_inc_dec.
Qed.

Lemma pasid_replace_unmapped_witness :
  pasid_hwpts (iommufd_device_pasid_do_replace env_ok 0 5 2 st_fresh).2 !! (0%nat, 5%nat) = None.
Proof.
  apply (pasid_replace_unmapped env_ok 0 5 2 st_fresh). reflexivity.
Defined.

(** C4, as the code has it: what [iommufd_device_pasid_do_attach] returns
    and leaves behind in each case.  A key bound to another page table
    gives -EBUSY, a key bound to the same one gives NULL, both with maps
    and trace untouched.  On a free key the mapping is published first and
    the hardware set up second; when the set-up fails the mapping is
    erased again and the reference dropped. *)
Theorem pasid_attach_cases (e : Env) (idev : idev_id) (pasid : ioasid_t)
    (H : hwpt_id) (s : state) :
  let r := iommufd_device_pasid_do_attach e idev pasid H s in
  match pasid_hwpts s !! (idev, pasid) with
  | Some cur =>
      r.1 = (if decide (cur = H) then PtrNull else PtrErr (- EBUSY)) ∧
      pasid_hwpts r.2 = pasid_hwpts s ∧ hwpt_users r.2 = hwpt_users s ∧
      trace r.2 = trace s
  | None =>
      if xa_nomem e idev pasid then
        r.1 = PtrErr (- ENOMEM) ∧
        pasid_hwpts r.2 = pasid_hwpts s ∧ hwpt_users r.2 = hwpt_users s ∧
        trace r.2 = trace s
      else if decide (hwpt_attach_device_rc e H idev pasid = 0) then
        r.1 = PtrNull ∧
        pasid_hwpts r.2 = <[(idev, pasid) := H]> (pasid_hwpts s) ∧
        hwpt_users r.2 = alter (λ n, n + 1) H (hwpt_users s) ∧
        trace r.2 = trace s ++ [EvXaPublish idev pasid H; EvHwAttach H idev pasid]
      else
        r.1 = PtrErr (hwpt_attach_device_rc e H idev pasid) ∧
        pasid_hwpts r.2 = pasid_hwpts s ∧ hwpt_users r.2 = hwpt_users s ∧
        trace r.2 = trace s ++ [EvXaPublish idev pasid H; EvHwAttach H idev pasid;
                                EvXaErase idev pasid]
  end.
Proof.
  intros r. subst r.
  unfold iommufd_device_pasid_do_attach, xa_cmpxchg_null. simpl.
  destruct (pasid_hwpts s !! (idev, pasid)) as [cur|] eqn:Hcur; simpl.
  - rewrite alter_inc_dec. destruct (decide (cur = H)) as [->|Hne].
    + rewrite decide_True by done. done.
    + rewrite (decide_False (P := PtrHwpt cur = PtrHwpt H)) by congruence. done.
  - destruct (xa_nomem e idev pasid); simpl.
    + by rewrite alter_inc_dec.
    + destruct (decide (hwpt_attach_device_rc e H idev pasid = 0)) as [Hrc|Hrc].
      * rewrite Hrc. simpl. by rewrite <- !app_assoc.
      * rewrite (decide_True (P := _ ≠ 0)) by done. simpl.
        unfold ERR_PTR. rewrite decide_False by done.
        rewrite delete_insert_id by done. rewrite alter_inc_dec.
        by rewrite <- !app_assoc.
Qed.

(** C4 as stated fails: in a successful attach on a free key the mapping
    is published before the hardware is set up, not after. *)
Lemma pasid_attach_publishes_first :
  (iommufd_device_pasid_do_attach env_ok 0 5 1 st_fresh).1 = PtrNull ∧
  trace (iommufd_device_pasid_do_attach env_ok 0 5 1 st_fresh).2
    = [EvXaPublish 0 5 1; EvHwAttach 1 0 5] ∧
  ¬ published_after_setup 0 5 1
      (trace (iommufd_device_pasid_do_attach env_ok 0 5 1 st_fresh).2).
Proof.
  split; [reflexivity|]. split; [reflexivity|].
  intros Hp. destruct (Hp 0%nat) as (j & Hj & _); [reflexivity|lia].
Qed.

(** Scenario B: PASID 5 of device 0 is attached to page table 1; the same
    attach again is a no-op; an attach to page table 2 fails with -EBUSY
    and changes nothing. *)
Example pasid_attach_scenario_b :
  let r1 := iommufd_device_pasid_do_attach env_ok 0 5 1 st_fresh in
  let r2 := iommufd_device_pasid_do_attach env_ok 0 5 1 r1.2 in
  let r3 := iommufd_device_pasid_do_attach env_ok 0 5 2 r1.2 in
  r1.1 = PtrNull ∧ pasid_hwpts r1.2 !! (0%nat, 5%nat) = Some 1%nat ∧
  hwpt_users r1.2 !! 1%nat = Some 2 ∧
  r2 = (PtrNull, r1.2) ∧
  r3 = (PtrErr (- EBUSY), r1.2).
Proof. repeat split; vm_compute; reflexivity. Qed.

End pasid_properties.

(** * The life cycle of a (device, PASID) key *)

Section pasid_life_cycle.
Import Pasid.

Lemma alter_two_balanced (m : gmap nat Z) (A B : nat) :
  alter (λ n, n - 1) B (alter (λ n, n - 1) A (alter (λ n, n + 1) B (alter (λ n, n + 1) A m))) = m.
Proof.
  apply map_eq. intros k. rewrite !lookup_alter.
  repeat case_decide; subst; destruct (m !! k); simpl; f_equal; lia.
Qed.

(** X1: [iommufd_device_pasid_detach] on a key that holds no mapping only
    fires its [WARN_ON]: the xarray and every reference count are as
    before and the hardware is not asked to tear anything down. *)
Theorem pasid_detach_unmapped (idev : idev_id) (pasid : ioasid_t) (d : detach_state) :
  pasid_hwpts (ds_state d) !! (idev, pasid) = None →
  let d' := iommufd_device_pasid_detach idev pasid d in
  pasid_hwpts (ds_state d') = pasid_hwpts (ds_state d) ∧
  hwpt_users (ds_state d') = hwpt_users (ds_state d) ∧
  ds_torn_down d' = ds_torn_down d ∧
  ds_warnings d' = S (ds_warnings d).
Proof.
  intros Hnone d'. subst d'.
  unfold iommufd_device_pasid_detach, xa_erase_entry. rewrite Hnone. simpl.
  split; [by apply delete_id|done].
Qed.

Lemma pasid_detach_unmapped_witness :
  ds_warnings (iommufd_device_pasid_detach 0 5 (mk_detach_state st_fresh [] 0)) = 1%nat.
Proof.
  apply (pasid_detach_unmapped 0 5 (mk_detach_state st_fresh [] 0)). reflexivity.
Defined.

(** X2: a successful [iommufd_device_pasid_do_attach] on a free key
    followed by [iommufd_device_pasid_detach] of the key leaves the xarray
    and every reference count as they were before the attach; the detach
    tears down exactly the attachment made, and warns about nothing. *)
Theorem pasid_attach_detach_round_trip (e : Env) (idev : idev_id) (pasid : ioasid_t)
    (H : hwpt_id) (s : state) (td : list (hwpt_id * idev_id * ioasid_t)) (w : nat) :
  pasid_hwpts s !! (idev, pasid) = None →
  xa_nomem e idev pasid = false →
  hwpt_attach_device_rc e H idev pasid = 0 →
  let r := iommufd_device_pasid_do_attach e idev pasid H s in
  let d := iommufd_device_pasid_detach idev pasid (mk_detach_state r.2 td w) in
  r.1 = PtrNull ∧
  pasid_hwpts r.2 !! (idev, pasid) = Some H ∧
  pasid_hwpts (ds_state d) = pasid_hwpts s ∧
  hwpt_users (ds_state d) = hwpt_users s ∧
  ds_torn_down d = (H, idev, pasid) :: td ∧
  ds_warnings d = w.
Proof.
  intros Hnone Hmem Hrc r d. subst d r.
  unfold iommufd_device_pasid_do_attach, xa_cmpxchg_null. simpl.
  rewrite Hnone, Hmem. simpl.
  unfold iommufd_hwpt_attach_device. rewrite Hrc. simpl.
  split; [done|]. split; [apply lookup_insert_eq|].
  unfold iommufd_device_pasid_detach, xa_erase_entry. simpl.
  rewrite lookup_insert_eq. simpl.
  split; [by apply delete_insert_id|]. split; [apply alter_inc_dec|done].
Qed.

Lemma pasid_attach_detach_round_trip_witness :
  hwpt_users (ds_state (iommufd_device_pasid_detach 0 5
                          (mk_detach_state
                             (iommufd_device_pasid_do_attach env_ok 0 5 1 st_fresh).2 [] 0)))
    = hwpt_users st_fresh.
Proof.
  apply (pasid_attach_detach_round_trip env_ok 0 5 1 st_fresh [] 0); reflexivity.
Defined.

(** X3: [iommufd_device_pasid_do_replace] with the page table the key is
    already bound to returns NULL and changes neither the mapping nor any
    reference count; the hardware is not called (only the store into the
    xarray is seen). *)
Theorem pasid_replace_same_hwpt (e : Env) (idev : idev_id) (pasid : ioasid_t)
    (H : hwpt_id) (s : state) :
  pasid_hwpts s !! (idev, pasid) = Some H →
  let r := iommufd_device_pasid_do_replace e idev pasid H s in
  r.1 = PtrNull ∧
  pasid_hwpts r.2 = pasid_hwpts s ∧
  hwpt_users r.2 = hwpt_users s ∧
  trace r.2 = trace s ++ [EvXaPublish idev pasid H].
Proof.
  intros HH r. subst r.
  unfold iommufd_device_pasid_do_replace, xa_store. simpl. rewrite HH. simpl.
  rewrite decide_True by done. simpl.
  split; [done|]. split; [by apply insert_id|]. split; [apply alter_inc_dec|done].
Qed.

Lemma pasid_replace_same_hwpt_witness :
  (iommufd_device_pasid_do_replace env_hw_fails 0 5 1 st_bound).1 = PtrNull.
Proof.
  apply (pasid_replace_same_hwpt env_hw_fails 0 5 1 st_bound). reflexivity.
Defined.

(** X4: a whole life of a key.  It is attached to A, replaced by B, the
    caller puts the A that the replace handed back, and the key is
    detached.  Afterwards the xarray and every reference count are as at
    the start; the detach tore down the attachment to B. *)
Theorem pasid_life_cycle_balanced (e : Env) (idev : idev_id) (pasid : ioasid_t)
    (A B : hwpt_id) (s : state) :
  pasid_hwpts s !! (idev, pasid) = None →
  xa_nomem e idev pasid = false →
  A ≠ B →
  hwpt_attach_device_rc e A idev pasid = 0 →
  hwpt_replace_device_rc e idev pasid B A = 0 →
  let r1 := iommufd_device_pasid_do_attach e idev pasid A s in
  let r2 := iommufd_device_pasid_do_replace e idev pasid B r1.2 in
  let d := iommufd_device_pasid_detach idev pasid
             (iommufd_hw_pagetable_put A (mk_detach_state r2.2 [] 0)) in
  r1.1 = PtrNull ∧ r2.1 = PtrHwpt A ∧
  pasid_hwpts r2.2 !! (idev, pasid) = Some B ∧
  pasid_hwpts (ds_state d) = pasid_hwpts s ∧
  hwpt_users (ds_state d) = hwpt_users s ∧
  ds_torn_down d = [(B, idev, pasid)] ∧
  ds_warnings d = 0%nat.
Proof.
  intros Hnone Hmem Hne HrcA HrcB r1 r2 d.
  assert (E1 : r1 = (PtrNull,
            emit (EvHwAttach A idev pasid)
              (emit (EvXaPublish idev pasid A)
                 (set_pasid_hwpts (insert (idev, pasid) A) (refcount_inc A s))))).
  { subst r1. unfold iommufd_device_pasid_do_attach, xa_cmpxchg_null. simpl.
    rewrite Hnone, Hmem. simpl. unfold iommufd_hwpt_attach_device. by rewrite HrcA. }
  assert (HA : pasid_hwpts r1.2 !! (idev, pasid) = Some A).
  { rewrite E1. simpl. apply lookup_insert_eq. }
  pose proof (do_replace_swapped e idev pasid A B r1.2 HA Hne HrcB) as E2.
  fold r2 in E2. subst d. rewrite E2. rewrite E1. simpl.
  split; [done|]. split; [done|]. split; [apply lookup_insert_eq|].
  unfold iommufd_device_pasid_detach, xa_erase_entry. simpl.
  rewrite lookup_insert_eq. simpl.
  split.
  { rewrite insert_insert_eq. by apply delete_insert_id. }
  split; [apply alter_two_balanced|done].
Qed.

Lemma pasid_life_cycle_balanced_witness :
  hwpt_users
    (ds_state
       (iommufd_device_pasid_detach 0 5
          (iommufd_hw_pagetable_put 1
             (mk_detach_state
                (iommufd_device_pasid_do_replace env_ok 0 5 2
                   (iommufd_device_pasid_do_attach env_ok 0 5 1 st_fresh).2).2 [] 0))))
    = hwpt_users st_fresh.
Proof.
  assert (Hne : (1 ≠ 2)%nat) by lia.
  apply (pasid_life_cycle_balanced env_ok 0 5 1 2 st_fresh eq_refl eq_refl Hne eq_refl eq_refl).
Defined.

(** X5: the three operations on one key leave every other key of the
    xarray as it was, and change the reference count of no page table but
    the one they are given (for the detach: the one the key is bound
    to). *)
Theorem pasid_other_keys_untouched (e : Env) (idev : idev_id) (pasid : ioasid_t)
    (H : hwpt_id) (s : state) (d : detach_state) (k : idev_id * ioasid_t) (H' : hwpt_id) :
  k ≠ (idev, pasid) →
  H' ≠ H →
  let ra := iommufd_device_pasid_do_attach e idev pasid H s in
  let rr := iommufd_device_pasid_do_replace e idev pasid H s in
  let d' := iommufd_device_pasid_detach idev pasid d in
  pasid_hwpts ra.2 !! k = pasid_hwpts s !! k ∧
  hwpt_users ra.2 !! H' = hwpt_users s !! H' ∧
  pasid_hwpts rr.2 !! k = pasid_hwpts s !! k ∧
  hwpt_users rr.2 !! H' = hwpt_users s !! H' ∧
  pasid_hwpts (ds_state d') !! k = pasid_hwpts (ds_state d) !! k ∧
  (pasid_hwpts (ds_state d) !! (idev, pasid) ≠ Some H' →
   hwpt_users (ds_state d') !! H' = hwpt_users (ds_state d) !! H').
Proof.
  intros Hk HH ra rr d'. subst ra rr d'.
  split; [|split; [|split; [|split; [|split]]]].
  - unfold iommufd_device_pasid_do_attach, xa_cmpxchg_null, iommufd_hwpt_attach_device. simpl.
    destruct (pasid_hwpts s !! (idev, pasid)); simpl;
      repeat (case_decide || case_match); simplify_eq; simpl;
      rewrite ?lookup_delete_ne, ?lookup_insert_ne by done; done.
  - unfold iommufd_device_pasid_do_attach, xa_cmpxchg_null, iommufd_hwpt_attach_device. simpl.
    destruct (pasid_hwpts s !! (idev, pasid)); simpl;
      repeat (case_decide || case_match); simplify_eq; simpl;
      rewrite ?lookup_alter_ne by done; done.
  - unfold iommufd_device_pasid_do_replace, xa_store, iommufd_hwpt_replace_device. simpl.
    destruct (pasid_hwpts s !! (idev, pasid)) eqn:Hc; simpl;
      repeat (case_decide || case_match); simplify_eq; simpl;
      rewrite ?lookup_delete_ne, ?lookup_insert_ne by done; done.
  - unfold iommufd_device_pasid_do_replace, xa_store, iommufd_hwpt_replace_device. simpl.
    destruct (pasid_hwpts s !! (idev, pasid)) eqn:Hc; simpl;
      repeat (case_decide || case_match); simplify_eq; simpl;
      rewrite ?lookup_alter_ne by done; done.
  - unfold iommufd_device_pasid_detach, xa_erase_entry.
    destruct (pasid_hwpts (ds_state d) !! (idev, pasid)); simpl;
      by rewrite lookup_delete_ne.
  - intros Hm. unfold iommufd_device_pasid_detach, xa_erase_entry.
    destruct (pasid_hwpts (ds_state d) !! (idev, pasid)) as [X|]; simpl; [|done].
    rewrite lookup_alter_ne; [done|]. congruence.
Qed.

Lemma pasid_other_keys_untouched_witness :
  pasid_hwpts (iommufd_device_pasid_do_replace env_ok 0 6 2 st_bound).2 !! (0%nat, 5%nat)
    = pasid_hwpts st_bound !! (0%nat, 5%nat).
Proof.
  assert (Hk : (0%nat, 5%nat) ≠ (0%nat, 6%nat)) by (intros [=]).
  assert (Hh : (1 ≠ 2)%nat) by lia.
  apply (pasid_other_keys_untouched env_ok 0 6 2 st_bound (mk_detach_state st_bound [] 0)
           (0%nat, 5%nat) 1 Hk Hh).
Defined.

End pasid_life_cycle.

(** * Properties of device.c *)

Section device_properties.
Import Device.

(** ** Binding a device *)

Lemma claim_release_owner (dev : dev_id) (ictx : ctx_id) (s s1 : state) :
  iommu_device_claim_dma_owner dev ictx s = (0, s1) →
  iommu_device_release_dma_owner dev s1 = s.
Proof.
  unfold iommu_device_claim_dma_owner, iommu_device_release_dma_owner.
  destruct s as [ds hs os gd mc own gr cr fin w]. simpl.
  destruct (own !! dev) as [[o more]|] eqn:Hown.
  - case_decide; [|discriminate]. intros [= <-]. simpl.
    rewrite lookup_insert_eq. unfold set_dma_owner. simpl.
    rewrite insert_insert_eq. by rewrite insert_id.
  - intros [= <-]. simpl. rewrite lookup_insert_eq. unfold set_dma_owner. simpl.
    by rewrite delete_insert_id.
Qed.

Lemma claim_owner_owned (dev : dev_id) (ictx : ctx_id) (s s1 : state) :
  iommu_device_claim_dma_owner dev ictx s = (0, s1) →
  (∃ more, dma_owner s1 !! dev = Some (ictx, more)) ∧
  idevs s1 = idevs s ∧ hwpts s1 = hwpts s ∧ ioass s1 = ioass s ∧
  group_refs s1 = group_refs s.
Proof.
  unfold iommu_device_claim_dma_owner.
  destruct (dma_owner s !! dev) as [[o more]|] eqn:Hown.
  - case_decide; [|discriminate]. intros [= <-]. simpl. subst o.
    rewrite lookup_insert_eq. split; [eauto|done].
  - intros [= <-]. simpl. rewrite lookup_insert_eq. split; [eauto|done].
Qed.

Lemma claim_owner_refused (dev : dev_id) (ictx : ctx_id) (rc : Z) (s s1 : state) :
  iommu_device_claim_dma_owner dev ictx s = (rc, s1) → rc ≠ 0 → s1 = s.
Proof.
  unfold iommu_device_claim_dma_owner.
  destruct (dma_owner s !! dev) as [[o more]|].
  - case_decide; intros [= <- <-]; done.
  - intros [= <- <-]; done.
Qed.

Lemma fresh_id_unused (s : state) :
  idevs s !! fresh_id s = None ∧ hwpts s !! fresh_id s = None ∧ ioass s !! fresh_id s = None.
Proof.
  pose proof (is_fresh (dom (idevs s) ∪ dom (hwpts s) ∪ dom (ioass s))) as Hf.
  fold (fresh_id s) in Hf.
  rewrite <- !not_elem_of_dom. set_solver.
Qed.

Lemma group_put_get (g : group_id) (s : state) :
  iommu_group_put g (set_group_refs (alter (λ n, n + 1) g) s) = s.
Proof.
  destruct s. unfold iommu_group_put, set_group_refs. simpl.
  by rewrite alter_inc_dec.
Qed.

(** C9: the outcomes of [iommufd_device_bind].  Without the cache
    coherency capability it fails with -EINVAL before anything is claimed.
    A device held by another owner makes it fail with the errno of the
    refused claim, a failed allocation with the errno of the allocation.
    Whenever it fails, DMA ownership and group references are as before
    the call.  When it succeeds, the context owns the device and the new
    object records the device, the context and the group. *)
Theorem bind_outcomes (e : Env) (ictx : ctx_id) (dev : dev_id) (s : state) :
  let r := iommufd_device_bind e ictx dev s in
  (device_iommu_capable e dev IOMMU_CAP_CACHE_COHERENCY = false →
     r = (inl (- EINVAL), s)) ∧
  (∀ g o more,
     device_iommu_capable e dev IOMMU_CAP_CACHE_COHERENCY = true →
     iommu_group_of e dev = Some g →
     dma_owner s !! dev = Some (o, more) → o ≠ ictx →
     r = (inl (- EPERM), s)) ∧
  (∀ g,
     device_iommu_capable e dev IOMMU_CAP_CACHE_COHERENCY = true →
     iommu_group_of e dev = Some g →
     (∀ o more, dma_owner s !! dev = Some (o, more) → o = ictx) →
     object_alloc_rc e ictx ≠ 0 →
     r = (inl (object_alloc_rc e ictx), s)) ∧
  (∀ rc, r.1 = inl rc →
     rc ≠ 0 ∧ dma_owner r.2 = dma_owner s ∧ group_refs r.2 = group_refs s ∧
     idevs r.2 = idevs s) ∧
  (∀ idev, r.1 = inr idev →
     idevs s !! idev = None ∧
     (∃ more, dma_owner r.2 !! dev = Some (ictx, more)) ∧
     ∃ g d, iommu_group_of e dev = Some g ∧
       idevs r.2 !! idev = Some d ∧
       idev_group d = g ∧ idev_dev d = dev ∧ idev_ictx d = ictx ∧
       idev_hwpt d = None ∧
       group_refs r.2 = alter (λ n, n + 1) g (group_refs s)).
Proof.
  intros r. subst r. unfold iommufd_device_bind.
  destruct (device_iommu_capable e dev IOMMU_CAP_CACHE_COHERENCY) eqn:Hcap; simpl.
  2:{ split; [done|]. split; [done|]. split; [done|]. split; [|done].
      intros rc [= <-]. done. }
  split; [done|].
  unfold iommu_group_get.
  destruct (iommu_group_of e dev) as [g|] eqn:Hg.
  2:{ simpl. split; [done|]. split; [done|]. split; [|done].
      intros rc [= <-]. done. }
  destruct (iommu_device_claim_dma_owner dev ictx
              (set_group_refs (alter (λ n, n + 1) g) s)) as [rc s1] eqn:Hclaim.
  destruct (decide (rc ≠ 0)) as [Hrc|Hrc].
  - pose proof (claim_owner_refused _ _ _ _ _ Hclaim Hrc) as ->.
    rewrite group_put_get.
    split.
    { intros g' o more _ [= <-] Hown Hne.
      unfold iommu_device_claim_dma_owner in Hclaim. simpl in Hclaim.
      rewrite Hown in Hclaim. rewrite decide_False in Hclaim by done.
      by simplify_eq. }
    split.
    { intros g' _ _ Hsame _. exfalso.
      unfold iommu_device_claim_dma_owner in Hclaim. simpl in Hclaim.
      destruct (dma_owner s !! dev) as [[o more]|] eqn:Hown.
      - rewrite decide_True in Hclaim by eauto. by simplify_eq.
      - by simplify_eq. }
    split; [|done].
    simpl. intros rc' [= <-]. done.
  - assert (rc = 0) as -> by (destruct (decide (rc = 0)); [done|exfalso; auto]).
    pose proof (claim_release_owner _ _ _ _ Hclaim) as Hrel.
    pose proof (claim_owner_owned _ _ _ _ Hclaim) as (Hown1 & Hi1 & Hh1 & Ha1 & Hg1).
    split.
    { intros g' o more _ [= <-] Hown Hne. exfalso.
      unfold iommu_device_claim_dma_owner in Hclaim. simpl in Hclaim.
      rewrite Hown in Hclaim. rewrite decide_False in Hclaim by done.
      discriminate. }
    unfold iommufd_object_alloc_idev.
    destruct (decide (object_alloc_rc e ictx ≠ 0)) as [Ha|Ha].
    + rewrite Hrel, group_put_get. split; [done|]. split; [|done].
      simpl. intros rc' [= <-]. done.
    + split; [done|]. split; [done|].
      simpl. intros idev [= <-].
      assert (fresh_id s1 = fresh_id s) as Hfr.
      { unfold fresh_id. by rewrite Hi1, Hh1, Ha1. }
      rewrite Hfr.
      split; [apply fresh_id_unused|].
      split; [done|].
      eexists g, _. split; [done|].
      rewrite !lookup_alter_eq, lookup_insert_eq. simpl.
      split; [done|]. repeat split; try done.
Qed.

Lemma bind_outcomes_witness :
  iommufd_device_bind env_plain 1 3 st_owned = (inl (- EPERM), st_owned) ∧
  (iommufd_device_bind env_plain 9 3 st_owned).1 = inr 0%nat ∧
  ∃ more, dma_owner (iommufd_device_bind env_plain 9 3 st_owned).2 !! 3%nat
          = Some (9%nat, more).
Proof.
  pose proof (bind_outcomes env_plain 1 3 st_owned) as (_ & Hbusy & _).
  pose proof (bind_outcomes env_plain 9 3 st_owned) as (_ & _ & _ & _ & Hok).
  split; [|split].
  - apply (Hbusy 3%nat 9%nat 0%nat); [reflexivity|reflexivity|reflexivity|lia].
  - reflexivity.
  - apply (Hok 0%nat). reflexivity.
Defined.

(** ** The shared attach algorithm *)

Lemma alter_as_insert {A} (m : gmap nat A) (k : nat) (f : A → A) (x : A) :
  m !! k = Some x → alter f k m = <[k := f x]> m.
Proof.
  intros Hx. apply map_eq. intros j. rewrite lookup_alter, lookup_insert.
  case_decide; subst; [by rewrite Hx|done].
Qed.

Lemma filter_owner_fresh (dev : nat) (ranges : list (Z * Z)) :
  filter (λ r : nat * (Z * Z), r.1 ≠ dev) ((λ r, (dev, r)) <$> ranges) = [].
Proof.
  induction ranges as [|r l IH]; [done|].
  simpl. rewrite filter_cons_False; [done|]. simpl. auto.
Qed.

Lemma remove_attachment_cons x l : remove_attachment x (x :: l) = l.
Proof. simpl. by rewrite decide_True. Qed.

Lemma hwpt_flags_eta (p : iommufd_hw_pagetable) :
  hwpt_set_msi_cookie (hwpt_msi_cookie p)
    (hwpt_set_enforce_cache_coherency (hwpt_enforce_cache_coherency p) p) = p.
Proof. by destruct p. Qed.

Lemma setup_msi_effect e i h sw flags s rc s' :
  iommufd_device_setup_msi e i h sw flags s = Some (rc, s') →
  idevs s' = idevs s ∧ ioass s' = ioass s ∧ group_domains s' = group_domains s ∧
  dma_owner s' = dma_owner s ∧ group_refs s' = group_refs s ∧
  ctx_refs s' = ctx_refs s ∧ finalized s' = finalized s ∧
  ∃ hwpt, hwpts s !! h = Some hwpt ∧
    ((hwpts s' = hwpts s ∧ msi_cookie_calls s' = msi_cookie_calls s) ∨
     (hwpt_msi_cookie hwpt = false ∧ rc ≠ 0 ∧ hwpts s' = hwpts s ∧
      msi_cookie_calls s' = hwpt_domain hwpt :: msi_cookie_calls s) ∨
     (hwpt_msi_cookie hwpt = false ∧ rc = 0 ∧
      hwpts s' = <[h := hwpt_set_msi_cookie true hwpt]> (hwpts s) ∧
      msi_cookie_calls s' = hwpt_domain hwpt :: msi_cookie_calls s)).
Proof.
  unfold iommufd_device_setup_msi. intros Hs.
  destruct (idevs s !! i) as [idev|] eqn:Hi; [|done].
  destruct (hwpts s !! h) as [hwpt|] eqn:Hh; [|done]. simpl in Hs.
  destruct (device_iommu_capable e (idev_dev idev) IOMMU_CAP_INTR_REMAP).
  { simplify_eq. do 7 (split; [done|]). exists hwpt. split; [done|]. by left. }
  destruct (irq_domain_check_msi_remap e).
  2:{ case_decide; simplify_eq; (do 7 (split; [done|])); exists hwpt; (split; [done|]); by left. }
  case_decide.
  { simplify_eq. do 7 (split; [done|]). exists hwpt. split; [done|]. by left. }
  destruct (hwpt_msi_cookie hwpt) eqn:Hm.
  { simplify_eq. do 7 (split; [done|]). exists hwpt. split; [done|]. by left. }
  unfold iommu_get_msi_cookie in Hs.
  case_decide as Hrc; simplify_eq; simpl.
  - do 7 (split; [done|]). exists hwpt. split; [done|]. right. left.
    split; [done|]. split; [tauto|done].
  - do 7 (split; [done|]). exists hwpt. split; [done|]. right. right.
    split; [done|]. split; [done|]. split; [|done].
    by apply alter_as_insert.
Qed.

Lemma reserved_round_trip (m : gmap nat iommufd_ioas) (a dev : nat) (io : iommufd_ioas)
    (ranges : list (Z * Z)) :
  m !! a = Some io →
  alter (λ io, ioas_set_reserved (filter (λ r, r.1 ≠ dev) (iopt_reserved io)) io) a
    (alter (λ io, ioas_set_reserved (iopt_reserved io ++ ((λ r, (dev, r)) <$> ranges)) io) a m)
  = <[a := ioas_set_reserved (filter (λ r, r.1 ≠ dev) (iopt_reserved io)) io]> m.
Proof.
  intros Hio. rewrite alter_alter_eq. rewrite (alter_as_insert _ _ _ _ Hio).
  f_equal. simpl. unfold ioas_set_reserved. simpl. f_equal.
  by rewrite filter_app, filter_owner_fresh, app_nil_r.
Qed.

Lemma do_attach_resv_failure e i h flags s rc s' io hwpt0 :
  hwpts s !! h = Some hwpt0 →
  ioass s !! hwpt_ioas hwpt0 = Some io →
  do_attach_resv e i h flags s = Some (rc, s') →
  rc ≠ 0 →
  rolled_back i h s s'.
Proof.
  intros Hh Hio Hs Hrc. unfold do_attach_resv in Hs.
  destruct (idevs s !! i) as [idev|] eqn:Hi; [|done].
  rewrite Hh in Hs. simpl in Hs.
  unfold iopt_table_enforce_group_resv_regions in Hs.
  destruct (resv_regions e (hwpt_ioas hwpt0) (idev_dev idev) (idev_group idev))
    as [[rc0 ranges] sw].
  set (s1 := upd_ioas _ _ s) in Hs.
  assert (Hfin : ∀ s2 msi,
    idevs s2 = idevs s → ioass s2 = ioass s1 → group_domains s2 = group_domains s →
    dma_owner s2 = dma_owner s → group_refs s2 = group_refs s →
    ctx_refs s2 = ctx_refs s → finalized s2 = finalized s →
    hwpts s2 = <[h := hwpt_set_msi_cookie msi hwpt0]> (hwpts s) →
    (hwpt_msi_cookie hwpt0 = true → msi = true) →
    (msi_cookie_calls s2 = msi_cookie_calls s ∨
     hwpt_msi_cookie hwpt0 = false ∧
     msi_cookie_calls s2 = hwpt_domain hwpt0 :: msi_cookie_calls s) →
    rolled_back i h s (iopt_remove_reserved_iova (hwpt_ioas hwpt0) (idev_dev idev) s2)).
  { intros s2 msi E1 E2 E3 E4 E5 E6 E7 E8 Hm Hc.
    unfold rolled_back. simpl. do 6 (split; [done|]).
    exists idev, hwpt0, io. do 3 (split; [done|]).
    exists (hwpt_enforce_cache_coherency hwpt0), msi,
      (filter (λ r, r.1 ≠ idev_dev idev) (iopt_reserved io)).
    split. { rewrite E8. by destruct hwpt0. }
    split; [done|]. split; [done|].
    split; [|split; [by right|done]].
    rewrite E2. subst s1. simpl. by apply reserved_round_trip. }
  assert (Hid : hwpts s = <[h := hwpt_set_msi_cookie (hwpt_msi_cookie hwpt0) hwpt0]> (hwpts s)).
  { symmetry. apply insert_id. rewrite Hh. by destruct hwpt0. }
  case_decide as Hrc0.
  { injection Hs as <- <-. apply (Hfin s1 (hwpt_msi_cookie hwpt0)); try done. by left. }
  destruct (iommufd_device_setup_msi e i h sw flags s1) as [[rc1 s2]|] eqn:Hmsi; [|done].
  simpl in Hs.
  apply setup_msi_effect in Hmsi as (M1 & M2 & M3 & M4 & M5 & M6 & M7 & hw & Hhw & Hcases).
  assert (hw = hwpt0) as -> by (subst s1; simpl in Hhw; congruence).
  change (idevs s1) with (idevs s) in M1. change (group_domains s1) with (group_domains s) in M3.
  change (dma_owner s1) with (dma_owner s) in M4. change (group_refs s1) with (group_refs s) in M5.
  change (ctx_refs s1) with (ctx_refs s) in M6. change (finalized s1) with (finalized s) in M7.
  change (hwpts s1) with (hwpts s) in Hcases.
  change (msi_cookie_calls s1) with (msi_cookie_calls s) in Hcases.
  assert (∃ msi, hwpts s2 = <[h := hwpt_set_msi_cookie msi hwpt0]> (hwpts s) ∧
                 (hwpt_msi_cookie hwpt0 = true → msi = true) ∧
                 (msi_cookie_calls s2 = msi_cookie_calls s ∨
                  hwpt_msi_cookie hwpt0 = false ∧
                  msi_cookie_calls s2 = hwpt_domain hwpt0 :: msi_cookie_calls s))
    as (msi & Hh2 & Hmono & Hcalls).
  { destruct Hcases as [[E Ec]|[(Hf & _ & E & Ec)|(Hf & _ & E & Ec)]].
    - exists (hwpt_msi_cookie hwpt0). rewrite E. split; [done|]. split; [done|]. by left.
    - exists (hwpt_msi_cookie hwpt0). rewrite E. split; [done|]. split; [done|]. by right.
    - exists true. rewrite E. split; [done|]. split; [done|]. by right. }
  case_decide as Hrc1.
  { injection Hs as <- <-. apply (Hfin s2 msi); done. }
  assert (rc1 = 0) as -> by lia. clear Hrc1.
  destruct (iommufd_hw_pagetable_has_group h (idev_group idev) s2) as [has|] eqn:Hhas; [|done].
  simpl in Hs.
  destruct has.
  - (* the group is attached already *)
    simpl in Hs.
    destruct (hwpt_devices hwpt0) as [|c l] eqn:Hdevs.
    + exfalso. unfold iommufd_hw_pagetable_has_group in Hhas.
      rewrite Hh2, lookup_insert_eq in Hhas. simpl in Hhas.
      rewrite Hdevs in Hhas. discriminate.
    + simpl in Hs. injection Hs as <- _. done.
  - unfold iommu_attach_group in Hs.
    case_decide as Hatt.
    + rewrite (decide_True (P := _ ≠ 0)) in Hs by done.
      injection Hs as <- <-. apply (Hfin s2 msi); done.
    + simpl in Hs.
      destruct (list_empty (hwpt_devices hwpt0)).
      * unfold iopt_table_add_domain in Hs.
        case_decide as Hadd.
        -- rewrite (decide_True (P := _ ≠ 0)) in Hs by done.
           unfold out_detach, out_iova, out_unlock in Hs. injection Hs as <- <-.
           match goal with |- rolled_back _ _ _ (iopt_remove_reserved_iova _ _ ?x) =>
             assert (x = s2) as -> end.
           { unfold iommu_detach_group, set_group_domains. destruct s2. simpl.
             by rewrite decide_True. }
           apply (Hfin s2 msi); done.
        -- simpl in Hs. injection Hs as <- _. done.
      * simpl in Hs. injection Hs as <- _. done.
Qed.

Lemma do_attach_resv_success e i h flags s s' io hwpt0 :
  hwpts s !! h = Some hwpt0 →
  ioass s !! hwpt_ioas hwpt0 = Some io →
  do_attach_resv e i h flags s = Some (0, s') →
  attach_result (hwpt_enforce_cache_coherency hwpt0) i h s s'.
Proof.
  intros Hh Hio Hs. unfold do_attach_resv in Hs.
  destruct (idevs s !! i) as [idev|] eqn:Hi; [|done].
  rewrite Hh in Hs. simpl in Hs.
  unfold iopt_table_enforce_group_resv_regions in Hs.
  destruct (resv_regions e (hwpt_ioas hwpt0) (idev_dev idev) (idev_group idev))
    as [[rc0 ranges] sw].
  set (s1 := upd_ioas _ _ s) in Hs.
  case_decide as Hrc0; [unfold out_iova, out_unlock in Hs; by simplify_eq|].
  destruct (iommufd_device_setup_msi e i h sw flags s1) as [[rc1 s2]|] eqn:Hmsi; [|done].
  simpl in Hs.
  apply setup_msi_effect in Hmsi as (M1 & M2 & M3 & M4 & M5 & M6 & M7 & hw & Hhw & Hcases).
  assert (hw = hwpt0) as -> by (subst s1; simpl in Hhw; congruence).
  change (idevs s1) with (idevs s) in M1. change (group_domains s1) with (group_domains s) in M3.
  change (dma_owner s1) with (dma_owner s) in M4. change (group_refs s1) with (group_refs s) in M5.
  change (ctx_refs s1) with (ctx_refs s) in M6. change (finalized s1) with (finalized s) in M7.
  change (hwpts s1) with (hwpts s) in Hcases.
  change (msi_cookie_calls s1) with (msi_cookie_calls s) in Hcases.
  case_decide as Hrc1; [unfold out_iova, out_unlock in Hs; by simplify_eq|].
  assert (rc1 = 0) as -> by lia. clear Hrc1.
  assert (∃ msi, hwpts s2 = <[h := hwpt_set_msi_cookie msi hwpt0]> (hwpts s) ∧
                 (hwpt_msi_cookie hwpt0 = true → msi = true) ∧
                 (msi_cookie_calls s2 = msi_cookie_calls s ∨
                  hwpt_msi_cookie hwpt0 = false ∧ msi = true ∧
                  msi_cookie_calls s2 = hwpt_domain hwpt0 :: msi_cookie_calls s))
    as (msi & Hh2 & Hmono & Hcalls).
  { destruct Hcases as [[E Ec]|[(Hf & Hne & E & Ec)|(Hf & _ & E & Ec)]].
    - exists (hwpt_msi_cookie hwpt0). rewrite E. split; [|split; [done|by left]].
      symmetry. apply insert_id. rewrite Hh. by destruct hwpt0.
    - done.
    - exists true. rewrite E. split; [done|]. split; [done|]. by right. }
  assert (Ha2 : ioass s2 = <[hwpt_ioas hwpt0 :=
              mk_ioas (ioas_users io) (ioas_hwpt_list io)
                (iopt_reserved io ++ ((λ r, (idev_dev idev, r)) <$> ranges))
                (iopt_domains io)]> (ioass s)).
  { rewrite M2. subst s1. simpl. by rewrite (alter_as_insert _ _ _ _ Hio). }
  assert (Hfin : ∀ s3,
    idevs s3 = idevs s → hwpts s3 = hwpts s2 → dma_owner s3 = dma_owner s →
    group_refs s3 = group_refs s → ctx_refs s3 = ctx_refs s → finalized s3 = finalized s →
    msi_cookie_calls s3 = msi_cookie_calls s2 →
    (∃ R D, ioass s3 = <[hwpt_ioas hwpt0 := mk_ioas (ioas_users io) (ioas_hwpt_list io) R D]> (ioass s)) →
    attach_result (hwpt_enforce_cache_coherency hwpt0) i h s
      (upd_hwpt h (λ p, hwpt_set_devices (list_add i (hwpt_devices p)) p)
         (refcount_inc_hwpt h (upd_idev i (idev_set_hwpt (Some h)) s3)))).
  { intros s3 E1 E2 E3 E4 E5 E6 E7 (R & D & E8).
    unfold attach_result. simpl. do 4 (split; [done|]).
    exists idev, hwpt0, io. do 3 (split; [done|]).
    split. { rewrite E1. by apply alter_as_insert. }
    exists msi, R, D.
    split.
    { rewrite alter_alter_eq, E2, Hh2.
      rewrite (alter_as_insert _ _ _ (hwpt_set_msi_cookie msi hwpt0)) by apply lookup_insert_eq.
      by rewrite insert_insert_eq. }
    split; [done|]. split; [done|]. by rewrite E7. }
  assert (Hadd : ∀ s3, ioass s3 = ioass s2 →
    ∃ R D, alter (λ io0, ioas_set_domains (iopt_domains io0 ++ [hwpt_domain hwpt0]) io0)
             (hwpt_ioas hwpt0) (ioass s3)
           = <[hwpt_ioas hwpt0 := mk_ioas (ioas_users io) (ioas_hwpt_list io) R D]> (ioass s)).
  { intros s3 E. rewrite E, Ha2. eexists _, _.
    rewrite (alter_as_insert _ _ _ _ (lookup_insert_eq _ _ _)).
    rewrite insert_insert_eq. reflexivity. }
  destruct (iommufd_hw_pagetable_has_group h (idev_group idev) s2) as [has|] eqn:Hhas; [|done].
  simpl in Hs.
  destruct has.
  - simpl in Hs.
    destruct (hwpt_devices hwpt0) as [|c l] eqn:Hdevs.
    + exfalso. unfold iommufd_hw_pagetable_has_group in Hhas.
      rewrite Hh2, lookup_insert_eq in Hhas. simpl in Hhas.
      rewrite Hdevs in Hhas. discriminate.
    + simpl in Hs. injection Hs as <-. apply Hfin; try done. eauto.
  - unfold iommu_attach_group in Hs.
    case_decide as Hatt.
    + rewrite (decide_True (P := _ ≠ 0)) in Hs by done.
      unfold out_iova, out_unlock in Hs. by simplify_eq.
    + simpl in Hs.
      destruct (list_empty (hwpt_devices hwpt0)).
      * unfold iopt_table_add_domain in Hs.
        case_decide as Hadd'.
        -- rewrite (decide_True (P := _ ≠ 0)) in Hs by done.
           unfold out_detach, out_iova, out_unlock in Hs. by simplify_eq.
        -- simpl in Hs. injection Hs as <-. apply Hfin; try done. by apply Hadd.
      * simpl in Hs. injection Hs as <-. apply Hfin; try done. eauto.
Qed.

Lemma rolled_back_after_upgrade i h b s s' hwpt :
  hwpts s !! h = Some hwpt →
  hwpt_enforce_cache_coherency hwpt = false →
  rolled_back i h (upd_hwpt h (hwpt_set_enforce_cache_coherency b) s) s' →
  rolled_back i h s s'.
Proof.
  intros Hh Hecc (E1 & E2 & E3 & E4 & E5 & E6 & idev & hwpt1 & io & Hi & Hh1 & Hio & R).
  destruct R as (ecc & msi & R & Hhs & _ & Hmsi & Hio' & HR & Hcalls).
  simpl in *. rewrite lookup_alter_eq, Hh in Hh1. simpl in Hh1.
  injection Hh1 as <-. simpl in *.
  unfold rolled_back. do 6 (split; [done|]).
  exists idev, hwpt, io. do 3 (split; [done|]).
  exists ecc, msi, R. split.
  { rewrite Hhs. by rewrite insert_alter_eq. }
  split; [congruence|]. done.
Qed.

Lemma attach_result_after_upgrade ecc i h b s s' :
  attach_result ecc i h (upd_hwpt h (hwpt_set_enforce_cache_coherency b) s) s' →
  attach_result ecc i h s s'.
Proof.
  intros (E3 & E4 & E5 & E6 & idev & hwpt1 & io & Hi & Hh1 & Hio & Hi' & R).
  destruct R as (msi & R & D & Hhs & Hmsi & Hio' & Hcalls).
  simpl in *. rewrite lookup_alter_eq in Hh1.
  destruct (hwpts s !! h) as [hwpt|] eqn:Hh; [|done]. simpl in Hh1.
  injection Hh1 as <-. simpl in *.
  unfold attach_result. do 4 (split; [done|]).
  exists idev, hwpt, io. do 4 (split; [done|]).
  exists msi, R, D. split; [|done].
  rewrite Hhs. by rewrite insert_alter_eq.
Qed.

Lemma do_attach_failure e i h flags s rc s' :
  iommufd_device_do_attach e i h flags s = Some (rc, s') →
  rc ≠ 0 →
  rolled_back i h s s'.
Proof.
  intros Hs Hrc. unfold iommufd_device_do_attach in Hs.
  destruct (idevs s !! i) as [idev|] eqn:Hi; [|done].
  destruct (hwpts s !! h) as [hwpt|] eqn:Hh; [|done]. simpl in Hs.
  destruct (ioass s !! hwpt_ioas hwpt) as [io|] eqn:Hio; [|done]. simpl in Hs.
  destruct (idev_enforce_cache_coherency idev && negb (hwpt_enforce_cache_coherency hwpt))
    eqn:Hup.
  2:{ by apply (do_attach_resv_failure e i h flags s rc s' io hwpt). }
  apply andb_true_iff in Hup as [Hreq Hnot]. apply negb_true_iff in Hnot.
  assert (Hsame : ∀ w, rolled_back i h s (WARN_ON w s)).
  { intros w. unfold rolled_back.
    destruct w; simpl; (do 6 (split; [done|]));
      exists idev, hwpt, io; (do 3 (split; [done|]));
      exists (hwpt_enforce_cache_coherency hwpt), (hwpt_msi_cookie hwpt), (iopt_reserved io);
      (split; [symmetry; apply insert_id; rewrite Hh; by destruct hwpt|]);
      (split; [done|]); (split; [done|]);
      (split; [symmetry; apply insert_id; rewrite Hio; by destruct io|]);
      (split; by left). }
  destruct (domain_enforce_cache_coherency e (hwpt_domain hwpt)) as [b|] eqn:Hop.
  - simpl in Hs. rewrite lookup_alter_eq, Hh in Hs. simpl in Hs.
    destruct b; simpl in Hs.
    + apply (rolled_back_after_upgrade i h true s s' hwpt Hh Hnot).
      by apply (do_attach_resv_failure e i h flags _ rc s' io
                  (hwpt_set_enforce_cache_coherency true hwpt));
        [simpl; rewrite lookup_alter_eq, Hh|..].
    + unfold out_unlock in Hs. injection Hs as <- <-.
      assert (upd_hwpt h (hwpt_set_enforce_cache_coherency false) s = s) as ->; [|done].
      destruct s. unfold upd_hwpt, set_hwpts. simpl in *. f_equal.
      apply alter_id. intros x Hx. assert (x = hwpt) as -> by congruence.
      destruct hwpt. simpl in *. by subst.
  - rewrite Hh in Hs. simpl in Hs. rewrite Hnot in Hs. simpl in Hs.
    unfold out_unlock in Hs. injection Hs as <- <-. done.
Qed.

Lemma do_attach_success e i h flags s s' :
  iommufd_device_do_attach e i h flags s = Some (0, s') →
  attached i h s s'.
Proof.
  intros Hs. unfold iommufd_device_do_attach in Hs.
  destruct (idevs s !! i) as [idev|] eqn:Hi; [|done].
  destruct (hwpts s !! h) as [hwpt|] eqn:Hh; [|done]. simpl in Hs.
  destruct (ioass s !! hwpt_ioas hwpt) as [io|] eqn:Hio; [|done]. simpl in Hs.
  destruct (idev_enforce_cache_coherency idev && negb (hwpt_enforce_cache_coherency hwpt))
    eqn:Hup.
  2:{ exists (hwpt_enforce_cache_coherency hwpt).
      split; [by apply (do_attach_resv_success e i h flags s s' io hwpt)|].
      split; [intros ? ? ?; congruence|].
      intros idev' ? Hreq. assert (idev' = idev) as -> by congruence.
      rewrite Hreq in Hup. simpl in Hup. by apply negb_false_iff in Hup. }
  apply andb_true_iff in Hup as [Hreq Hnot]. apply negb_true_iff in Hnot.
  destruct (domain_enforce_cache_coherency e (hwpt_domain hwpt)) as [b|] eqn:Hop.
  - simpl in Hs. rewrite lookup_alter_eq, Hh in Hs. simpl in Hs.
    destruct b; simpl in Hs; [|done].
    exists true. split; [|done].
    apply (attach_result_after_upgrade true i h true s s').
    by apply (do_attach_resv_success e i h flags _ s' io
                (hwpt_set_enforce_cache_coherency true hwpt));
      [simpl; rewrite lookup_alter_eq, Hh|..].
  - rewrite Hh in Hs. simpl in Hs. rewrite Hnot in Hs. simpl in Hs. done.
Qed.


Lemma devices_have_group_returns (ds : gmap nat iommufd_device) (l : list nat) (g : nat) :
  (∀ c, c ∈ l → is_Some (ds !! c)) → is_Some (devices_have_group ds l g).
Proof.
  induction l as [|c l IH]; intros Hall; simpl; [eauto|].
  destruct (Hall c) as [d Hd]; [by left|]. rewrite Hd. simpl.
  case_decide; [eauto|]. apply IH. intros c' Hc'. apply Hall. by right.
Qed.



Lemma filter_owner_id (dev : nat) (l : list (nat * (Z * Z))) :
  (∀ r, r ∈ l → r.1 ≠ dev) → filter (λ r : nat * (Z * Z), r.1 ≠ dev) l = l.
Proof.
  induction l as [|r l IH]; intros Hall; [done|].
  rewrite filter_cons_True by (apply Hall; by left).
  f_equal. apply IH. intros r' Hr'. apply Hall. by right.
Qed.

(** C1, as the code has it: after a failing [iommufd_device_do_attach]
    the binding is untouched (it points where it pointed), the page table
    has the devices and the reference count it had, the group attachments
    and the domains of the address space are as before, and of the
    reserved ranges at most those owned by the device are gone.  What is
    not undone is an upgrade of the domain and an MSI window request that
    were made before the failing step: the two flags of the page table may
    have been raised (never lowered).  When they were not, and the device
    owned no reserved range, page tables and address spaces are exactly
    as before. *)
Theorem do_attach_failure_rollback (e : Env) (i : idev_id) (h : hwpt_id) (flags rc : Z)
    (s s' : state) :
  iommufd_device_do_attach e i h flags s = Some (rc, s') →
  rc ≠ 0 →
  ∃ idev hwpt ioas hwpt' ioas',
    idevs s !! i = Some idev ∧ hwpts s !! h = Some hwpt ∧
    ioass s !! hwpt_ioas hwpt = Some ioas ∧
    idevs s' = idevs s ∧
    hwpts s' = <[h := hwpt']> (hwpts s) ∧
    hwpt_devices hwpt' = hwpt_devices hwpt ∧
    hwpt_users hwpt' = hwpt_users hwpt ∧
    hwpt_ioas hwpt' = hwpt_ioas hwpt ∧
    hwpt_domain hwpt' = hwpt_domain hwpt ∧
    hwpt_auto_domain hwpt' = hwpt_auto_domain hwpt ∧
    (hwpt_enforce_cache_coherency hwpt = true → hwpt_enforce_cache_coherency hwpt' = true) ∧
    (hwpt_msi_cookie hwpt = true → hwpt_msi_cookie hwpt' = true) ∧
    ioass s' = <[hwpt_ioas hwpt := ioas']> (ioass s) ∧
    ioas_users ioas' = ioas_users ioas ∧
    ioas_hwpt_list ioas' = ioas_hwpt_list ioas ∧
    iopt_domains ioas' = iopt_domains ioas ∧
    (iopt_reserved ioas' = iopt_reserved ioas ∨
     iopt_reserved ioas' = filter (λ r, r.1 ≠ idev_dev idev) (iopt_reserved ioas)) ∧
    group_domains s' = group_domains s ∧
    dma_owner s' = dma_owner s ∧ group_refs s' = group_refs s ∧
    ctx_refs s' = ctx_refs s ∧ finalized s' = finalized s ∧
    (hwpt' = hwpt → (∀ r, r ∈ iopt_reserved ioas → r.1 ≠ idev_dev idev) →
     hwpts s' = hwpts s ∧ ioass s' = ioass s).
Proof.
  intros Hs Hrc.
  destruct (do_attach_failure e i h flags s rc s' Hs Hrc)
    as (E1 & E2 & E3 & E4 & E5 & E6 & idev & hwpt & io & Hi & Hh & Hio & R).
  destruct R as (ecc & msi & R & Hhs & Hecc & Hmsi & Hio' & HR & _).
  exists idev, hwpt, io,
    (hwpt_set_msi_cookie msi (hwpt_set_enforce_cache_coherency ecc hwpt)),
    (ioas_set_reserved R io).
  simpl. do 17 (split; [done|]). do 5 (split; [done|]).
  intros Hsame Hown. rewrite Hhs, Hio', Hsame. split.
  - by apply insert_id.
  - apply insert_id. rewrite Hio. f_equal.
    destruct HR as [->| ->]; [by destruct io|].
    rewrite filter_owner_id by done. by destruct io.
Qed.

Lemma do_attach_failure_rollback_witness :
  ∃ rc s', iommufd_device_do_attach env_group_refused 1 20 0 st_unattached = Some (rc, s') ∧
    rc ≠ 0 ∧ idevs s' = idevs st_unattached ∧
    group_domains s' = group_domains st_unattached.
Proof.
  destruct (iommufd_device_do_attach env_group_refused 1 20 0 st_unattached)
    as [[rc s']|] eqn:Hrun; [|by vm_compute in Hrun].
  assert (Hrc : rc ≠ 0) by (vm_compute in Hrun; injection Hrun as <- _; done).
  exists rc, s'. split; [done|]. split; [done|].
  destruct (do_attach_failure_rollback env_group_refused 1 20 0 rc st_unattached s' Hrun Hrc)
    as (idev & hwpt & ioas & hwpt' & ioas' & H).
  split; apply H.
Defined.

(** C1 as stated fails: the group attach is refused after the domain was
    upgraded and the MSI window requested; the call fails and the page
    table keeps both flags, so the state is not the one before the call. *)
Lemma do_attach_failure_keeps_flags :
  ∃ s', iommufd_device_do_attach env_group_refused 1 20 0 st_unattached
          = Some (- ENOMEM, s') ∧
    hwpts st_unattached !! 20%nat = Some (mk_hwpt 1 10 30 false false false []) ∧
    hwpts s' !! 20%nat = Some (mk_hwpt 1 10 30 false true true []) ∧
    msi_cookie_calls st_unattached = [] ∧ msi_cookie_calls s' = [30%nat] ∧
    s' ≠ st_unattached.
Proof.
  eexists. split; [vm_compute; reflexivity|].
  split; [reflexivity|]. split; [reflexivity|]. split; [reflexivity|].
  split; [reflexivity|]. intros Heq.
  apply (f_equal (λ s, hwpt_msi_cookie <$> hwpts s !! 20%nat)) in Heq. discriminate.
Qed.

(** C6, as the code has it: when the device requires enforced cache
    coherency, the page table does not enforce it and the domain cannot be
    upgraded, the attach fails with -EINVAL whether or not the page table
    has devices, and the binding stays as it was.  An empty device list
    only adds a kernel warning. *)
Theorem do_attach_upgrade_refused (e : Env) (i : idev_id) (h : hwpt_id) (flags : Z)
    (s : state) (idev : iommufd_device) (hwpt : iommufd_hw_pagetable) (ioas : iommufd_ioas) :
  idevs s !! i = Some idev →
  hwpts s !! h = Some hwpt →
  ioass s !! hwpt_ioas hwpt = Some ioas →
  idev_enforce_cache_coherency idev = true →
  hwpt_enforce_cache_coherency hwpt = false →
  domain_enforce_cache_coherency e (hwpt_domain hwpt) ≠ Some true →
  iommufd_device_do_attach e i h flags s
    = Some (- EINVAL, WARN_ON (list_empty (hwpt_devices hwpt)) s) ∧
  idevs (WARN_ON (list_empty (hwpt_devices hwpt)) s) !! i = Some idev ∧
  warnings (WARN_ON (list_empty (hwpt_devices hwpt)) s)
    = (if list_empty (hwpt_devices hwpt) then S (warnings s) else warnings s).
Proof.
  intros Hi Hh Hio Hreq Hnot Hop. split.
  - unfold iommufd_device_do_attach. rewrite Hi, Hh. simpl. rewrite Hio. simpl.
    rewrite Hreq, Hnot. simpl.
    destruct (domain_enforce_cache_coherency e (hwpt_domain hwpt)) as [[|]|].
    + done.
    + simpl. rewrite lookup_alter_eq, Hh. simpl. unfold out_unlock. do 3 f_equal.
      destruct s. unfold upd_hwpt, set_hwpts. simpl in *. f_equal.
      apply alter_id. intros x Hx. assert (x = hwpt) as -> by congruence.
      destruct hwpt. simpl in *. by subst.
    + rewrite Hh. simpl. by rewrite Hnot.
  - destruct (list_empty (hwpt_devices hwpt)); done.
Qed.

Lemma do_attach_upgrade_refused_witness :
  iommufd_device_do_attach env_no_upgrade 1 20 0 st_one_attached
    = Some (- EINVAL, st_one_attached).
Proof.
  apply (do_attach_upgrade_refused env_no_upgrade 1 20 0 st_one_attached
           (mk_idev 1 0 None 100 200 true) (mk_hwpt 2 10 30 false false false [2%nat])
           (mk_ioas 1 [20%nat] [] [30%nat]));
    [reflexivity|reflexivity|reflexivity|reflexivity|reflexivity|vm_compute; discriminate].
Defined.

(** C6 as stated fails: a refused upgrade gives the same errno on a page
    table without devices as on one with a device, namely the -EINVAL that
    the automatic selection retries on. *)
Lemma upgrade_refusal_same_errno :
  hwpt_devices <$> hwpts st_unattached !! 20%nat = Some [] ∧
  hwpt_devices <$> hwpts st_one_attached !! 20%nat = Some [2%nat] ∧
  fst <$> iommufd_device_do_attach env_no_upgrade 1 20 0 st_unattached = Some (- EINVAL) ∧
  fst <$> iommufd_device_do_attach env_no_upgrade 1 20 0 st_one_attached = Some (- EINVAL).
Proof. repeat split; reflexivity. Qed.

(** ** MSI window *)









(** ** Automatic selection of a page table *)

Lemma fmap_alter_same {A B} (g : A → B) (f : A → A) (k : nat) (m : gmap nat A) :
  (∀ x, g (f x) = g x) → g <$> alter f k m = g <$> m.
Proof.
  intros Hg. apply map_eq. intros j. rewrite !lookup_fmap, lookup_alter.
  case_decide; [subst|done]. destruct (m !! j); simpl; [by rewrite Hg|done].
Qed.

Lemma fmap_insert_same {A B} (g : A → B) (k : nat) (x y : A) (m : gmap nat A) :
  m !! k = Some x → g y = g x → g <$> <[k := y]> m = g <$> m.
Proof.
  intros Hk Hg. rewrite fmap_insert, Hg. apply insert_id.
  by rewrite lookup_fmap, Hk.
Qed.

Lemma kinds_refcount_inc h s : hwpt_kinds (refcount_inc_hwpt h s) = hwpt_kinds s.
Proof. unfold hwpt_kinds. simpl. by apply fmap_alter_same. Qed.

Lemma kinds_refcount_dec h s : hwpt_kinds (refcount_dec_hwpt h s) = hwpt_kinds s.
Proof. unfold hwpt_kinds. simpl. by apply fmap_alter_same. Qed.

Lemma rolled_back_frame i h s s' :
  rolled_back i h s s' →
  idevs s' = idevs s ∧ hwpt_kinds s' = hwpt_kinds s ∧
  member_lists s' = member_lists s ∧ finalized s' = finalized s.
Proof.
  intros (E1 & _ & _ & _ & _ & E6 & idev & hwpt & io & Hi & Hh & Hio & R).
  destruct R as (ecc & msi & R & Hhs & _ & _ & Hio' & _).
  split; [done|]. split; [|split; [|done]].
  - unfold hwpt_kinds. rewrite Hhs. by apply (fmap_insert_same _ _ hwpt).
  - unfold member_lists. rewrite Hio'. by apply (fmap_insert_same _ _ io).
Qed.

Lemma attach_result_frame ecc i h s s' :
  attach_result ecc i h s s' →
  hwpt_kinds s' = hwpt_kinds s ∧ member_lists s' = member_lists s ∧
  finalized s' = finalized s ∧
  ∃ idev hwpt hwpt',
    idevs s !! i = Some idev ∧ hwpts s !! h = Some hwpt ∧
    idevs s' = <[i := idev_set_hwpt (Some h) idev]> (idevs s) ∧
    hwpts s' !! h = Some hwpt' ∧
    hwpt_auto_domain hwpt' = hwpt_auto_domain hwpt ∧
    hwpt_devices hwpt' = i :: hwpt_devices hwpt ∧
    hwpt_users hwpt' = hwpt_users hwpt + 1 ∧
    hwpt_ioas hwpt' = hwpt_ioas hwpt ∧
    ioas_hwpt_list <$> ioass s' !! hwpt_ioas hwpt
      = ioas_hwpt_list <$> ioass s !! hwpt_ioas hwpt.
Proof.
  intros (_ & _ & _ & E6 & idev & hwpt & io & Hi & Hh & Hio & Hi' & R).
  destruct R as (msi & R & D & Hhs & _ & Hio' & _).
  assert (Hm : member_lists s' = member_lists s).
  { unfold member_lists. rewrite Hio'. by apply (fmap_insert_same _ _ io). }
  split. { unfold hwpt_kinds. rewrite Hhs. by apply (fmap_insert_same _ _ hwpt). }
  split; [done|]. split; [done|].
  eexists idev, hwpt, _. do 3 (split; [done|]).
  split; [by rewrite Hhs, lookup_insert_eq|]. simpl. do 4 (split; [done|]).
  unfold member_lists in Hm. by rewrite <- !lookup_fmap, Hm.
Qed.


Lemma auto_scan_exhausted_frame e i flags l s s1 :
  auto_scan e i flags l s = Some (ScanExhausted s1) →
  idevs s1 = idevs s ∧ hwpt_kinds s1 = hwpt_kinds s ∧
  member_lists s1 = member_lists s ∧ finalized s1 = finalized s.
Proof.
  revert s. induction l as [|h l IH]; intros s Hs; simpl in Hs.
  - by injection Hs as <-.
  - destruct (hwpts s !! h) as [hwpt|]; [|done]. simpl in Hs.
    destruct (negb (hwpt_auto_domain hwpt) || bool_decide (hwpt_users hwpt = 0));
      [by apply IH|].
    destruct (iommufd_device_do_attach e i h flags (refcount_inc_hwpt h s))
      as [[rc s2]|] eqn:Hrun; [|done].
    simpl in Hs. case_decide as Hrc; [|done]. case_decide; [|done].
    apply IH in Hs as (F1 & F2 & F3 & F4).
    apply do_attach_failure in Hrun; [|done].
    apply rolled_back_frame in Hrun as (G1 & G2 & G3 & G4).
    rewrite kinds_refcount_dec in F2. rewrite kinds_refcount_inc in G2.
    change (idevs s1 = idevs s2) in F1. change (member_lists s1 = member_lists s2) in F3.
    change (finalized s1 = finalized s2) in F4.
    split; [by rewrite F1, G1|]. split; [by rewrite F2, G2|].
    split; [by rewrite F3, G3|]. by rewrite F4, G4.
Qed.







(** [st_shared] is what the first attach through address space 10 makes
    of [st_bound_pair]. *)
Example st_shared_reached :
  iommufd_device_attach env_plain 1 10 0 st_bound_pair = Some (0, 11%nat, st_shared).
Proof. vm_compute. reflexivity. Qed.


(** ** Attaching to a page table named by the caller *)

(** A successful attach to a page table named by the caller appends the
    page table to the member list of its address space, whatever the list
    holds already. *)
Lemma attach_hwpt_appends (e : Env) (i : idev_id) (pt_id out : nat) (flags : Z)
    (s s' : state) (hwpt : iommufd_hw_pagetable) (ioas : iommufd_ioas) :
  hwpts s !! pt_id = Some hwpt →
  ioass s !! hwpt_ioas hwpt = Some ioas →
  iommufd_device_attach e i pt_id flags s = Some (0, out, s') →
  out = pt_id ∧
  ioas_hwpt_list <$> ioass s' !! hwpt_ioas hwpt = Some (ioas_hwpt_list ioas ++ [pt_id]).
Proof.
  intros Hh Hio Hrun. unfold iommufd_device_attach, iommufd_get_object in Hrun.
  rewrite decide_True in Hrun by (by rewrite Hh).
  destruct (iommufd_device_do_attach e i pt_id flags (refcount_inc_hwpt pt_id s))
    as [[rc s1]|] eqn:Hatt; [|done].
  simpl in Hrun. case_decide as Hrc.
  { simpl in Hrun. rewrite decide_True in Hrun by done. by simplify_eq. }
  assert (rc = 0) as -> by lia.
  apply do_attach_success in Hatt as (ecc & Hres & _).
  apply attach_result_frame in Hres
    as (_ & G2 & _ & idev & hw1 & hw2 & Hi & Hh1 & Hi' & Hh2 & _ & _ & _ & Hioas & Hl).
  simpl in Hh1. rewrite lookup_alter_eq, Hh in Hh1. simpl in Hh1. injection Hh1 as <-.
  simpl in Hioas, Hl. rewrite Hio in Hl. simpl in Hl.
  rewrite Hh2 in Hrun. simpl in Hrun.
  rewrite Hi', lookup_alter_eq, lookup_insert_eq in Hrun. simpl in Hrun.
  injection Hrun as <- <-. split; [done|].
  simpl. rewrite Hioas, lookup_alter_eq.
  destruct (ioass s1 !! hwpt_ioas hwpt) as [io1|]; [|done].
  simpl in *. injection Hl as ->. done.
Qed.

(** C7 does not hold of the code: two devices are attached, one after the
    other, to the manually created page table 20.  The first attach lists
    the page table in its address space, the second lists it again. *)
Lemma attach_twice_lists_hwpt_twice :
  ∃ s1 s2,
    iommufd_device_attach env_plain 2 20 0 st_unattached = Some (0, 20%nat, s1) ∧
    ioas_hwpt_list <$> ioass s1 !! 10%nat = Some [20%nat] ∧
    iommufd_device_attach env_plain 1 20 0 s1 = Some (0, 20%nat, s2) ∧
    ioas_hwpt_list <$> ioass s2 !! 10%nat = Some [20%nat; 20%nat] ∧
    ¬ NoDup [20%nat; 20%nat].
Proof.
  eexists _, _. split; [vm_compute; reflexivity|].
  split; [reflexivity|]. split; [vm_compute; reflexivity|].
  split; [reflexivity|].
  intros Hnd. apply NoDup_cons in Hnd as [Hnin _]. apply Hnin. by left.
Qed.

(** ** Detaching *)

Lemma list_del_not_elem (x : nat) (l : list nat) : x ∉ list_del x l.
Proof. unfold list_del. rewrite list_elem_of_filter. tauto. Qed.

Lemma list_del_subset (x c : nat) (l : list nat) : c ∈ list_del x l → c ∈ l.
Proof. unfold list_del. rewrite list_elem_of_filter. tauto. Qed.

Lemma devices_have_group_nil_false ds l g :
  devices_have_group ds l g = Some true → l ≠ [].
Proof. by destruct l. Qed.

Lemma detach_finish (i : idev_id) (h : hwpt_id) (s s2 : state) (idev : iommufd_device)
    (hwpt : iommufd_hw_pagetable) (devs : list idev_id) :
  idevs s !! i = Some idev →
  hwpts s !! h = Some hwpt →
  idevs s2 = idevs s →
  hwpts s2 = <[h := hwpt_set_devices devs hwpt]> (hwpts s) →
  ∃ s',
    (s3 ← (if hwpt_auto_domain hwpt then snd <$> iommufd_object_destroy_user h s2
           else Some (refcount_dec_hwpt h s2));
     Some (refcount_dec_idev i (upd_idev i (idev_set_hwpt None) s3))) = Some s' ∧
    ioass s' = ioass s2 ∧
    idevs s' = <[i := idev_set_users (idev_users idev - 1) (idev_set_hwpt None idev)]> (idevs s) ∧
    (if hwpt_auto_domain hwpt then
       if decide (hwpt_users hwpt - 1 = 1) then hwpts s' = delete h (hwpts s)
       else hwpts s' = <[h := hwpt_set_users (hwpt_users hwpt - 1)
                                (hwpt_set_devices devs hwpt)]> (hwpts s)
     else hwpts s' = <[h := hwpt_set_users (hwpt_users hwpt - 1)
                              (hwpt_set_devices devs hwpt)]> (hwpts s)).
Proof.
  intros Hi Hh E1 E2.
  assert (Hh2 : hwpts s2 !! h = Some (hwpt_set_devices devs hwpt)).
  { by rewrite E2, lookup_insert_eq. }
  assert (Hcomb : alter (λ p, hwpt_set_users (hwpt_users p - 1) p) h (hwpts s2)
                  = <[h := hwpt_set_users (hwpt_users hwpt - 1)
                             (hwpt_set_devices devs hwpt)]> (hwpts s)).
  { rewrite (alter_as_insert _ _ _ _ Hh2). rewrite E2.
    by rewrite insert_insert_eq. }
  destruct (hwpt_auto_domain hwpt).
  - unfold iommufd_object_destroy_user. rewrite Hh2. simpl.
    case_decide as Hlast; simpl.
    + eexists. split; [done|]. simpl. split; [done|].
      split. { rewrite !alter_alter_eq, E1. by rewrite (alter_as_insert _ _ _ _ Hi). }
      rewrite delete_alter_eq, E2. by rewrite delete_insert_eq.
    + eexists. split; [done|]. simpl. split; [done|].
      split. { rewrite !alter_alter_eq, E1. by rewrite (alter_as_insert _ _ _ _ Hi). }
      done.
  - eexists. split; [done|]. simpl. split; [done|].
    split. { rewrite !alter_alter_eq, E1. by rewrite (alter_as_insert _ _ _ _ Hi). }
    done.
Qed.

Lemma list_del_absent (x : nat) (l : list nat) : x ∉ l → list_del x l = l.
Proof.
  induction l as [|y l IH]; intros Hnin; [done|].
  apply not_elem_of_cons in Hnin as [Hne Hnin].
  unfold list_del. rewrite filter_cons_True by done. f_equal. by apply IH.
Qed.

Lemma list_del_length (x : nat) (l : list nat) :
  NoDup l → x ∈ l → S (length (list_del x l)) = length l.
Proof.
  induction l as [|y l IH]; intros Hnd Hin; [by apply elem_of_nil in Hin|].
  apply NoDup_cons in Hnd as [Hy Hnd].
  destruct (decide (y = x)) as [->|Hne].
  - unfold list_del. rewrite filter_cons_False by (intros ?; done).
    fold (list_del x l). by rewrite list_del_absent.
  - unfold list_del. rewrite filter_cons_True by done. simpl. f_equal.
    apply IH; [done|]. apply elem_of_cons in Hin as [->|Hin]; done.
Qed.

Lemma detach_last_sharer (i : idev_id) (hwpt : iommufd_hw_pagetable) :
  hwpt_users hwpt = 1 + Z.of_nat (length (hwpt_devices hwpt)) →
  NoDup (hwpt_devices hwpt) → i ∈ hwpt_devices hwpt →
  hwpt_users hwpt - 1 = 1 ↔ list_del i (hwpt_devices hwpt) = [].
Proof.
  intros Hu Hnd Hin. pose proof (list_del_length i _ Hnd Hin) as Hlen.
  split.
  - intros H1. apply length_zero_iff_nil. lia.
  - intros Hnil. rewrite Hnil in Hlen. simpl in Hlen. lia.
Qed.

Lemma detach_core (i : idev_id) (s : state) (idev : iommufd_device) (h : hwpt_id)
    (hwpt : iommufd_hw_pagetable) (ioas : iommufd_ioas) :
  idevs s !! i = Some idev →
  idev_hwpt idev = Some h →
  hwpts s !! h = Some hwpt →
  ioass s !! hwpt_ioas hwpt = Some ioas →
  (∀ c, c ∈ hwpt_devices hwpt → is_Some (idevs s !! c)) →
  let devs := list_del i (hwpt_devices hwpt) in
  ∃ s' ioas',
    iommufd_device_detach i s = Some s' ∧
    (i ∉ devs) ∧
    idevs s' = <[i := idev_set_users (idev_users idev - 1) (idev_set_hwpt None idev)]> (idevs s) ∧
    (if hwpt_auto_domain hwpt then
       if decide (hwpt_users hwpt - 1 = 1) then hwpts s' = delete h (hwpts s)
       else hwpts s' = <[h := hwpt_set_users (hwpt_users hwpt - 1)
                                (hwpt_set_devices devs hwpt)]> (hwpts s)
     else hwpts s' = <[h := hwpt_set_users (hwpt_users hwpt - 1)
                              (hwpt_set_devices devs hwpt)]> (hwpts s)) ∧
    ioass s' = <[hwpt_ioas hwpt := ioas']> (ioass s) ∧
    ioas_users ioas' = ioas_users ioas ∧
    (devs = [] →
       ioas_hwpt_list ioas' = list_del h (ioas_hwpt_list ioas) ∧
       iopt_domains ioas' = list_del (hwpt_domain hwpt) (iopt_domains ioas)) ∧
    (devs ≠ [] →
       ioas_hwpt_list ioas' = ioas_hwpt_list ioas ∧ iopt_domains ioas' = iopt_domains ioas).
Proof.
  intros Hi Hptr Hh Hio Hall devs.
  unfold iommufd_device_detach. rewrite Hi. simpl. rewrite Hptr. simpl.
  rewrite Hh. simpl. rewrite Hio. simpl.
  assert (Halt : alter (λ p, hwpt_set_devices (list_del i (hwpt_devices p)) p) h (hwpts s)
                 = <[h := hwpt_set_devices devs hwpt]> (hwpts s)).
  { by rewrite (alter_as_insert _ _ _ _ Hh). }
  unfold iommufd_hw_pagetable_has_group, upd_hwpt. simpl. rewrite !Halt.
  rewrite lookup_insert_eq. simpl.
  destruct (devices_have_group_returns (idevs s) devs (idev_group idev)) as [has Hhas].
  { intros c Hc. apply Hall. by apply (list_del_subset i). }
  rewrite Hhas. simpl.
  assert (Hnin : i ∉ devs) by apply list_del_not_elem.
  clearbody devs.
  destruct has; simpl.
  - match goal with |- context [iommufd_object_destroy_user h ?x] => set (s1 := x) end.
    destruct (detach_finish i h s s1 idev hwpt devs Hi Hh eq_refl)
      as (s' & -> & F1 & F2 & F3).
    { subst s1. simpl. by rewrite Halt. }
    exists s', ioas. split; [done|]. split; [done|].
    split; [done|]. split; [done|].
    split. { rewrite F1. symmetry. by apply insert_id. }
    split; [done|]. split; [|done].
    intros Hnil. by apply devices_have_group_nil_false in Hhas.
  - match goal with |- context [iommu_detach_group ?d ?g ?x] =>
      set (s2 := iommu_detach_group d g x) end.
    destruct (detach_finish i h s s2 idev hwpt devs Hi Hh) as (s' & -> & F1 & F2 & F3).
    { subst s2. by destruct devs. }
    { subst s2. destruct devs; simpl; by rewrite Halt. }
    destruct devs as [|c l] eqn:Hdevs.
    + eexists s', _. split; [done|]. split; [done|].
      split; [done|]. split; [done|].
      split.
      { rewrite F1. subst s2. simpl. rewrite !alter_alter_eq.
        by rewrite (alter_as_insert _ _ _ _ Hio). }
      simpl. split; [done|]. split; [done|]. intros ?; done.
    + eexists s', _. split; [done|]. split; [done|].
      split; [done|]. split; [done|].
      split.
      { rewrite F1. subst s2. simpl. by rewrite (alter_as_insert _ _ _ _ Hio). }
      simpl. split; [done|]. split; [done|]. done.
Qed.

(** C5, as the code has it: [iommufd_device_detach] always returns.  The
    device leaves the device list of its page table; the binding loses
    its pointer and one reference.  When no device is left the page table
    leaves the member list of its address space and its domain leaves the
    domains of the address space; otherwise both stay.  A manually created
    page table loses exactly one reference.  An auto-created page table
    loses that reference too and is destroyed only when the creating
    reference is then the one left; while other references remain it
    stays.  So, when the references are the creating one and one for each
    listed device, an auto-created page table is destroyed by the detach
    of its last device and by no earlier one. *)
Theorem detach_effect (i : idev_id) (s : state) (idev : iommufd_device) (h : hwpt_id)
    (hwpt : iommufd_hw_pagetable) (ioas : iommufd_ioas) :
  idevs s !! i = Some idev →
  idev_hwpt idev = Some h →
  hwpts s !! h = Some hwpt →
  ioass s !! hwpt_ioas hwpt = Some ioas →
  (∀ c, c ∈ hwpt_devices hwpt → is_Some (idevs s !! c)) →
  let devs := list_del i (hwpt_devices hwpt) in
  ∃ s' ioas',
    iommufd_device_detach i s = Some s' ∧
    (i ∉ devs) ∧
    idevs s' = <[i := idev_set_users (idev_users idev - 1) (idev_set_hwpt None idev)]> (idevs s) ∧
    (if hwpt_auto_domain hwpt then
       if decide (hwpt_users hwpt - 1 = 1) then hwpts s' = delete h (hwpts s)
       else hwpts s' = <[h := hwpt_set_users (hwpt_users hwpt - 1)
                                (hwpt_set_devices devs hwpt)]> (hwpts s)
     else hwpts s' = <[h := hwpt_set_users (hwpt_users hwpt - 1)
                              (hwpt_set_devices devs hwpt)]> (hwpts s)) ∧
    ioass s' = <[hwpt_ioas hwpt := ioas']> (ioass s) ∧
    ioas_users ioas' = ioas_users ioas ∧
    (devs = [] →
       ioas_hwpt_list ioas' = list_del h (ioas_hwpt_list ioas) ∧
       iopt_domains ioas' = list_del (hwpt_domain hwpt) (iopt_domains ioas)) ∧
    (devs ≠ [] →
       ioas_hwpt_list ioas' = ioas_hwpt_list ioas ∧ iopt_domains ioas' = iopt_domains ioas) ∧
    (hwpt_auto_domain hwpt = true →
     hwpt_users hwpt = 1 + Z.of_nat (length (hwpt_devices hwpt)) →
     NoDup (hwpt_devices hwpt) → i ∈ hwpt_devices hwpt →
     (devs = [] → hwpts s' !! h = None) ∧
     (devs ≠ [] → is_Some (hwpts s' !! h))).
Proof.
  intros Hi Hptr Hh Hio Hall devs.
  destruct (detach_core i s idev h hwpt ioas Hi Hptr Hh Hio Hall)
    as (s' & ioas' & Hrun & Hnin & Hidev & Hhw & Hioas & Hu & Hnil & Hcons).
  exists s', ioas'. do 7 (split; [done|]). split; [done|].
  intros Hauto Hrefs Hnd Hin.
  pose proof (detach_last_sharer i hwpt Hrefs Hnd Hin) as Hlast.
  rewrite Hauto in Hhw. fold devs in Hlast.
  case_decide as Hone; rewrite Hhw.
  - split; [intros _; apply lookup_delete_eq|]. intros Hne. by apply Hlast in Hone.
  - split; [intros Hd; by apply Hlast in Hd|]. intros _. rewrite lookup_insert_eq. by eexists.
Qed.

Lemma detach_effect_witness :
  ∃ s', iommufd_device_detach 2 st_one_attached = Some s'.
Proof.
  destruct (detach_effect 2 st_one_attached (mk_idev 2 0 (Some 20%nat) 101 201 false) 20
              (mk_hwpt 2 10 30 false false false [2%nat]) (mk_ioas 1 [20%nat] [] [30%nat])
              eq_refl eq_refl eq_refl eq_refl) as (s' & ioas' & Hrun & _).
  { intros c Hc. apply list_elem_of_singleton in Hc as ->. by eexists. }
  exists s'. exact Hrun.
Defined.

(** C5 as stated fails: two bindings share the auto-created page table
    that the first attach through address space 10 made.  When the first
    of them detaches, the page table is not destroyed: it stays with the
    other device and two references.  It goes when the second detaches. *)
Lemma detach_shared_auto_hwpt_survives :
  ∃ P s1 s2 s3 s4,
    iommufd_device_attach env_plain 1 10 0 st_bound_pair = Some (0, P, s1) ∧
    iommufd_device_attach env_plain 2 10 0 s1 = Some (0, P, s2) ∧
    hwpts s2 !! P = Some (mk_hwpt 3 10 7 true true false [2%nat; 1%nat]) ∧
    iommufd_device_detach 1 s2 = Some s3 ∧
    hwpts s3 !! P = Some (mk_hwpt 2 10 7 true true false [2%nat]) ∧
    iommufd_device_detach 2 s3 = Some s4 ∧
    hwpts s4 !! P = None.
Proof.
  eexists _, _, _, _, _.
  split; [vm_compute; reflexivity|]. split; [vm_compute; reflexivity|].
  split; [reflexivity|]. split; [vm_compute; reflexivity|].
  split; [reflexivity|]. split; [vm_compute; reflexivity|]. reflexivity.
Qed.

End device_properties.

(** * The life cycle of a device binding *)

Section device_life_cycle.
Import Device.

(** ** Binding and unbinding *)

Lemma state_eq (s1 s2 : state) :
  idevs s1 = idevs s2 → hwpts s1 = hwpts s2 → ioass s1 = ioass s2 →
  group_domains s1 = group_domains s2 → msi_cookie_calls s1 = msi_cookie_calls s2 →
  dma_owner s1 = dma_owner s2 → group_refs s1 = group_refs s2 →
  ctx_refs s1 = ctx_refs s2 → finalized s1 = finalized s2 → warnings s1 = warnings s2 →
  s1 = s2.
Proof. destruct s1, s2. simpl. by intros -> -> -> -> -> -> -> -> -> ->. Qed.

Lemma claim_success_state (dev : dev_id) (ictx : ctx_id) (rc : Z) (s s0 : state) :
  iommu_device_claim_dma_owner dev ictx s = (rc, s0) → rc = 0 →
  ∃ own,
    (dma_owner s !! dev = None ∧ own = (ictx, 0%nat) ∨
     ∃ more, dma_owner s !! dev = Some (ictx, more) ∧ own = (ictx, S more)) ∧
    s0 = set_dma_owner (insert dev own) s.
Proof.
  unfold iommu_device_claim_dma_owner. intros Hc Hrc.
  destruct (dma_owner s !! dev) as [[o more]|] eqn:Hown.
  - case_decide as Ho; [|simplify_eq; done]. subst o. injection Hc as _ <-.
    exists (ictx, S more). split; [|done]. right. by exists more.
  - injection Hc as _ <-. exists (ictx, 0%nat). split; [|done]. by left.
Qed.

Lemma bind_success_state (e : Env) (ictx : ctx_id) (dev : dev_id) (s s1 : state)
    (idev : idev_id) :
  iommufd_device_bind e ictx dev s = (inr idev, s1) →
  ∃ g own,
    iommu_group_of e dev = Some g ∧ idev = fresh_id s ∧
    (dma_owner s !! dev = None ∧ own = (ictx, 0%nat) ∨
     ∃ more, dma_owner s !! dev = Some (ictx, more) ∧ own = (ictx, S more)) ∧
    s1 = mk_state
           (<[idev := mk_idev 2 ictx None dev g
                        (device_iommu_capable e dev IOMMU_CAP_ENFORCE_CACHE_COHERENCY)]>
              (idevs s))
           (hwpts s) (ioass s) (group_domains s) (msi_cookie_calls s)
           (<[dev := own]> (dma_owner s))
           (alter (λ n, n + 1) g (group_refs s))
           (alter (λ n, n + 1) ictx (ctx_refs s))
           (idev :: finalized s) (warnings s).
Proof.
  unfold iommufd_device_bind. intros Hb.
  destruct (device_iommu_capable e dev IOMMU_CAP_CACHE_COHERENCY); [|done].
  cbn [negb] in Hb. unfold iommu_group_get in Hb.
  destruct (iommu_group_of e dev) as [g|]; [|done].
  destruct (iommu_device_claim_dma_owner dev ictx
              (set_group_refs (alter (λ n, n + 1) g) s)) as [rc s0] eqn:Hclaim.
  case_decide as Hrc; [done|].
  assert (rc = 0) as -> by (destruct (decide (rc = 0)); [done|exfalso; auto]).
  destruct (claim_success_state _ _ _ _ _ Hclaim eq_refl) as (own & Hown & ->).
  unfold iommufd_object_alloc_idev in Hb.
  destruct (decide (object_alloc_rc e ictx ≠ 0)); [discriminate Hb|].
  assert (Hfr : fresh_id (set_dma_owner (insert dev own)
                            (set_group_refs (alter (λ n, n + 1) g) s)) = fresh_id s).
  { unfold fresh_id, set_dma_owner, set_group_refs. cbn [idevs hwpts ioass]. reflexivity. }
  rewrite Hfr in Hb. clear Hfr.
  set (id := fresh_id s) in *. clearbody id.
  injection Hb as <- <-.
  exists g, own. split; [exact eq_refl|]. split; [exact eq_refl|]. split; [exact Hown|].
  apply state_eq; simpl; try reflexivity.
  rewrite !alter_alter_eq.
  rewrite (alter_as_insert _ _ _ _ (lookup_insert_eq _ _ _)).
  by rewrite insert_insert_eq.
Qed.

(** X6: [iommufd_device_unbind] right after a successful
    [iommufd_device_bind] destroys the device object and gives back what
    the bind took: DMA ownership, the group reference and the context
    reference.  The whole state is the one before the bind, but for the
    record of published ids, from which the id of the object is gone. *)
Theorem bind_unbind_round_trip (e : Env) (ictx : ctx_id) (dev : dev_id) (s s1 : state)
    (idev : idev_id) :
  iommufd_device_bind e ictx dev s = (inr idev, s1) →
  iommufd_device_unbind idev s1 = Some (set_finalized (list_del idev) s).
Proof.
  intros Hb.
  destruct (bind_success_state e ictx dev s s1 idev Hb) as (g & own & Hg & Hid & Hown & ->).
  pose proof (fresh_id_unused s) as (Hfresh & _). rewrite <- Hid in Hfresh.
  unfold iommufd_device_unbind, iommufd_object_destroy_user_idev. simpl.
  rewrite lookup_insert_eq. simpl.
  unfold iommufd_device_destroy. simpl. rewrite lookup_alter_eq, lookup_insert_eq. simpl.
  unfold iommu_device_release_dma_owner. simpl. rewrite lookup_insert_eq.
  assert (Hrest : delete idev
            (alter (λ d, idev_set_users (idev_users d - 1) d) idev
               (<[idev := mk_idev 2 ictx None dev g
                    (device_iommu_capable e dev IOMMU_CAP_ENFORCE_CACHE_COHERENCY)]> (idevs s)))
          = idevs s).
  { rewrite delete_alter_eq. by apply delete_insert_id. }
  assert (Hfin : list_del idev (idev :: finalized s) = list_del idev (finalized s)).
  { unfold list_del. by rewrite filter_cons_False by (intros ?; done). }
  destruct Hown as [[Hn ->]|(more & Hs & ->)]; simpl; f_equal;
    apply state_eq; simpl; try done; try apply alter_inc_dec.
  - by apply delete_insert_id.
  - rewrite insert_insert_eq. by apply insert_id.
Qed.

Lemma bind_unbind_round_trip_witness :
  ∃ idev s1,
    iommufd_device_bind env_plain 9 3 st_owned = (inr idev, s1) ∧
    iommufd_device_unbind idev s1 = Some (set_finalized (list_del idev) st_owned).
Proof.
  destruct (iommufd_device_bind env_plain 9 3 st_owned) as [[rc|idev] s1] eqn:Hb;
    [by vm_compute in Hb|].
  exists idev, s1. split; [done|].
  exact (bind_unbind_round_trip env_plain 9 3 st_owned s1 idev Hb).
Defined.

(** X7: [iommufd_device_unbind] of a device object that is still
    referenced beyond the creating reference and the driver's own (an
    attached device) does not destroy it: the object stays with one
    reference less, ownership and the group and context references are
    kept, and the [WARN_ON] fires. *)
Theorem unbind_busy_device (i : idev_id) (s : state) (d : iommufd_device) :
  idevs s !! i = Some d →
  idev_users d ≠ 2 →
  ∃ s', iommufd_device_unbind i s = Some s' ∧
    idevs s' = <[i := idev_set_users (idev_users d - 1) d]> (idevs s) ∧
    dma_owner s' = dma_owner s ∧ group_refs s' = group_refs s ∧
    ctx_refs s' = ctx_refs s ∧ finalized s' = finalized s ∧
    warnings s' = S (warnings s).
Proof.
  intros Hi Hu. unfold iommufd_device_unbind, iommufd_object_destroy_user_idev.
  rewrite Hi. simpl. rewrite decide_False by lia. simpl.
  eexists. split; [done|]. simpl. split; [|done].
  by rewrite (alter_as_insert _ _ _ _ Hi).
Qed.

Lemma unbind_busy_device_witness :
  ∃ s', iommufd_device_unbind 11 st_in_use = Some s' ∧
    dma_owner s' = dma_owner st_in_use ∧ warnings s' = 1%nat.
Proof.
  assert (Hu : idev_users (mk_idev 3 9 (Some 12%nat) 3 3 true) ≠ 2) by (simpl; lia).
  destruct (unbind_busy_device 11 st_in_use (mk_idev 3 9 (Some 12%nat) 3 3 true) eq_refl Hu)
    as (s' & Hrun & _ & Hown & _ & _ & _ & Hw).
  exists s'. split; [exact Hrun|]. split; [exact Hown|exact Hw].
Defined.


(** ** Steps of the shared attach algorithm *)

Lemma devices_have_group_spec (ds : gmap nat iommufd_device) (l : list nat) (g : nat)
    (has : bool) :
  devices_have_group ds l g = Some has →
  has = true ↔ ∃ c d, c ∈ l ∧ ds !! c = Some d ∧ idev_group d = g.
Proof.
  revert has. induction l as [|c l IH]; intros has Hw; simpl in Hw.
  - injection Hw as <-. split; [done|]. intros (c & d & Hc & _). by apply elem_of_nil in Hc.
  - destruct (ds !! c) as [d|] eqn:Hd; [|done]. simpl in Hw.
    case_decide as Hg.
    + injection Hw as <-. split; [|done]. intros _. exists c, d. split; [by left|done].
    + rewrite (IH has Hw). split.
      * intros (c' & d' & Hc' & Hd' & Hg'). exists c', d'. split; [by right|done].
      * intros (c' & d' & Hc' & Hd' & Hg'). exists c', d'.
        apply elem_of_cons in Hc' as [->|Hc']; [|done]. congruence.
Qed.

(** X8: [iommufd_hw_pagetable_has_group] answers true exactly when some
    device on the list of the page table is in the group. *)
Theorem has_group_spec (h : hwpt_id) (group : group_id) (s : state) (has : bool) :
  iommufd_hw_pagetable_has_group h group s = Some has →
  has = true ↔
  ∃ hwpt c d, hwpts s !! h = Some hwpt ∧ c ∈ hwpt_devices hwpt ∧
              idevs s !! c = Some d ∧ idev_group d = group.
Proof.
  unfold iommufd_hw_pagetable_has_group. intros Hw.
  destruct (hwpts s !! h) as [hwpt|] eqn:Hh; [|done]. simpl in Hw.
  rewrite (devices_have_group_spec _ _ _ _ Hw). split.
  - intros (c & d & H). by exists hwpt, c, d.
  - intros (hwpt' & c & d & Heq & H). injection Heq as <-. by exists c, d.
Qed.

Lemma has_group_spec_witness :
  ∃ hwpt c d, hwpts st_one_attached !! 20%nat = Some hwpt ∧ c ∈ hwpt_devices hwpt ∧
              idevs st_one_attached !! c = Some d ∧ idev_group d = 201%nat.
Proof.
  assert (Hrun : iommufd_hw_pagetable_has_group 20 201 st_one_attached = Some true)
    by reflexivity.
  exact (proj1 (has_group_spec 20 201 st_one_attached true Hrun) eq_refl).
Defined.

Lemma setup_msi_success_warnings e i h sw flags s s' :
  iommufd_device_setup_msi e i h sw flags s = Some (0, s') → warnings s' = warnings s.
Proof.
  unfold iommufd_device_setup_msi. intros Hs.
  destruct (idevs s !! i) as [idev|]; [|done].
  destruct (hwpts s !! h) as [hwpt|]; [|done]. simpl in Hs.
  destruct (device_iommu_capable e (idev_dev idev) IOMMU_CAP_INTR_REMAP); [by simplify_eq|].
  destruct (irq_domain_check_msi_remap e).
  2:{ case_decide; by simplify_eq. }
  case_decide; [by simplify_eq|].
  destruct (hwpt_msi_cookie hwpt); [by simplify_eq|].
  unfold iommu_get_msi_cookie in Hs. case_decide; by simplify_eq.
Qed.

(** X9: [iommufd_device_setup_msi] on a platform without interrupt
    remapping that needs the software MSI window.  Without a window
    address it fails with -EPERM and warns, touching nothing else.  When
    it succeeds a window address was given and the page table has its
    cookie flag set afterwards.  When it fails otherwise, the errno is the
    one of the cookie request, which is not -ENODEV, and the flag stays
    down; a cookie request answered -ENODEV counts as success. *)
Theorem setup_msi_sw_window (e : Env) (i : idev_id) (h : hwpt_id) (sw flags : Z)
    (s s' : state) (rc : Z) (idev : iommufd_device) (hwpt : iommufd_hw_pagetable) :
  idevs s !! i = Some idev →
  hwpts s !! h = Some hwpt →
  device_iommu_capable e (idev_dev idev) IOMMU_CAP_INTR_REMAP = false →
  irq_domain_check_msi_remap e = true →
  iommufd_device_setup_msi e i h sw flags s = Some (rc, s') →
  (sw = 0 →
     rc = - EPERM ∧ warnings s' = S (warnings s) ∧ hwpts s' = hwpts s ∧
     msi_cookie_calls s' = msi_cookie_calls s) ∧
  (rc = 0 →
     sw ≠ 0 ∧ warnings s' = warnings s ∧
     hwpts s' = <[h := hwpt_set_msi_cookie true hwpt]> (hwpts s)) ∧
  (rc ≠ 0 → sw ≠ 0 →
     rc = get_msi_cookie_rc e (hwpt_domain hwpt) sw ∧ rc ≠ - ENODEV ∧
     hwpt_msi_cookie hwpt = false ∧ hwpts s' = hwpts s ∧
     msi_cookie_calls s' = hwpt_domain hwpt :: msi_cookie_calls s) ∧
  (sw ≠ 0 → hwpt_msi_cookie hwpt = false →
     get_msi_cookie_rc e (hwpt_domain hwpt) sw = - ENODEV → rc = 0).
Proof.
  intros Hi Hh Hcap Hremap. unfold iommufd_device_setup_msi.
  rewrite Hi, Hh. simpl. rewrite Hcap, Hremap.
  assert (Hid : hwpts s = <[h := hwpt_set_msi_cookie true hwpt]> (hwpts s) ↔
                hwpt_msi_cookie hwpt = true).
  { split.
    - intros E. apply (f_equal (λ m, hwpt_msi_cookie <$> m !! h)) in E.
      rewrite Hh, lookup_insert_eq in E. simpl in E. by injection E.
    - intros E. symmetry. apply insert_id. rewrite Hh. f_equal. destruct hwpt.
      simpl in *. by subst. }
  case_decide as Hsw.
  { intros [= <- <-]. split; [done|]. split; [done|]. split; [done|]. done. }
  destruct (hwpt_msi_cookie hwpt) eqn:Hm.
  { intros [= <- <-]. split; [done|]. split; [|done].
    intros _. split; [done|]. split; [done|]. by apply Hid. }
  unfold iommu_get_msi_cookie.
  case_decide as Hrc; intros [= <- <-]; simpl.
  - split; [done|]. split; [by destruct Hrc|]. split; [|by destruct Hrc].
    intros _ _. destruct Hrc. done.
  - split; [done|]. split.
    { intros _. split; [done|]. split; [done|]. by apply alter_as_insert. }
    done.
Qed.

Lemma setup_msi_sw_window_witness :
  ∃ s', iommufd_device_setup_msi env_sw_msi 2 20 134217728 0 st_unattached = Some (0, s') ∧
    hwpts s' = <[20%nat := hwpt_set_msi_cookie true (mk_hwpt 1 10 30 false false false [])]>
                 (hwpts st_unattached).
Proof.
  destruct (iommufd_device_setup_msi env_sw_msi 2 20 134217728 0 st_unattached)
    as [[rc s']|] eqn:Hrun; [|by vm_compute in Hrun].
  assert (Hrc : rc = 0) by (vm_compute in Hrun; by injection Hrun as <- _).
  subst rc. exists s'. split; [done|].
  destruct (setup_msi_sw_window env_sw_msi 2 20 134217728 0 st_unattached s' 0
              (mk_idev 1 0 None 101 201 false) (mk_hwpt 1 10 30 false false false [])
              eq_refl eq_refl eq_refl eq_refl Hrun) as (_ & Hok & _).
  apply Hok. reflexivity.
Defined.

Lemma do_attach_resv_exact e i h flags s s' idev hwpt0 io :
  idevs s !! i = Some idev →
  hwpts s !! h = Some hwpt0 →
  ioass s !! hwpt_ioas hwpt0 = Some io →
  do_attach_resv e i h flags s = Some (0, s') →
  ∃ has : bool,
    devices_have_group (idevs s) (hwpt_devices hwpt0) (idev_group idev) = Some has ∧
    group_domains s' = (if has then group_domains s
                        else (hwpt_domain hwpt0, idev_group idev) :: group_domains s) ∧
    ioass s' = <[hwpt_ioas hwpt0 :=
                   mk_ioas (ioas_users io) (ioas_hwpt_list io)
                     (iopt_reserved io ++
                        ((λ r, (idev_dev idev, r)) <$>
                           (resv_regions e (hwpt_ioas hwpt0) (idev_dev idev) (idev_group idev)).1.2))
                     (if list_empty (hwpt_devices hwpt0)
                      then iopt_domains io ++ [hwpt_domain hwpt0]
                      else iopt_domains io)]> (ioass s) ∧
    warnings s' = warnings s.
Proof.
  intros Hi Hh Hio Hs. unfold do_attach_resv in Hs.
  rewrite Hi, Hh in Hs. simpl in Hs.
  unfold iopt_table_enforce_group_resv_regions in Hs.
  destruct (resv_regions e (hwpt_ioas hwpt0) (idev_dev idev) (idev_group idev))
    as [[rc0 ranges] sw].
  set (s1 := upd_ioas _ _ s) in Hs.
  case_decide as Hrc0; [unfold out_iova, out_unlock in Hs; by simplify_eq|].
  destruct (iommufd_device_setup_msi e i h sw flags s1) as [[rc1 s2]|] eqn:Hmsi; [|done].
  simpl in Hs.
  case_decide as Hrc1; [unfold out_iova, out_unlock in Hs; by simplify_eq|].
  assert (rc1 = 0) as -> by lia. clear Hrc1.
  pose proof (setup_msi_success_warnings _ _ _ _ _ _ _ Hmsi) as Hw.
  apply setup_msi_effect in Hmsi as (M1 & M2 & M3 & M4 & M5 & M6 & M7 & hw & Hhw & Hcases).
  assert (hw = hwpt0) as -> by (subst s1; simpl in Hhw; congruence).
  change (idevs s1) with (idevs s) in M1. change (group_domains s1) with (group_domains s) in M3.
  change (warnings s1) with (warnings s) in Hw.
  change (hwpts s1) with (hwpts s) in Hcases.
  assert (∃ hw2, hwpts s2 !! h = Some hw2 ∧ hwpt_devices hw2 = hwpt_devices hwpt0)
    as (hw2 & Hh2 & Hd2).
  { destruct Hcases as [[E _]|[(_ & _ & E & _)|(_ & _ & E & _)]]; rewrite E.
    - by exists hwpt0.
    - by exists hwpt0.
    - rewrite lookup_insert_eq. by eexists. }
  assert (Ha2 : ioass s2 = <[hwpt_ioas hwpt0 :=
              mk_ioas (ioas_users io) (ioas_hwpt_list io)
                (iopt_reserved io ++ ((λ r, (idev_dev idev, r)) <$> ranges))
                (iopt_domains io)]> (ioass s)).
  { rewrite M2. subst s1. simpl. by rewrite (alter_as_insert _ _ _ _ Hio). }
  assert (Hadd : alter (λ io0, ioas_set_domains (iopt_domains io0 ++ [hwpt_domain hwpt0]) io0)
             (hwpt_ioas hwpt0) (ioass s2)
           = <[hwpt_ioas hwpt0 := mk_ioas (ioas_users io) (ioas_hwpt_list io)
                (iopt_reserved io ++ ((λ r, (idev_dev idev, r)) <$> ranges))
                (iopt_domains io ++ [hwpt_domain hwpt0])]> (ioass s)).
  { rewrite Ha2. rewrite (alter_as_insert _ _ _ _ (lookup_insert_eq _ _ _)).
    by rewrite insert_insert_eq. }
  unfold iommufd_hw_pagetable_has_group in Hs. rewrite Hh2 in Hs. simpl in Hs.
  rewrite Hd2, M1 in Hs.
  destruct (devices_have_group (idevs s) (hwpt_devices hwpt0) (idev_group idev))
    as [has|] eqn:Hhas; [|done].
  simpl in Hs. exists has. split; [done|].
  destruct has.
  - simpl in Hs.
    destruct (hwpt_devices hwpt0) as [|c l] eqn:Hdevs; [done|].
    simpl in Hs. injection Hs as <-. simpl. done.
  - unfold iommu_attach_group in Hs.
    case_decide as Hatt.
    + rewrite (decide_True (P := _ ≠ 0)) in Hs by done.
      unfold out_iova, out_unlock in Hs. by simplify_eq.
    + simpl in Hs.
      destruct (list_empty (hwpt_devices hwpt0)).
      * unfold iopt_table_add_domain in Hs.
        case_decide as Hadd'.
        -- rewrite (decide_True (P := _ ≠ 0)) in Hs by done.
           unfold out_detach, out_iova, out_unlock in Hs. by simplify_eq.
        -- simpl in Hs. injection Hs as <-. simpl. rewrite M3. by rewrite Hadd.
      * simpl in Hs. injection Hs as <-. simpl. by rewrite M3.
Qed.

Lemma do_attach_exact e i h flags s s' idev hwpt io :
  idevs s !! i = Some idev →
  hwpts s !! h = Some hwpt →
  ioass s !! hwpt_ioas hwpt = Some io →
  iommufd_device_do_attach e i h flags s = Some (0, s') →
  ∃ has : bool,
    devices_have_group (idevs s) (hwpt_devices hwpt) (idev_group idev) = Some has ∧
    group_domains s' = (if has then group_domains s
                        else (hwpt_domain hwpt, idev_group idev) :: group_domains s) ∧
    ioass s' = <[hwpt_ioas hwpt :=
                   mk_ioas (ioas_users io) (ioas_hwpt_list io)
                     (iopt_reserved io ++
                        ((λ r, (idev_dev idev, r)) <$>
                           (resv_regions e (hwpt_ioas hwpt) (idev_dev idev) (idev_group idev)).1.2))
                     (if list_empty (hwpt_devices hwpt)
                      then iopt_domains io ++ [hwpt_domain hwpt]
                      else iopt_domains io)]> (ioass s) ∧
    warnings s' = warnings s.
Proof.
  intros Hi Hh Hio Hs. unfold iommufd_device_do_attach in Hs.
  rewrite Hi, Hh in Hs. simpl in Hs. rewrite Hio in Hs. simpl in Hs.
  destruct (idev_enforce_cache_coherency idev && negb (hwpt_enforce_cache_coherency hwpt)).
  2:{ by apply (do_attach_resv_exact e i h flags s s' idev hwpt io). }
  destruct (domain_enforce_cache_coherency e (hwpt_domain hwpt)) as [b|].
  - simpl in Hs. rewrite lookup_alter_eq, Hh in Hs. simpl in Hs.
    destruct b; simpl in Hs; [|done].
    apply (do_attach_resv_exact e i h flags
             (upd_hwpt h (hwpt_set_enforce_cache_coherency true) s) s' idev
             (hwpt_set_enforce_cache_coherency true hwpt) io); [done| |done|done].
    simpl. by rewrite lookup_alter_eq, Hh.
  - rewrite Hh in Hs. simpl in Hs.
    destruct (hwpt_enforce_cache_coherency hwpt); simpl in Hs; [|done].
    by apply (do_attach_resv_exact e i h flags s s' idev hwpt io).
Qed.

(** X10: what a successful [iommufd_device_do_attach] does to the group
    and to the address space.  The domain is attached to the group of the
    device only when no device already listed on the page table is in that
    group; the domain is added to the domains of the address space only
    for the first device of the page table; the ranges reserved for the
    device are appended to the reserved ranges; the member list of the
    address space is not touched, and no warning fires. *)
Theorem do_attach_group_once (e : Env) (i : idev_id) (h : hwpt_id) (flags : Z)
    (s s' : state) (idev : iommufd_device) (hwpt : iommufd_hw_pagetable) (io : iommufd_ioas) :
  idevs s !! i = Some idev →
  hwpts s !! h = Some hwpt →
  ioass s !! hwpt_ioas hwpt = Some io →
  iommufd_device_do_attach e i h flags s = Some (0, s') →
  ∃ (has : bool) (io' : iommufd_ioas),
    iommufd_hw_pagetable_has_group h (idev_group idev) s = Some has ∧
    group_domains s' = (if has then group_domains s
                        else (hwpt_domain hwpt, idev_group idev) :: group_domains s) ∧
    ioass s' !! hwpt_ioas hwpt = Some io' ∧
    iopt_domains io' = (if list_empty (hwpt_devices hwpt)
                        then iopt_domains io ++ [hwpt_domain hwpt]
                        else iopt_domains io) ∧
    iopt_reserved io' =
      iopt_reserved io ++
        ((λ r, (idev_dev idev, r)) <$>
           (resv_regions e (hwpt_ioas hwpt) (idev_dev idev) (idev_group idev)).1.2) ∧
    ioas_hwpt_list io' = ioas_hwpt_list io ∧
    warnings s' = warnings s.
Proof.
  intros Hi Hh Hio Hs.
  destruct (do_attach_exact e i h flags s s' idev hwpt io Hi Hh Hio Hs)
    as (has & Hhas & Hgd & Hioas & Hw).
  exists has. eexists. split.
  { unfold iommufd_hw_pagetable_has_group. by rewrite Hh. }
  split; [done|]. split; [by rewrite Hioas, lookup_insert_eq|]. done.
Qed.

Lemma do_attach_group_once_witness :
  ∃ s', iommufd_device_do_attach env_plain 1 20 0 st_one_attached = Some (0, s') ∧
    group_domains s' = (30%nat, 200%nat) :: group_domains st_one_attached.
Proof.
  destruct (iommufd_device_do_attach env_plain 1 20 0 st_one_attached)
    as [[rc s']|] eqn:Hrun; [|by vm_compute in Hrun].
  assert (Hrc : rc = 0) by (vm_compute in Hrun; by injection Hrun as <- _).
  subst rc. exists s'. split; [done|].
  destruct (do_attach_group_once env_plain 1 20 0 st_one_attached s'
              (mk_idev 1 0 None 100 200 true) (mk_hwpt 2 10 30 false false false [2%nat])
              (mk_ioas 1 [20%nat] [] [30%nat]) eq_refl eq_refl eq_refl Hrun)
    as (has & io' & Hhas & Hgd & _).
  assert (has = false) as -> by (vm_compute in Hhas; by injection Hhas as <-).
  exact Hgd.
Defined.

(** ** Detaching *)

Lemma detach_finish_exact (i : idev_id) (h : hwpt_id) (s2 : state) (idev : iommufd_device)
    (hwpt2 : iommufd_hw_pagetable) (auto : bool) :
  idevs s2 !! i = Some idev →
  hwpts s2 !! h = Some hwpt2 →
  ∃ s',
    (s3 ← (if auto then snd <$> iommufd_object_destroy_user h s2
           else Some (refcount_dec_hwpt h s2));
     Some (refcount_dec_idev i (upd_idev i (idev_set_hwpt None) s3))) = Some s' ∧
    idevs s' = <[i := idev_set_users (idev_users idev - 1) (idev_set_hwpt None idev)]> (idevs s2) ∧
    hwpts s' = (if auto && bool_decide (hwpt_users hwpt2 - 1 = 1) then delete h (hwpts s2)
                else <[h := hwpt_set_users (hwpt_users hwpt2 - 1) hwpt2]> (hwpts s2)) ∧
    finalized s' = (if auto && bool_decide (hwpt_users hwpt2 - 1 = 1)
                    then list_del h (finalized s2) else finalized s2) ∧
    ioass s' = ioass s2 ∧ group_domains s' = group_domains s2 ∧
    msi_cookie_calls s' = msi_cookie_calls s2 ∧ dma_owner s' = dma_owner s2 ∧
    group_refs s' = group_refs s2 ∧ ctx_refs s' = ctx_refs s2 ∧
    warnings s' = warnings s2.
Proof.
  intros Hi Hh2.
  assert (Hidev : alter (λ d, idev_set_users (idev_users d - 1) d) i
                    (alter (idev_set_hwpt None) i (idevs s2))
                  = <[i := idev_set_users (idev_users idev - 1) (idev_set_hwpt None idev)]>
                      (idevs s2)).
  { rewrite alter_alter_eq. by rewrite (alter_as_insert _ _ _ _ Hi). }
  destruct auto; simpl.
  - unfold iommufd_object_destroy_user. rewrite Hh2. simpl.
    case_decide as Hlast; simpl.
    + rewrite bool_decide_eq_true_2 by done.
      eexists. split; [done|]. simpl. split; [exact Hidev|].
      split; [by rewrite delete_alter_eq|]. done.
    + rewrite bool_decide_eq_false_2 by done.
      eexists. split; [done|]. simpl. split; [exact Hidev|].
      split; [by rewrite (alter_as_insert _ _ _ _ Hh2)|]. done.
  - eexists. split; [done|]. simpl. split; [exact Hidev|].
    split; [by rewrite (alter_as_insert _ _ _ _ Hh2)|]. done.
Qed.

Lemma detach_exact (i : idev_id) (s s' : state) (idev : iommufd_device) (h : hwpt_id)
    (hwpt : iommufd_hw_pagetable) (io : iommufd_ioas) :
  idevs s !! i = Some idev →
  idev_hwpt idev = Some h →
  hwpts s !! h = Some hwpt →
  ioass s !! hwpt_ioas hwpt = Some io →
  iommufd_device_detach i s = Some s' →
  let devs := list_del i (hwpt_devices hwpt) in
  let gone := hwpt_auto_domain hwpt && bool_decide (hwpt_users hwpt - 1 = 1) in
  ∃ has : bool,
    devices_have_group (idevs s) devs (idev_group idev) = Some has ∧
    idevs s' = <[i := idev_set_users (idev_users idev - 1) (idev_set_hwpt None idev)]> (idevs s) ∧
    hwpts s' = (if gone then delete h (hwpts s)
                else <[h := hwpt_set_users (hwpt_users hwpt - 1)
                              (hwpt_set_devices devs hwpt)]> (hwpts s)) ∧
    finalized s' = (if gone then list_del h (finalized s) else finalized s) ∧
    ioass s' = (if has then ioass s
                else <[hwpt_ioas hwpt :=
                         mk_ioas (ioas_users io)
                           (if list_empty devs then list_del h (ioas_hwpt_list io)
                            else ioas_hwpt_list io)
                           (filter (λ r, r.1 ≠ idev_dev idev) (iopt_reserved io))
                           (if list_empty devs then list_del (hwpt_domain hwpt) (iopt_domains io)
                            else iopt_domains io)]> (ioass s)) ∧
    group_domains s' = (if has then group_domains s
                        else remove_attachment (hwpt_domain hwpt, idev_group idev)
                               (group_domains s)) ∧
    msi_cookie_calls s' = msi_cookie_calls s ∧ dma_owner s' = dma_owner s ∧
    group_refs s' = group_refs s ∧ ctx_refs s' = ctx_refs s ∧
    warnings s' = warnings s.
Proof.
  intros Hi Hptr Hh Hio Hs devs gone.
  unfold iommufd_device_detach in Hs. rewrite Hi in Hs. simpl in Hs.
  rewrite Hptr in Hs. simpl in Hs. rewrite Hh in Hs. simpl in Hs.
  rewrite Hio in Hs. simpl in Hs.
  assert (Halt : alter (λ p, hwpt_set_devices (list_del i (hwpt_devices p)) p) h (hwpts s)
                 = <[h := hwpt_set_devices devs hwpt]> (hwpts s)).
  { by rewrite (alter_as_insert _ _ _ _ Hh). }
  unfold iommufd_hw_pagetable_has_group, upd_hwpt in Hs. simpl in Hs.
  rewrite !Halt in Hs. rewrite lookup_insert_eq in Hs. simpl in Hs.
  fold devs in Hs.
  destruct (devices_have_group (idevs s) devs (idev_group idev)) as [has|] eqn:Hhas; [|done].
  simpl in Hs. exists has. split; [done|].
  assert (Hcomb : ∀ u, <[h := hwpt_set_users u (hwpt_set_devices devs hwpt)]>
                         (<[h := hwpt_set_devices devs hwpt]> (hwpts s))
                       = <[h := hwpt_set_users u (hwpt_set_devices devs hwpt)]> (hwpts s)).
  { intros u. by rewrite insert_insert_eq. }
  assert (Hdel : delete h (<[h := hwpt_set_devices devs hwpt]> (hwpts s)) = delete h (hwpts s)).
  { by rewrite delete_insert_eq. }
  clearbody devs.
  destruct has; simpl in Hs.
  - match type of Hs with context [iommufd_object_destroy_user h ?x] => set (s1 := x) in * end.
    destruct (detach_finish_exact i h s1 idev (hwpt_set_devices devs hwpt)
                (hwpt_auto_domain hwpt)) as (s'' & Hrun & F);
      [done|subst s1; simpl; by rewrite Halt, lookup_insert_eq|].
    rewrite Hrun in Hs. injection Hs as <-.
    destruct F as (F1 & F2 & F3 & F4 & F5 & F6 & F7 & F8 & F9 & F10).
    subst s1. simpl in *. rewrite Halt, Hcomb, Hdel in F2.
    fold gone in F2, F3. done.
  - match type of Hs with context [iommu_detach_group ?d ?g ?x] =>
      set (s2 := iommu_detach_group d g x) in * end.
    destruct (detach_finish_exact i h s2 idev (hwpt_set_devices devs hwpt)
                (hwpt_auto_domain hwpt)) as (s'' & Hrun & F).
    { subst s2. by destruct devs. }
    { subst s2. destruct devs; simpl; by rewrite Halt, lookup_insert_eq. }
    rewrite Hrun in Hs. injection Hs as <-.
    destruct F as (F1 & F2 & F3 & F4 & F5 & F6 & F7 & F8 & F9 & F10).
    assert (E2 : hwpts s2 = <[h := hwpt_set_devices devs hwpt]> (hwpts s)).
    { subst s2. destruct devs; simpl; by rewrite Halt. }
    rewrite E2, Hcomb, Hdel in F2. fold gone in F2, F3.
    split. { rewrite F1. subst s2. by destruct devs. }
    split; [done|].
    split. { rewrite F3. subst s2. by destruct devs. }
    split.
    { rewrite F4. subst s2. destruct devs; simpl.
      - rewrite !alter_alter_eq. by rewrite (alter_as_insert _ _ _ _ Hio).
      - by rewrite (alter_as_insert _ _ _ _ Hio). }
    split. { rewrite F5. subst s2. by destruct devs. }
    split. { rewrite F6. subst s2. by destruct devs. }
    split. { rewrite F7. subst s2. by destruct devs. }
    split. { rewrite F8. subst s2. by destruct devs. }
    split. { rewrite F9. subst s2. by destruct devs. }
    rewrite F10. subst s2. by destruct devs.
Qed.

Lemma detach_defined (i : idev_id) (s s' : state) :
  iommufd_device_detach i s = Some s' →
  ∃ idev h hwpt io,
    idevs s !! i = Some idev ∧ idev_hwpt idev = Some h ∧
    hwpts s !! h = Some hwpt ∧ ioass s !! hwpt_ioas hwpt = Some io.
Proof.
  unfold iommufd_device_detach. intros Hs.
  destruct (idevs s !! i) as [idev|]; [|done]. simpl in Hs.
  destruct (idev_hwpt idev) as [h|] eqn:Hptr; [|done]. simpl in Hs.
  destruct (hwpts s !! h) as [hwpt|] eqn:Hh; [|done]. simpl in Hs.
  destruct (ioass s !! hwpt_ioas hwpt) as [io|] eqn:Hio; [|done].
  by exists idev, h, hwpt, io.
Qed.

(** X11: what [iommufd_device_detach] does to the group and to the
    reserved ranges.  While another device of the same group stays on the
    page table, the group stays attached and the address space is left
    alone, the ranges reserved for the leaving device included.  When no
    such device stays, one attachment of the domain to the group is taken
    back and every range owned by the device is released.  Ownership, the
    group and context references and the warning count never change. *)
Theorem detach_group_and_ranges (i : idev_id) (s s' : state) (idev : iommufd_device)
    (h : hwpt_id) (hwpt : iommufd_hw_pagetable) (io : iommufd_ioas) :
  idevs s !! i = Some idev →
  idev_hwpt idev = Some h →
  hwpts s !! h = Some hwpt →
  ioass s !! hwpt_ioas hwpt = Some io →
  iommufd_device_detach i s = Some s' →
  ((∃ c d, c ∈ hwpt_devices hwpt ∧ c ≠ i ∧ idevs s !! c = Some d ∧
           idev_group d = idev_group idev) →
     group_domains s' = group_domains s ∧ ioass s' = ioass s) ∧
  ((∀ c d, c ∈ hwpt_devices hwpt → c ≠ i → idevs s !! c = Some d →
           idev_group d ≠ idev_group idev) →
     group_domains s' = remove_attachment (hwpt_domain hwpt, idev_group idev) (group_domains s) ∧
     ∃ io', ioass s' !! hwpt_ioas hwpt = Some io' ∧
       iopt_reserved io' = filter (λ r, r.1 ≠ idev_dev idev) (iopt_reserved io)) ∧
  msi_cookie_calls s' = msi_cookie_calls s ∧ dma_owner s' = dma_owner s ∧
  group_refs s' = group_refs s ∧ ctx_refs s' = ctx_refs s ∧ warnings s' = warnings s.
Proof.
  intros Hi Hptr Hh Hio Hs.
  destruct (detach_exact i s s' idev h hwpt io Hi Hptr Hh Hio Hs)
    as (has & Hhas & _ & _ & _ & Hioas & Hgd & Hrest).
  apply devices_have_group_spec in Hhas.
  split; [|split; [|done]].
  - intros (c & d & Hc & Hne & Hd & Hg).
    assert (has = true) as ->; [|done].
    apply Hhas. exists c, d. split; [|done].
    unfold list_del. rewrite list_elem_of_filter. done.
  - intros Hnone.
    assert (has = false) as ->.
    { destruct has; [|done]. destruct Hhas as [Hex _].
      destruct (Hex eq_refl) as (c & d & Hc & Hd & Hg).
      unfold list_del in Hc. apply list_elem_of_filter in Hc as [Hne Hc].
      by destruct (Hnone c d Hc Hne Hd). }
    split; [done|]. eexists. split; [by rewrite Hioas, lookup_insert_eq|done].
Qed.

Lemma detach_group_and_ranges_witness :
  ∃ s', iommufd_device_detach 2 st_one_attached = Some s' ∧ group_domains s' = [].
Proof.
  destruct (iommufd_device_detach 2 st_one_attached) as [s'|] eqn:Hrun;
    [|by vm_compute in Hrun].
  exists s'. split; [done|].
  destruct (detach_group_and_ranges 2 st_one_attached s'
              (mk_idev 2 0 (Some 20%nat) 101 201 false) 20
              (mk_hwpt 2 10 30 false false false [2%nat]) (mk_ioas 1 [20%nat] [] [30%nat])
              eq_refl eq_refl eq_refl eq_refl Hrun) as (_ & Hlast & _).
  destruct Hlast as [Hgd _].
  { intros c d Hc Hne. simpl in Hc. apply list_elem_of_singleton in Hc. done. }
  exact Hgd.
Defined.

(** ** Cache coherency *)

(** X12: an invariant of attach and detach.  If every device that
    requires enforced cache coherency and points to a page table points to
    one that enforces it, the same holds after
    [iommufd_device_do_attach], whether it succeeds or fails, and after
    [iommufd_device_detach]. *)
Theorem coherency_respected_preserved :
  (∀ e i h flags s rc s',
     coherency_respected s →
     iommufd_device_do_attach e i h flags s = Some (rc, s') →
     coherency_respected s') ∧
  (∀ i s s',
     coherency_respected s →
     iommufd_device_detach i s = Some s' →
     coherency_respected s').
Proof.
  split.
  - intros e i h flags s rc s' Hinv Hs j jdev k khw Hj Hptr Hk Hreq.
    destruct (decide (rc = 0)) as [->|Hrc].
    + apply do_attach_success in Hs as (ecc & Hres & Hmono_h & Hmono_i).
      destruct Hres as (_ & _ & _ & _ & idev & hwpt & io & Hi & Hh & Hio & Hi' & R).
      destruct R as (msi & R & D & Hhs & _).
      rewrite Hi' in Hj. rewrite Hhs in Hk.
      destruct (decide (j = i)) as [->|Hji].
      * rewrite lookup_insert_eq in Hj. injection Hj as <-. simpl in Hptr, Hreq.
        injection Hptr as <-. rewrite lookup_insert_eq in Hk. injection Hk as <-. simpl.
        by apply (Hmono_i idev).
      * rewrite lookup_insert_ne in Hj by done.
        destruct (decide (k = h)) as [->|Hkh].
        -- rewrite lookup_insert_eq in Hk. injection Hk as <-. simpl.
           apply (Hmono_h hwpt Hh). by apply (Hinv j jdev h hwpt).
        -- rewrite lookup_insert_ne in Hk by done. by apply (Hinv j jdev k khw).
    + apply do_attach_failure in Hs; [|done].
      destruct Hs as (E1 & _ & _ & _ & _ & _ & idev & hwpt & io & Hi & Hh & Hio & R).
      destruct R as (ecc & msi & R & Hhs & Hmono & _).
      rewrite E1 in Hj. rewrite Hhs in Hk.
      destruct (decide (k = h)) as [->|Hkh].
      * rewrite lookup_insert_eq in Hk. injection Hk as <-. simpl.
        apply Hmono. by apply (Hinv j jdev h hwpt).
      * rewrite lookup_insert_ne in Hk by done. by apply (Hinv j jdev k khw).
  - intros i s s' Hinv Hs j jdev k khw Hj Hptr Hk Hreq.
    destruct (detach_defined i s s' Hs) as (idev & h & hwpt & io & Hi & Hp & Hh & Hio).
    destruct (detach_exact i s s' idev h hwpt io Hi Hp Hh Hio Hs)
      as (has & _ & Hidevs & Hhwpts & _).
    rewrite Hidevs in Hj. rewrite Hhwpts in Hk.
    destruct (decide (j = i)) as [->|Hji].
    { rewrite lookup_insert_eq in Hj. injection Hj as <-. done. }
    rewrite lookup_insert_ne in Hj by done.
    destruct (decide (k = h)) as [->|Hkh].
    + destruct (hwpt_auto_domain hwpt && bool_decide (hwpt_users hwpt - 1 = 1)).
      * by rewrite lookup_delete_eq in Hk.
      * rewrite lookup_insert_eq in Hk. injection Hk as <-. simpl.
        by apply (Hinv j jdev h hwpt).
    + destruct (hwpt_auto_domain hwpt && bool_decide (hwpt_users hwpt - 1 = 1)).
      * rewrite lookup_delete_ne in Hk by done. by apply (Hinv j jdev k khw).
      * rewrite lookup_insert_ne in Hk by done. by apply (Hinv j jdev k khw).
Qed.

Lemma coherency_respected_preserved_witness :
  ∃ s', iommufd_device_do_attach env_plain 1 20 0 st_unattached = Some (0, s') ∧
    coherency_respected s'.
Proof.
  destruct (iommufd_device_do_attach env_plain 1 20 0 st_unattached)
    as [[rc s']|] eqn:Hrun; [|by vm_compute in Hrun].
  assert (Hrc : rc = 0) by (vm_compute in Hrun; by injection Hrun as <- _).
  subst rc. exists s'. split; [done|].
  apply (proj1 coherency_respected_preserved env_plain 1%nat 20%nat 0 st_unattached 0 s');
    [|done].
  intros i idev h hwpt Hi Hp. exfalso. unfold st_unattached in Hi. simpl in Hi.
  apply lookup_insert_Some in Hi as [[_ <-]|[_ Hi]]; [done|].
  apply lookup_insert_Some in Hi as [[_ <-]|[_ Hi]]; [done|].
  by rewrite lookup_empty in Hi.
Defined.

(** X13: the answer of [iommufd_device_enforced_coherent].  For a device
    just bound it is whether the device has the
    IOMMU_CAP_ENFORCE_CACHE_COHERENCY capability; no
    [iommufd_device_do_attach], failed or not, and no
    [iommufd_device_detach] changes the answer for any device. *)
Theorem enforced_coherent_answer :
  (∀ e ictx dev s idev s1,
     iommufd_device_bind e ictx dev s = (inr idev, s1) →
     iommufd_device_enforced_coherent idev s1
       = Some (device_iommu_capable e dev IOMMU_CAP_ENFORCE_CACHE_COHERENCY)) ∧
  (∀ e i h flags s rc s' j,
     iommufd_device_do_attach e i h flags s = Some (rc, s') →
     iommufd_device_enforced_coherent j s' = iommufd_device_enforced_coherent j s) ∧
  (∀ i s s' j,
     iommufd_device_detach i s = Some s' →
     iommufd_device_enforced_coherent j s' = iommufd_device_enforced_coherent j s).
Proof.
  unfold iommufd_device_enforced_coherent. split; [|split].
  - intros e ictx dev s idev s1 Hb.
    destruct (bind_success_state e ictx dev s s1 idev Hb) as (g & own & _ & _ & _ & ->).
    simpl. by rewrite lookup_insert_eq.
  - intros e i h flags s rc s' j Hs.
    destruct (decide (rc = 0)) as [->|Hrc].
    + apply do_attach_success in Hs as (ecc & Hres & _).
      destruct Hres as (_ & _ & _ & _ & idev & hwpt & io & Hi & _ & _ & Hi' & _).
      rewrite Hi'. destruct (decide (j = i)) as [->|Hji].
      * by rewrite lookup_insert_eq, Hi.
      * by rewrite lookup_insert_ne.
    + apply do_attach_failure in Hs as (E1 & _); [|done]. by rewrite E1.
  - intros i s s' j Hs.
    destruct (detach_defined i s s' Hs) as (idev & h & hwpt & io & Hi & Hp & Hh & Hio).
    destruct (detach_exact i s s' idev h hwpt io Hi Hp Hh Hio Hs) as (has & _ & Hidevs & _).
    rewrite Hidevs. destruct (decide (j = i)) as [->|Hji].
    + by rewrite lookup_insert_eq, Hi.
    + by rewrite lookup_insert_ne.
Qed.

Lemma enforced_coherent_answer_witness :
  ∃ idev s1,
    iommufd_device_bind env_plain 9 3 st_ioas_only = (inr idev, s1) ∧
    iommufd_device_enforced_coherent idev s1 = Some true.
Proof.
  destruct (iommufd_device_bind env_plain 9 3 st_ioas_only) as [[rc|idev] s1] eqn:Hb;
    [by vm_compute in Hb|].
  exists idev, s1. split; [done|].
  exact (proj1 enforced_coherent_answer env_plain 9%nat 3%nat st_ioas_only idev s1 Hb).
Defined.

(** ** [iommufd_device_attach] *)

Lemma refcount_idev_inc_dec (i : idev_id) (s : state) :
  refcount_dec_idev i (refcount_inc_idev i s) = s.
Proof.
  apply state_eq; simpl; try done.
  rewrite alter_alter_eq. apply alter_id. intros d _. destruct d.
  unfold idev_set_users. simpl. f_equal. lia.
Qed.

(** X14: [iommufd_device_attach] with an id that names neither a page
    table nor an address space fails and leaves the whole state as it
    was: with -ENOENT when the id names no object, with -EINVAL when it
    names a device object, whose reference, taken for the lookup, is
    given back. *)
Theorem attach_rejects_unusable_id (e : Env) (i : idev_id) (pt_id : nat) (flags : Z)
    (s : state) :
  hwpts s !! pt_id = None →
  ioass s !! pt_id = None →
  iommufd_device_attach e i pt_id flags s =
    Some (if decide (is_Some (idevs s !! pt_id)) then - EINVAL else - ENOENT, pt_id, s).
Proof.
  intros Hh Ha. unfold iommufd_device_attach, iommufd_get_object.
  rewrite (decide_False (P := is_Some (hwpts s !! pt_id))) by (rewrite Hh; by intros [? ?]).
  rewrite (decide_False (P := is_Some (ioass s !! pt_id))) by (rewrite Ha; by intros [? ?]).
  case_decide; [|done]. simpl.
  by rewrite refcount_idev_inc_dec.
Qed.

Lemma attach_rejects_unusable_id_witness :
  iommufd_device_attach env_plain 1 2 0 st_unattached = Some (- EINVAL, 2%nat, st_unattached) ∧
  iommufd_device_attach env_plain 1 99 0 st_unattached = Some (- ENOENT, 99%nat, st_unattached).
Proof.
  split.
  - apply (attach_rejects_unusable_id env_plain 1 2 0 st_unattached); reflexivity.
  - apply (attach_rejects_unusable_id env_plain 1 99 0 st_unattached); reflexivity.
Defined.

Lemma auto_scan_failure_idevs e i flags l s rc s' :
  auto_scan e i flags l s = Some (ScanDone rc s') → rc ≠ 0 → idevs s' = idevs s.
Proof.
  revert s. induction l as [|h l IH]; intros s Hs Hrc; simpl in Hs; [done|].
  destruct (hwpts s !! h) as [hwpt|]; [|done]. simpl in Hs.
  destruct (negb (hwpt_auto_domain hwpt) || bool_decide (hwpt_users hwpt = 0));
    [by apply IH|].
  destruct (iommufd_device_do_attach e i h flags (refcount_inc_hwpt h s))
    as [[rc1 s2]|] eqn:Hrun; [|done].
  simpl in Hs. case_decide as Hrc1.
  - apply do_attach_failure in Hrun as (E1 & _); [|done]. simpl in E1.
    case_decide.
    + apply IH in Hs; [|done]. simpl in Hs. by rewrite Hs.
    + by simplify_eq.
  - by simplify_eq.
Qed.

Lemma auto_get_domain_failure_idevs e i a flags s rc s' :
  iommufd_device_auto_get_domain e i a flags s = Some (rc, s') → rc ≠ 0 →
  idevs s' = idevs s.
Proof.
  unfold iommufd_device_auto_get_domain. intros Hs Hrc.
  destruct (idevs s !! i) as [idev|]; [|done]. simpl in Hs.
  destruct (ioass s !! a) as [ioas|]; [|done]. simpl in Hs.
  destruct (auto_scan e i flags (ioas_hwpt_list ioas) s) as [[rc1 s1|s1]|] eqn:Hscan;
    [| |done]; simpl in Hs.
  - injection Hs as -> ->. by apply (auto_scan_failure_idevs e i flags _ s rc s' Hscan).
  - apply auto_scan_exhausted_frame in Hscan as (F1 & _).
    unfold iommufd_hw_pagetable_alloc in Hs.
    destruct (hw_pagetable_alloc_res e (idev_ictx idev) a (idev_dev idev)) as [rc0 domain].
    case_decide; [by simplify_eq|].
    match type of Hs with context [iommufd_device_do_attach e i ?h flags ?x] =>
      destruct (iommufd_device_do_attach e i h flags x) as [[rc2 s2]|] eqn:Hrun end; [|done].
    simpl in Hs. case_decide as Hrc2; [|by simplify_eq].
    injection Hs as <- <-.
    apply do_attach_failure in Hrun as (E1 & _); [|done]. simpl in E1. simpl.
    by rewrite E1.
Qed.

(** X15: a failing [iommufd_device_attach], whatever the id names, leaves
    [*pt_id] as the caller set it and leaves every device object as it
    was: no binding points anywhere new and no reference on a device
    object is taken. *)
Theorem attach_failure_keeps_bindings (e : Env) (i : idev_id) (pt_id : nat) (flags : Z)
    (s s' : state) (rc : Z) (out : nat) :
  iommufd_device_attach e i pt_id flags s = Some (rc, out, s') →
  rc ≠ 0 →
  out = pt_id ∧ idevs s' = idevs s.
Proof.
  unfold iommufd_device_attach. intros Hrun Hrc.
  destruct (iommufd_get_object pt_id s) as [[rc0|ty] s0] eqn:Hget.
  { unfold iommufd_get_object in Hget. repeat case_decide; simplify_eq. done. }
  match type of Hrun with (?blk ≫= _) = _ => destruct blk as [[rc1 sa]|] eqn:Hblk end; [|done].
  simpl in Hrun. case_decide as Hrc1.
  2:{ match type of Hrun with (?lk ≫= _) = _ => destruct lk as [idev1|] end; [|done].
      simpl in Hrun. destruct (idev_hwpt idev1); [|done]. simpl in Hrun.
      by simplify_eq. }
  injection Hrun as <- <- <-. split; [done|].
  unfold iommufd_get_object in Hget.
  repeat case_decide; simplify_eq.
  - destruct (iommufd_device_do_attach e i pt_id flags (refcount_inc_hwpt pt_id s))
      as [[rc2 s2]|] eqn:Hatt; [|done].
    simpl in Hblk. case_decide as Hrc2.
    + injection Hblk as <- <-.
      apply do_attach_failure in Hatt as (E1 & _); [|done]. simpl in *. done.
    + destruct (hwpts s2 !! pt_id); [|done]. simpl in Hblk. by simplify_eq.
  - apply auto_get_domain_failure_idevs in Hblk; [|done]. simpl in *. done.
  - simpl.
    rewrite alter_alter_eq. apply alter_id. intros d _. destruct d.
    unfold idev_set_users. simpl. f_equal. lia.
Qed.

Lemma attach_failure_keeps_bindings_witness :
  ∃ rc out s', iommufd_device_attach env_no_upgrade 1 20 0 st_unattached = Some (rc, out, s') ∧
    rc ≠ 0 ∧ out = 20%nat ∧ idevs s' = idevs st_unattached.
Proof.
  destruct (iommufd_device_attach env_no_upgrade 1 20 0 st_unattached)
    as [[[rc out] s']|] eqn:Hrun; [|by vm_compute in Hrun].
  assert (Hrc : rc ≠ 0) by (vm_compute in Hrun; injection Hrun as <- _ _; done).
  exists rc, out, s'. split; [done|]. split; [done|].
  exact (attach_failure_keeps_bindings env_no_upgrade 1 20 0 st_unattached s' rc out Hrun Hrc).
Defined.

(** X16: whenever [iommufd_device_attach] succeeds, the id it leaves in
    [*pt_id] is the page table the device now points to, whether the
    caller named a page table or an address space. *)
Theorem attach_returns_bound_hwpt (e : Env) (i : idev_id) (pt_id : nat) (flags : Z)
    (s s' : state) (out : nat) :
  iommufd_device_attach e i pt_id flags s = Some (0, out, s') →
  ∃ idev', idevs s' !! i = Some idev' ∧ idev_hwpt idev' = Some out.
Proof.
  unfold iommufd_device_attach. intros Hrun.
  destruct (iommufd_get_object pt_id s) as [[rc|ty] s0] eqn:Hget.
  { unfold iommufd_get_object in Hget. repeat case_decide; simplify_eq. }
  match type of Hrun with (?blk ≫= _) = _ => destruct blk as [[rc1 sa]|] eqn:Hblk end; [|done].
  simpl in Hrun. case_decide as Hrc; [by simplify_eq|].
  match type of Hrun with (?lk ≫= _) = _ => destruct lk as [idev1|] eqn:Hi1 end; [|done].
  simpl in Hrun. destruct (idev_hwpt idev1) as [h1|] eqn:Hp1; [|done].
  simpl in Hrun. injection Hrun as <- <-.
  exists idev1. split; [|done].
  destruct ty; simpl; [|done|done].
  simpl in Hblk. injection Hblk as <- _. done.
Qed.

Lemma attach_returns_bound_hwpt_witness :
  ∃ out s' idev', iommufd_device_attach env_plain 2 10 0 st_shared = Some (0, out, s') ∧
    idevs s' !! 2%nat = Some idev' ∧ idev_hwpt idev' = Some out.
Proof.
  destruct (iommufd_device_attach env_plain 2 10 0 st_shared)
    as [[[rc out] s']|] eqn:Hrun; [|by vm_compute in Hrun].
  assert (Hrc : rc = 0) by (vm_compute in Hrun; by injection Hrun as <- _ _).
  subst rc.
  destruct (attach_returns_bound_hwpt env_plain 2 10 0 st_shared s' out Hrun)
    as (idev' & Hi & Hp).
  exists out, s', idev'. split; [done|]. split; [exact Hi|exact Hp].
Defined.

Lemma list_del_app_last (x : nat) (l : list nat) : x ∉ l → list_del x (l ++ [x]) = l.
Proof.
  intros Hnin. unfold list_del. rewrite filter_app.
  fold (list_del x l). rewrite list_del_absent by done.
  rewrite filter_cons_False by (intros ?; done). by rewrite app_nil_r.
Qed.

Lemma attach_hwpt_exact (e : Env) (i : idev_id) (h : hwpt_id) (flags : Z) (s s1 : state)
    (out : nat) (idev : iommufd_device) (hwpt : iommufd_hw_pagetable) (io : iommufd_ioas) :
  idevs s !! i = Some idev →
  hwpts s !! h = Some hwpt →
  ioass s !! hwpt_ioas hwpt = Some io →
  iommufd_device_attach e i h flags s = Some (0, out, s1) →
  ∃ has ecc msi : bool,
    devices_have_group (idevs s) (hwpt_devices hwpt) (idev_group idev) = Some has ∧
    out = h ∧
    idevs s1 = <[i := idev_set_users (idev_users idev + 1) (idev_set_hwpt (Some h) idev)]>
                 (idevs s) ∧
    hwpts s1 = <[h := mk_hwpt (hwpt_users hwpt + 1) (hwpt_ioas hwpt) (hwpt_domain hwpt)
                        (hwpt_auto_domain hwpt) ecc msi (i :: hwpt_devices hwpt)]> (hwpts s) ∧
    (hwpt_enforce_cache_coherency hwpt = true → ecc = true) ∧
    (idev_enforce_cache_coherency idev = true → ecc = true) ∧
    (hwpt_msi_cookie hwpt = true → msi = true) ∧
    ioass s1 = <[hwpt_ioas hwpt :=
                   mk_ioas (ioas_users io) (ioas_hwpt_list io ++ [h])
                     (iopt_reserved io ++
                        ((λ r, (idev_dev idev, r)) <$>
                           (resv_regions e (hwpt_ioas hwpt) (idev_dev idev) (idev_group idev)).1.2))
                     (if list_empty (hwpt_devices hwpt)
                      then iopt_domains io ++ [hwpt_domain hwpt]
                      else iopt_domains io)]> (ioass s) ∧
    group_domains s1 = (if has then group_domains s
                        else (hwpt_domain hwpt, idev_group idev) :: group_domains s) ∧
    dma_owner s1 = dma_owner s ∧ group_refs s1 = group_refs s ∧
    ctx_refs s1 = ctx_refs s ∧ finalized s1 = finalized s ∧ warnings s1 = warnings s.
Proof.
  intros Hi Hh Hio Hrun. unfold iommufd_device_attach, iommufd_get_object in Hrun.
  rewrite decide_True in Hrun by (by rewrite Hh).
  set (s0 := refcount_inc_hwpt h s) in *.
  assert (Hh0 : hwpts s0 !! h = Some (hwpt_set_users (hwpt_users hwpt + 1) hwpt)).
  { subst s0. simpl. by rewrite lookup_alter_eq, Hh. }
  assert (Hhs0 : hwpts s0 = <[h := hwpt_set_users (hwpt_users hwpt + 1) hwpt]> (hwpts s)).
  { subst s0. simpl. by rewrite (alter_as_insert _ _ _ _ Hh). }
  destruct (iommufd_device_do_attach e i h flags s0) as [[rc sa]|] eqn:Hatt; [|done].
  simpl in Hrun. case_decide as Hrc.
  { simpl in Hrun. rewrite decide_True in Hrun by done. by simplify_eq. }
  assert (rc = 0) as -> by lia.
  destruct (do_attach_exact e i h flags s0 sa idev _ io Hi Hh0 Hio Hatt)
    as (has & Hhas & Hgd & Hioas & Hw).
  apply do_attach_success in Hatt as (ecc & Hres & Hmono_h & Hmono_i).
  destruct Hres as (A1 & A2 & A3 & A4 & idev' & hwpt' & io' & Hi' & Hh' & Hio' & Hidevs & R).
  destruct R as (msi & R & D & Hhs & Hmsi & _ & _).
  assert (idev' = idev) as -> by (change (idevs s0) with (idevs s) in Hi'; congruence).
  assert (hwpt' = hwpt_set_users (hwpt_users hwpt + 1) hwpt) as -> by congruence.
  simpl in *.
  rewrite Hhs, lookup_insert_eq in Hrun. simpl in Hrun.
  rewrite Hidevs, lookup_alter_eq, lookup_insert_eq in Hrun. simpl in Hrun.
  injection Hrun as <- <-.
  exists has, ecc, msi. split; [done|]. split; [done|]. simpl.
  split.
  { rewrite Hidevs. rewrite (alter_as_insert _ _ _ _ (lookup_insert_eq _ _ _)).
    by rewrite insert_insert_eq. }
  split.
  { rewrite Hhs, Hhs0. rewrite (alter_as_insert _ _ _ _ (lookup_insert_eq _ _ _)).
    rewrite !insert_insert_eq. f_equal. unfold hwpt_set_users. simpl. f_equal. lia. }
  split; [by apply (Hmono_h _ Hh0)|]. split; [by apply (Hmono_i _ Hi)|]. split; [done|].
  split.
  { rewrite Hioas. rewrite (alter_as_insert _ _ _ _ (lookup_insert_eq _ _ _)).
    by rewrite insert_insert_eq. }
  done.
Qed.

(** X17: the reference counts after a successful
    [iommufd_device_attach] to a page table named by the caller.  The
    device object and the page table have one reference more each, the
    reference taken for the lookup is given back, the device is at the
    head of the list of the page table, the address space keeps its
    count; no other object changes, and DMA ownership and the group and
    context references stay. *)
Theorem attach_hwpt_reference_balance (e : Env) (i : idev_id) (h : hwpt_id) (flags : Z)
    (s s1 : state) (out : nat) (idev : iommufd_device) (hwpt : iommufd_hw_pagetable)
    (io : iommufd_ioas) :
  idevs s !! i = Some idev →
  hwpts s !! h = Some hwpt →
  ioass s !! hwpt_ioas hwpt = Some io →
  iommufd_device_attach e i h flags s = Some (0, out, s1) →
  out = h ∧
  (∃ idev1, idevs s1 !! i = Some idev1 ∧ idev_hwpt idev1 = Some h ∧
     idev_users idev1 = idev_users idev + 1) ∧
  (∃ hwpt1, hwpts s1 !! h = Some hwpt1 ∧ hwpt_users hwpt1 = hwpt_users hwpt + 1 ∧
     hwpt_devices hwpt1 = i :: hwpt_devices hwpt) ∧
  (∃ io1, ioass s1 !! hwpt_ioas hwpt = Some io1 ∧ ioas_users io1 = ioas_users io) ∧
  (∀ j, j ≠ i → idevs s1 !! j = idevs s !! j) ∧
  (∀ k, k ≠ h → hwpts s1 !! k = hwpts s !! k) ∧
  (∀ a, a ≠ hwpt_ioas hwpt → ioass s1 !! a = ioass s !! a) ∧
  dma_owner s1 = dma_owner s ∧ group_refs s1 = group_refs s ∧ ctx_refs s1 = ctx_refs s.
Proof.
  intros Hi Hh Hio Hrun.
  destruct (attach_hwpt_exact e i h flags s s1 out idev hwpt io Hi Hh Hio Hrun)
    as (has & ecc & msi & _ & Hout & Hidevs & Hhwpts & _ & _ & _ & Hioas & _ & F).
  split; [done|].
  split. { eexists. rewrite Hidevs, lookup_insert_eq. done. }
  split. { eexists. rewrite Hhwpts, lookup_insert_eq. done. }
  split. { eexists. rewrite Hioas, lookup_insert_eq. done. }
  split. { intros j Hj. by rewrite Hidevs, lookup_insert_ne. }
  split. { intros k Hk. by rewrite Hhwpts, lookup_insert_ne. }
  split. { intros a Ha. by rewrite Hioas, lookup_insert_ne. }
  destruct F as (F1 & F2 & F3 & _). done.
Qed.

Lemma attach_hwpt_reference_balance_witness :
  ∃ out s1 hwpt1, iommufd_device_attach env_plain 2 20 0 st_unattached = Some (0, out, s1) ∧
    hwpts s1 !! 20%nat = Some hwpt1 ∧ hwpt_users hwpt1 = 2.
Proof.
  destruct (iommufd_device_attach env_plain 2 20 0 st_unattached)
    as [[[rc out] s1]|] eqn:Hrun; [|by vm_compute in Hrun].
  assert (Hrc : rc = 0) by (vm_compute in Hrun; by injection Hrun as <- _ _).
  subst rc.
  destruct (attach_hwpt_reference_balance env_plain 2 20 0 st_unattached s1 out
              (mk_idev 1 0 None 101 201 false) (mk_hwpt 1 10 30 false false false [])
              (mk_ioas 1 [] [] []) eq_refl eq_refl eq_refl Hrun)
    as (_ & _ & (hwpt1 & Hh & Hu & _) & _).
  exists out, s1, hwpt1. split; [done|]. split; [exact Hh|exact Hu].
Defined.

(** ** Round trips *)

(** X18: attach and detach undo each other.  A device that points
    nowhere is attached to a manually created page table that has no
    device and is not yet listed in its address space, whose domain is not
    yet among the domains of the address space, the device owning no
    reserved range.  After [iommufd_device_attach] and
    [iommufd_device_detach] the device objects, the address spaces, the
    group attachments and all reference counts are as before; of the page
    table only the two flags may have gone up. *)
Theorem attach_detach_round_trip (e : Env) (i : idev_id) (h : hwpt_id) (flags : Z)
    (s s1 : state) (out : nat) (idev : iommufd_device) (hwpt : iommufd_hw_pagetable)
    (io : iommufd_ioas) :
  idevs s !! i = Some idev →
  idev_hwpt idev = None →
  hwpts s !! h = Some hwpt →
  hwpt_devices hwpt = [] →
  hwpt_auto_domain hwpt = false →
  ioass s !! hwpt_ioas hwpt = Some io →
  h ∉ ioas_hwpt_list io →
  hwpt_domain hwpt ∉ iopt_domains io →
  (∀ r, r ∈ iopt_reserved io → r.1 ≠ idev_dev idev) →
  iommufd_device_attach e i h flags s = Some (0, out, s1) →
  ∃ (s2 : state) (ecc msi : bool),
    iommufd_device_detach i s1 = Some s2 ∧
    idevs s2 = idevs s ∧
    hwpts s2 = <[h := hwpt_set_msi_cookie msi (hwpt_set_enforce_cache_coherency ecc hwpt)]>
                 (hwpts s) ∧
    (hwpt_enforce_cache_coherency hwpt = true → ecc = true) ∧
    (hwpt_msi_cookie hwpt = true → msi = true) ∧
    ioass s2 = ioass s ∧
    group_domains s2 = group_domains s ∧
    dma_owner s2 = dma_owner s ∧ group_refs s2 = group_refs s ∧
    ctx_refs s2 = ctx_refs s ∧ finalized s2 = finalized s ∧ warnings s2 = warnings s.
Proof.
  intros Hi Hnone Hh Hempty Hmanual Hio Hnl Hnd Hnr Hrun.
  destruct (attach_hwpt_exact e i h flags s s1 out idev hwpt io Hi Hh Hio Hrun)
    as (has & ecc & msi & Hhas & Hout & Hidevs & Hhwpts & Hecc & _ & Hmsi & Hioas & Hgd & F).
  destruct F as (F1 & F2 & F3 & F4 & F5).
  rewrite Hempty in Hhas, Hhwpts, Hioas. simpl in Hhas, Hioas. injection Hhas as <-.
  set (idev1 := idev_set_users (idev_users idev + 1) (idev_set_hwpt (Some h) idev)) in *.
  set (hwpt1 := mk_hwpt (hwpt_users hwpt + 1) (hwpt_ioas hwpt) (hwpt_domain hwpt)
                  (hwpt_auto_domain hwpt) ecc msi [i]) in *.
  assert (Hi1 : idevs s1 !! i = Some idev1) by (by rewrite Hidevs, lookup_insert_eq).
  assert (Hh1 : hwpts s1 !! h = Some hwpt1) by (by rewrite Hhwpts, lookup_insert_eq).
  match type of Hioas with _ = <[_ := ?x]> _ => set (io1 := x) in * end.
  assert (Hio1 : ioass s1 !! hwpt_ioas hwpt1 = Some io1) by (by rewrite Hioas, lookup_insert_eq).
  destruct (detach_core i s1 idev1 h hwpt1 io1 Hi1 eq_refl Hh1 Hio1) as (s2 & _ & Hdet & _).
  { intros c Hc. simpl in Hc. apply list_elem_of_singleton in Hc as ->. by eexists. }
  destruct (detach_exact i s1 s2 idev1 h hwpt1 io1 Hi1 eq_refl Hh1 Hio1 Hdet)
    as (has' & Hhas' & G1 & G2 & G3 & G4 & G5 & G6 & G7 & G8 & G9 & G10).
  assert (Hdevs : list_del i (hwpt_devices hwpt1) = []).
  { simpl. unfold list_del. by rewrite filter_cons_False by (intros ?; done). }
  rewrite Hdevs in Hhas', G2, G4. simpl in Hhas'. injection Hhas' as <-.
  simpl in G2, G3, G4, G5. rewrite Hmanual in G2, G3. simpl in G2, G3.
  exists s2, ecc, msi. split; [done|].
  split.
  { rewrite G1, Hidevs, insert_insert_eq. apply insert_id. rewrite Hi. f_equal.
    destruct idev. simpl in *. subst. unfold idev_set_users, idev_set_hwpt. simpl.
    f_equal. lia. }
  split.
  { rewrite G2, Hhwpts, insert_insert_eq. f_equal.
    destruct hwpt. simpl in *. subst. unfold hwpt_set_users, hwpt_set_devices,
      hwpt_set_msi_cookie, hwpt_set_enforce_cache_coherency. simpl. f_equal. lia. }
  split; [done|]. split; [done|].
  split.
  { rewrite G4, Hioas, insert_insert_eq. apply insert_id. rewrite Hio. f_equal.
    rewrite !list_del_app_last by done.
    rewrite filter_app, filter_owner_fresh, app_nil_r, filter_owner_id by done.
    by destruct io. }
  split. { rewrite G5, Hgd. by rewrite remove_attachment_cons. }
  split; [by rewrite G7|]. split; [by rewrite G8|]. split; [by rewrite G9|].
  split; [by rewrite G3|]. by rewrite G10.
Qed.

Lemma attach_detach_round_trip_witness :
  ∃ out s1 s2, iommufd_device_attach env_plain 2 20 0 st_unattached = Some (0, out, s1) ∧
    iommufd_device_detach 2 s1 = Some s2 ∧
    idevs s2 = idevs st_unattached ∧ ioass s2 = ioass st_unattached.
Proof.
  destruct (iommufd_device_attach env_plain 2 20 0 st_unattached)
    as [[[rc out] s1]|] eqn:Hrun; [|by vm_compute in Hrun].
  assert (Hrc : rc = 0) by (vm_compute in Hrun; by injection Hrun as <- _ _).
  subst rc.
  destruct (attach_detach_round_trip env_plain 2 20 0 st_unattached s1 out
              (mk_idev 1 0 None 101 201 false) (mk_hwpt 1 10 30 false false false [])
              (mk_ioas 1 [] [] []) eq_refl eq_refl eq_refl eq_refl eq_refl eq_refl)
    as (s2 & ecc & msi & Hdet & Hi & _ & _ & _ & Ha & _);
    [apply not_elem_of_nil|apply not_elem_of_nil|
     intros r Hr; by apply elem_of_nil in Hr|exact Hrun|].
  exists out, s1, s2. split; [done|]. split; [exact Hdet|]. split; [exact Hi|exact Ha].
Defined.








End device_life_cycle.

(** * Properties of the VFIO character-device handlers *)

Section vfio_properties.
Import Vfio.

Lemma u32_not_testbit (x : Z) (n : Z) :
  0 ≤ n → Z.testbit (u32_not x) n = xorb (Z.testbit x n) (n <? 32).
Proof.
  intros Hn. unfold u32_not. rewrite Z.lxor_spec. f_equal.
  change 4294967295 with (Z.ones 32).
  destruct (n <? 32) eqn:Hlt.
  - apply Z.ones_spec_low. lia.
  - apply Z.ones_spec_high. lia.
Qed.

Lemma u32_mask_subset (f m : Z) :
  0 ≤ f < 4294967296 →
  Z.land f (u32_not m) = 0 ↔ ∀ n, 0 ≤ n → Z.testbit f n = true → Z.testbit m n = true.
Proof.
  intros Hf. split.
  - intros Hz n Hn Hb.
    apply (f_equal (λ z, Z.testbit z n)) in Hz.
    rewrite Z.land_spec, u32_not_testbit, Z.bits_0, Hb in Hz by done. simpl in Hz.
    destruct (n <? 32) eqn:Hlt.
    + destruct (Z.testbit m n); [done|discriminate].
    + exfalso. assert (Z.testbit f n = false); [|congruence].
      apply Z.bits_above_log2; [lia|].
      destruct (decide (f = 0)) as [->|Hne]; [simpl; lia|].
      assert (Z.log2 f < 32); [|lia].
      apply Z.log2_lt_pow2; lia.
  - intros Hsub. apply Z.bits_inj'. intros n Hn.
    rewrite Z.land_spec, u32_not_testbit, Z.bits_0 by done.
    destruct (Z.testbit f n) eqn:Hb; [|done]. simpl.
    rewrite (Hsub n Hn Hb). simpl.
    destruct (n <? 32) eqn:Hlt; [done|].
    exfalso. assert (Z.testbit f n = false); [|congruence].
    apply Z.bits_above_log2; [lia|].
    destruct (decide (f = 0)) as [->|Hne]; [simpl; lia|].
    assert (Z.log2 f < 32); [|lia].
    apply Z.log2_lt_pow2; lia.
Qed.

(** X21: what [vfio_copy_from_user] accepts.  It returns 0 exactly when
    the head of the block can be read, [argsz] covers the initial struct,
    no flag bit outside [flags_mask] is set and, if a flag of
    [xflags_mask] is set and the struct has an extension, [argsz] covers
    the extension and it can be read.  The extension is fetched exactly
    when the call succeeds with such a flag set.  The only errnos are
    -EFAULT and -EINVAL. *)
Theorem vfio_copy_from_user_accepts (u : user_arg) (minsz xend flags_mask xflags_mask : Z) :
  0 ≤ flags u < 4294967296 →
  let r := vfio_copy_from_user u minsz xend flags_mask xflags_mask in
  (r.1 = 0 ↔
     head_faults u = false ∧ minsz ≤ argsz u ∧
     (∀ n, 0 ≤ n → Z.testbit (flags u) n = true → Z.testbit flags_mask n = true) ∧
     (Z.land (flags u) xflags_mask ≠ 0 → xend ≠ 0 → xend ≤ argsz u ∧ ext_faults u = false)) ∧
  (r.2 = true ↔ r.1 = 0 ∧ Z.land (flags u) xflags_mask ≠ 0 ∧ xend ≠ 0) ∧
  (r.1 = 0 ∨ r.1 = - EFAULT ∨ r.1 = - EINVAL).
Proof.
  intros Hf r. subst r. unfold vfio_copy_from_user.
  pose proof (u32_mask_subset (flags u) flags_mask Hf) as Hsub.
  destruct (head_faults u).
  { simpl. split; [split; [done|by intros [? _]]|]. split; [split; [done|by intros [? _]]|].
    right. by left. }
  case_decide as Hsz.
  { simpl. split; [split; [done|intros (_ & ? & _); lia]|].
    split; [split; [done|by intros [? _]]|]. right. by right. }
  case_decide as Hmask.
  { simpl. split; [split; [done|]|].
    - intros (_ & _ & Hbits & _). by apply Hsub in Hbits.
    - split; [split; [done|by intros [? _]]|]. right. by right. }
  assert (Hbits : ∀ n, 0 ≤ n → Z.testbit (flags u) n = true → Z.testbit flags_mask n = true).
  { apply Hsub. destruct (decide (Z.land (flags u) (u32_not flags_mask) = 0)); [done|].
    by destruct Hmask. }
  case_decide as Hx.
  - destruct Hx as [Hx1 Hx2].
    case_decide as Hxsz.
    { simpl. split; [split; [done|]|].
      - intros (_ & _ & _ & Hext). destruct (Hext Hx1 Hx2). lia.
      - split; [split; [done|by intros [? _]]|]. right. by right. }
    destruct (ext_faults u).
    { simpl. split; [split; [done|]|].
      - intros (_ & _ & _ & Hext). by destruct (Hext Hx1 Hx2).
      - split; [split; [done|by intros [? _]]|]. right. by left. }
    simpl. split; [split; [|done]|].
    + intros _. split; [done|]. split; [lia|]. split; [done|]. intros _ _. split; [lia|done].
    + split; [done|]. by left.
  - simpl. split; [split; [|done]|].
    + intros _. split; [done|]. split; [lia|]. split; [done|].
      intros H1 H2. by destruct Hx.
    + split; [|by left]. split; [done|]. intros (_ & H1 & H2). by destruct Hx.
Qed.

Lemma vfio_copy_from_user_accepts_witness :
  (vfio_copy_from_user arg_pasid_readonly 12 16 1 1).2 = true.
Proof.
  assert (Hf : 0 ≤ flags arg_pasid_readonly < 4294967296) by (simpl; lia).
  destruct (vfio_copy_from_user_accepts arg_pasid_readonly 12 16 1 1 Hf) as (_ & Hx & _).
  apply Hx. split; [reflexivity|]. split; [|lia]. vm_compute. discriminate.
Defined.

Lemma copy_from_user_fetched (u : user_arg) (minsz xend flags_mask xflags_mask : Z)
    (fetched : bool) :
  vfio_copy_from_user u minsz xend flags_mask xflags_mask = (0, fetched) →
  fetched = bool_decide (Z.land (flags u) xflags_mask ≠ 0 ∧ xend ≠ 0).
Proof.
  unfold vfio_copy_from_user. intros Hc.
  destruct (head_faults u); [done|].
  case_decide; [done|]. case_decide; [done|].
  case_decide as Hx.
  - case_decide; [done|]. destruct (ext_faults u); [done|].
    injection Hc as <-. by rewrite bool_decide_eq_true_2.
  - injection Hc as <-. by rewrite bool_decide_eq_false_2.
Qed.

(** X22: the calls of [vfio_df_ioctl_attach_pt].  [arg->pt_id] is
    written exactly when 0 is returned.  Either nothing is called and an
    errno is returned, or the device-set mutex is taken, one attach
    operation is called (the PASID one exactly when the request has the
    PASID flag, and then with the PASID of the user), and the mutex is
    released; between the attach and the release [detach_ioas] is called
    only when the id could not be written back, and then -EFAULT is
    returned. *)
Theorem vfio_attach_pt_calls (e : Env) (u : user_arg) (ret : Z) (out : option Z)
    (log : list op_call) :
  attach_xend e ≠ 0 →
  vfio_df_ioctl_attach_pt e u = Some (ret, out, log) →
  (ret = 0 ↔ is_Some out) ∧
  (log = [] ∧ ret ≠ 0 ∨
   ∃ c : op_call,
     (c = AttachIoas (pt_id u) ∧ Z.land (flags u) (VFIO_DEVICE_ATTACH_PASID e) = 0 ∨
      c = PasidAttachIoas (pasid u) (pt_id u) ∧
      Z.land (flags u) (VFIO_DEVICE_ATTACH_PASID e) ≠ 0) ∧
     (log = [MutexLock; c; MutexUnlock] ∨
      log = [MutexLock; c; DetachIoas; MutexUnlock] ∧ ret = - EFAULT ∧ out_faults u = true)).
Proof.
  intros Hxend. unfold vfio_df_ioctl_attach_pt.
  destruct (vfio_copy_from_user u (attach_minsz e) (attach_xend e)
              (VFIO_DEVICE_ATTACH_PASID e) (VFIO_DEVICE_ATTACH_PASID e))
    as [ret0 fetched] eqn:Hcopy.
  case_decide as Hret0.
  { intros [= <- <- <-]. split; [split; [done|by intros [? ?]]|]. by left. }
  assert (ret0 = 0) as -> by lia.
  apply copy_from_user_fetched in Hcopy. simpl.
  destruct (decide (Z.land (flags u) (VFIO_DEVICE_ATTACH_PASID e) ≠ 0)) as [Hp|Hp].
  - rewrite (bool_decide_eq_true_2 _ Hp). simpl.
    rewrite bool_decide_eq_true_2 in Hcopy by done. subst fetched. simpl.
    destruct (pasid_attach_ioas (ops e)) as [f|] eqn:Hop.
    2:{ simpl. intros [= <- <- <-]. split; [split; [done|by intros [? ?]]|]. by left. }
    simpl. destruct (f (pasid u) (pt_id u)) as [ret1 pt1]. simpl.
    case_decide as Hret1.
    { intros [= <- <- <-]. split; [split; [done|by intros [? ?]]|].
      right. eexists. split; [by right|]. by left. }
    destruct (out_faults u) eqn:Hout.
    { destruct (detach_ioas (ops e)); [|done].
      intros [= <- <- <-]. split; [split; [done|by intros [? ?]]|].
      right. eexists. split; [by right|]. by right. }
    intros [= <- <- <-]. split; [done|].
    right. eexists. split; [by right|]. by left.
  - rewrite (bool_decide_eq_false_2 _ Hp). simpl.
    assert (Hz : Z.land (flags u) (VFIO_DEVICE_ATTACH_PASID e) = 0).
    { destruct (decide (Z.land (flags u) (VFIO_DEVICE_ATTACH_PASID e) = 0)); [done|].
      by destruct Hp. }
    clear Hcopy. destruct (attach_ioas (ops e)) as [f|]; [|done].
    simpl. destruct (f (pt_id u)) as [ret1 pt1]. simpl.
    case_decide as Hret1.
    { intros [= <- <- <-]. split; [split; [done|by intros [? ?]]|].
      right. eexists. split; [by left|]. by left. }
    destruct (out_faults u) eqn:Hout.
    { destruct (detach_ioas (ops e)); [|done].
      intros [= <- <- <-]. split; [split; [done|by intros [? ?]]|].
      right. eexists. split; [by left|]. by right. }
    intros [= <- <- <-]. split; [done|].
    right. eexists. split; [by left|]. by left.
Qed.

Lemma vfio_attach_pt_calls_witness :
  ∃ (ret : Z) (out : option Z) (log : list op_call),
    vfio_df_ioctl_attach_pt env_pasid_driver arg_plain = Some (ret, out, log) ∧
    log = [MutexLock; AttachIoas 7; MutexUnlock] ∧
    (ret = 0 ↔ is_Some out).
Proof.
  exists 0, (Some 7), [MutexLock; AttachIoas 7; MutexUnlock].
  split; [reflexivity|]. split; [reflexivity|].
  assert (Hx : attach_xend env_pasid_driver ≠ 0) by (simpl; lia).
  exact (proj1 (vfio_attach_pt_calls env_pasid_driver arg_plain 0 (Some 7)
                  [MutexLock; AttachIoas 7; MutexUnlock] Hx eq_refl)).
Defined.

(** X23: a PASID attach whose result cannot be written back.  When the
    request has the PASID flag, the PASID attach operation succeeds and
    the copy of the id to the user faults, [vfio_df_ioctl_attach_pt]
    returns -EFAULT after calling [detach_ioas], the operation that
    detaches the device itself; [pasid_detach_ioas] is not called for the
    PASID that was just attached. *)
Theorem vfio_attach_pt_copy_out_fault (e : Env) (u : user_arg)
    (f : Z → Z → Z * Z) (pt : Z) :
  (vfio_copy_from_user u (attach_minsz e) (attach_xend e)
     (VFIO_DEVICE_ATTACH_PASID e) (VFIO_DEVICE_ATTACH_PASID e)).1 = 0 →
  attach_xend e ≠ 0 →
  Z.land (flags u) (VFIO_DEVICE_ATTACH_PASID e) ≠ 0 →
  pasid_attach_ioas (ops e) = Some f →
  f (pasid u) (pt_id u) = (0, pt) →
  out_faults u = true →
  detach_ioas (ops e) = true →
  vfio_df_ioctl_attach_pt e u =
    Some (- EFAULT, None,
          [MutexLock; PasidAttachIoas (pasid u) (pt_id u); DetachIoas; MutexUnlock]) ∧
  PasidDetachIoas (pasid u) ∉
    [MutexLock; PasidAttachIoas (pasid u) (pt_id u); DetachIoas; MutexUnlock].
Proof.
  intros Hcopy Hxend Hp Hop Hf Hout Hdet. split.
  - unfold vfio_df_ioctl_attach_pt.
    destruct (vfio_copy_from_user u (attach_minsz e) (attach_xend e)
                (VFIO_DEVICE_ATTACH_PASID e) (VFIO_DEVICE_ATTACH_PASID e))
      as [ret0 fetched] eqn:Hc.
    simpl in Hcopy. subst ret0. apply copy_from_user_fetched in Hc.
    rewrite bool_decide_eq_true_2 in Hc by done. subst fetched. simpl.
    rewrite (bool_decide_eq_true_2 _ Hp), Hop. simpl. rewrite Hf. simpl.
    by rewrite Hout, Hdet.
  - intros Hin. repeat (apply elem_of_cons in Hin as [Hin|Hin]; [discriminate|]).
    by apply elem_of_nil in Hin.
Qed.

Lemma vfio_attach_pt_copy_out_fault_witness :
  vfio_df_ioctl_attach_pt env_pasid_driver arg_pasid_readonly =
    Some (- EFAULT, None, [MutexLock; PasidAttachIoas 5 7; DetachIoas; MutexUnlock]).
Proof.
  assert (Hx : attach_xend env_pasid_driver ≠ 0) by (simpl; lia).
  assert (Hp : Z.land (flags arg_pasid_readonly) (VFIO_DEVICE_ATTACH_PASID env_pasid_driver) ≠ 0)
    by (vm_compute; discriminate).
  exact (proj1 (vfio_attach_pt_copy_out_fault env_pasid_driver arg_pasid_readonly
                  (λ _ pt, (0, pt)) 7 eq_refl Hx Hp eq_refl eq_refl eq_refl eq_refl)).
Defined.

(** X24: the calls of [vfio_df_ioctl_detach_pt].  It returns 0 exactly
    when it called a detach operation, which it does once and between
    taking and releasing the device-set mutex: [pasid_detach_ioas] with
    the PASID of the user when the request has the PASID flag,
    [detach_ioas] otherwise.  -EOPNOTSUPP means a PASID request to a
    driver without the PASID operation. *)
Theorem vfio_detach_pt_calls (e : Env) (u : user_arg) (ret : Z) (log : list op_call) :
  detach_xend e ≠ 0 →
  vfio_df_ioctl_detach_pt e u = Some (ret, log) →
  (ret = 0 ↔ log ≠ []) ∧
  (log = [] ∨
   log = [MutexLock; DetachIoas; MutexUnlock] ∧
     Z.land (flags u) (VFIO_DEVICE_DETACH_PASID e) = 0 ∨
   log = [MutexLock; PasidDetachIoas (pasid u); MutexUnlock] ∧
     Z.land (flags u) (VFIO_DEVICE_DETACH_PASID e) ≠ 0) ∧
  (ret = - EOPNOTSUPP →
     Z.land (flags u) (VFIO_DEVICE_DETACH_PASID e) ≠ 0 ∧ pasid_detach_ioas (ops e) = false).
Proof.
  intros Hxend. unfold vfio_df_ioctl_detach_pt.
  destruct (vfio_copy_from_user u (detach_minsz e) (detach_xend e)
              (VFIO_DEVICE_DETACH_PASID e) (VFIO_DEVICE_DETACH_PASID e))
    as [ret0 fetched] eqn:Hcopy.
  case_decide as Hret0.
  { intros [= <- <-]. split; [split; [done|by intros ?]|]. split; [by left|].
    intros Hr. exfalso.
    unfold vfio_copy_from_user in Hcopy.
    repeat (case_decide || case_match); simplify_eq. }
  assert (ret0 = 0) as -> by lia.
  apply copy_from_user_fetched in Hcopy. simpl.
  destruct (decide (Z.land (flags u) (VFIO_DEVICE_DETACH_PASID e) ≠ 0)) as [Hp|Hp].
  - rewrite (bool_decide_eq_true_2 _ Hp). simpl.
    rewrite bool_decide_eq_true_2 in Hcopy by done. subst fetched. simpl.
    destruct (pasid_detach_ioas (ops e)); simpl.
    + intros [= <- <-]. split; [done|]. split; [by right; right|done].
    + intros [= <- <-]. split; [split; [done|by intros ?]|]. split; [by left|done].
  - rewrite (bool_decide_eq_false_2 _ Hp). simpl.
    assert (Hz : Z.land (flags u) (VFIO_DEVICE_DETACH_PASID e) = 0).
    { destruct (decide (Z.land (flags u) (VFIO_DEVICE_DETACH_PASID e) = 0)); [done|].
      by destruct Hp. }
    destruct (detach_ioas (ops e)); [|done].
    intros [= <- <-]. split; [done|]. split; [right; by left|done].
Qed.

Lemma vfio_detach_pt_calls_witness :
  vfio_df_ioctl_detach_pt env_plain_driver arg_pasid_readonly = Some (- EOPNOTSUPP, []) ∧
  Z.land (flags arg_pasid_readonly) (VFIO_DEVICE_DETACH_PASID env_plain_driver) ≠ 0.
Proof.
  split; [reflexivity|].
  assert (Hx : detach_xend env_plain_driver ≠ 0) by (simpl; lia).
  destruct (vfio_detach_pt_calls env_plain_driver arg_pasid_readonly (- EOPNOTSUPP) []
              Hx eq_refl) as (_ & _ & Hns).
  exact (proj1 (Hns eq_refl)).
Defined.

End vfio_properties.

(** * Properties of binding a VFIO device file *)

Section vfio_bind_properties.
Import Vfio.

Lemma remove_one_head {R : Type} `{EqDecision R} (r : R) (l : list R) :
  remove_one r (r :: l) = Some l.
Proof. simpl. by rewrite decide_True. Qed.

Lemma held_from_app {C R : Type} `{EqDecision R} (effect : C → change R)
    (l1 l2 : list C) (acc : list R) :
  held_from effect (l1 ++ l2) acc = held_from effect l1 acc ≫= held_from effect l2.
Proof.
  revert acc. induction l1 as [|c l1 IH]; intros acc; simpl; [done|].
  destruct (apply_change (effect c) acc); simpl; [apply IH|done].
Qed.

Lemma is_err_nonzero (p : Z) : IS_ERR p = true → p ≠ 0.
Proof. unfold IS_ERR, MAX_ERRNO. intros Hp%bool_decide_eq_true. lia. Qed.

(** The three ways [vfio_df_ioctl_bind_iommufd] ends, by what it holds. *)
Lemma bind_iommufd_cases (e : BindEnv) (u : bind_arg) (df : device_file) :
  let r := vfio_df_ioctl_bind_iommufd e u df in
  let p := iommufd_ctx_from_fd e (bind_iommufd u) in
  (r.1.1 ≠ 0 ∧ held cdev_effect r.2 = Some [] ∧
     (r.1.2 = df ∨ df_access_granted df = false ∧ r.1.2 = set_df_iommufd 0 df)) ∨
  (r.1.1 = 0 ∧ df_group df = false ∧ df_access_granted df = false ∧ IS_ERR p = false ∧
     bind_out_faults u = false ∧
     held cdev_effect r.2 = Some [DeviceOpen; KvmRef; CtxRef p; GroupBlock] ∧
     r.1.2 = mk_device_file false true p true).
Proof.
  intros r p. subst r p. unfold vfio_df_ioctl_bind_iommufd.
  destruct (bind_in_faults u); [left; split; [by compute|]; split; [done|by left]|].
  case_decide; [left; split; [by compute|]; split; [done|by left]|].
  destruct (df_group df) eqn:Hg; [left; split; [by compute|]; split; [done|by left]|].
  case_decide as Hb.
  { left. split; [done|]. split; [|by left].
    unfold held. simpl. by rewrite decide_False. }
  assert (Hb0 : block_group_rc e = 0) by lia. rewrite Hb0. clear Hb.
  destruct (df_access_granted df) eqn:Ha.
  { left. split; [by compute|]. split; [done|by left]. }
  simpl.
  destruct (IS_ERR (iommufd_ctx_from_fd e (bind_iommufd u))) eqn:Hp.
  { left. split; [by apply is_err_nonzero|]. split.
    - unfold held. simpl. by rewrite Hp.
    - right. split; [done|]. by destruct df. }
  case_decide as Ho.
  { left. split; [done|]. split.
    - unfold held. simpl. rewrite Hp. simpl. rewrite decide_False by done. simpl.
      by rewrite decide_True.
    - right. split; [done|]. by destruct df. }
  assert (Ho0 : df_open_rc e = 0) by lia. rewrite Ho0. clear Ho.
  destruct (bind_out_faults u) eqn:Hout.
  { left. simpl. split; [by compute|]. split.
    - unfold held. simpl. rewrite Hp. simpl. by rewrite decide_True.
    - right. split; [done|]. by destruct df. }
  right. simpl. split; [done|]. do 4 (split; [done|]). split.
  - unfold held. simpl. by rewrite Hp.
  - unfold set_df_iommufd. simpl. by rewrite Hg.
Qed.

(** X25: a failed bind holds nothing.  When [vfio_df_ioctl_bind_iommufd]
    returns an errno, every call of its log that took something (the group
    block, the device-set mutex, the iommufd context, the KVM reference,
    the open device) is followed by the call that gives it back, and
    nothing is given back that was not taken.  The device file is as
    before, except that [df->iommufd] is NULL once a context had been
    looked up. *)
Theorem vfio_bind_failure_releases (e : BindEnv) (u : bind_arg) (df : device_file) :
  let r := vfio_df_ioctl_bind_iommufd e u df in
  r.1.1 ≠ 0 →
  held cdev_effect r.2 = Some [] ∧
  (r.1.2 = df ∨ df_access_granted df = false ∧ r.1.2 = set_df_iommufd 0 df).
Proof.
  intros r Hret.
  destruct (bind_iommufd_cases e u df) as [(_ & Hh & Hdf)|(Hz & _)]; [done|].
  by destruct Hret.
Qed.

Lemma vfio_bind_failure_releases_witness :
  (vfio_df_ioctl_bind_iommufd env_bind_no_open arg_bind df_unbound).1.1 = - ENODEV ∧
  held cdev_effect (vfio_df_ioctl_bind_iommufd env_bind_no_open arg_bind df_unbound).2
    = Some [].
Proof.
  split; [reflexivity|].
  apply (vfio_bind_failure_releases env_bind_no_open arg_bind df_unbound).
  vm_compute. discriminate.
Defined.

(** X26: a device file is bound once.  When
    [vfio_df_ioctl_bind_iommufd] returns 0 the file was a cdev file
    without access, it now has access and the context of the descriptor,
    the device is marked opened, and the file holds the group block, the
    context, the KVM reference and the open device, with the mutex
    released.  Any later bind of this file, whatever the request and the
    helpers answer, returns an errno, leaves the file as it is and holds
    nothing more. *)
Theorem vfio_bind_once (e : BindEnv) (u : bind_arg) (df : device_file)
    (e2 : BindEnv) (u2 : bind_arg) :
  let r := vfio_df_ioctl_bind_iommufd e u df in
  let p := iommufd_ctx_from_fd e (bind_iommufd u) in
  r.1.1 = 0 →
  df_group df = false ∧ df_access_granted df = false ∧ IS_ERR p = false ∧
  r.1.2 = mk_device_file false true p true ∧
  held cdev_effect r.2 = Some [DeviceOpen; KvmRef; CtxRef p; GroupBlock] ∧
  let r2 := vfio_df_ioctl_bind_iommufd e2 u2 r.1.2 in
  r2.1.1 ≠ 0 ∧ r2.1.2 = r.1.2 ∧ held cdev_effect (r.2 ++ r2.2) = held cdev_effect r.2.
Proof.
  intros r p Hret.
  destruct (bind_iommufd_cases e u df) as [(Hnz & _)|(_ & Hg & Ha & Hp & _ & Hh & Hdf)];
    [done|].
  fold r in Hh, Hdf. fold p in Hp, Hh, Hdf.
  do 4 (split; [done|]). split; [done|].
  intros r2. subst r2. rewrite Hdf.
  destruct (bind_iommufd_cases e2 u2 (mk_device_file false true p true))
    as [(Hnz & Hh2 & Hdf2)|(_ & _ & Ha2 & _)]; [|done].
  split; [done|]. split.
  - by destruct Hdf2 as [?|[? _]].
  - unfold held. rewrite held_from_app. fold (held cdev_effect r.2). rewrite Hh. simpl.
    clear Hnz Hdf2 Hh2.
    unfold vfio_df_ioctl_bind_iommufd. simpl.
    destruct (bind_in_faults u2); [done|].
    case_decide; [done|]. case_decide as Hb.
    + simpl. by rewrite decide_False.
    + assert (Hb0 : block_group_rc e2 = 0) by lia. by rewrite Hb0.
Qed.

Lemma vfio_bind_once_witness :
  (vfio_df_ioctl_bind_iommufd env_bind_no_open arg_bind
     (vfio_df_ioctl_bind_iommufd env_bind_ok arg_bind df_unbound).1.2).1.1 ≠ 0.
Proof.
  apply (vfio_bind_once env_bind_ok arg_bind df_unbound env_bind_no_open arg_bind).
  reflexivity.
Defined.

(** X27: unbind gives back what bind took.  After a bind that returned 0,
    [vfio_df_unbind_iommufd] closes the device, puts the KVM reference and
    the context and unblocks the group, under the device-set mutex: with
    the two logs together nothing is held.  It clears
    [device->cdev_opened] and writes no other field.  On a file without
    access it does nothing. *)
Theorem vfio_bind_unbind_balanced (e : BindEnv) (u : bind_arg) (df : device_file) :
  let r := vfio_df_ioctl_bind_iommufd e u df in
  let r' := vfio_df_unbind_iommufd r.1.2 in
  (r.1.1 = 0 →
     held cdev_effect (r.2 ++ r'.2) = Some [] ∧
     r'.1 = mk_device_file false true (iommufd_ctx_from_fd e (bind_iommufd u)) false) ∧
  (df_access_granted df = false → vfio_df_unbind_iommufd df = (df, [])).
Proof.
  intros r r'. split.
  - intros Hret.
    destruct (bind_iommufd_cases e u df) as [(Hnz & _)|(_ & Hg & Ha & Hp & _ & Hh & Hdf)];
      [done|].
    fold r in Hh, Hdf. subst r'. rewrite Hdf.
    unfold vfio_df_unbind_iommufd. simpl. split; [|done].
    unfold held. rewrite held_from_app. fold (held cdev_effect r.2). rewrite Hh. simpl.
    by rewrite decide_True.
  - intros Ha. unfold vfio_df_unbind_iommufd. by rewrite Ha.
Qed.

Lemma vfio_bind_unbind_balanced_witness :
  held cdev_effect
    ((vfio_df_ioctl_bind_iommufd env_bind_ok arg_bind df_unbound).2 ++
     (vfio_df_unbind_iommufd
        (vfio_df_ioctl_bind_iommufd env_bind_ok arg_bind df_unbound).1.2).2) = Some [].
Proof.
  apply (vfio_bind_unbind_balanced env_bind_ok arg_bind df_unbound). reflexivity.
Defined.

End vfio_bind_properties.

(** * Properties of the nested-translation domain operations *)

Section intel_nested_properties.
Import IntelNested.

(** X28: [intel_nested_set_dev_pasid] links a PASID or leaves no trace.
    When it returns an errno the lists of the domain are as before, the
    [dev_pasid_info] it allocated has been freed and the domain is
    detached from the IOMMU again if it had been attached.  When it
    returns 0 exactly one entry, for this device and PASID at the address
    [kzalloc] gave, is new at the head of [dev_pasids], and the allocation
    and the attachment are kept; the list is changed under the domain
    lock, which is released. *)
Theorem nested_set_dev_pasid_outcome (e : Env) (dev : nat) (pasid : Z) (s : state) :
  let r := intel_nested_set_dev_pasid e dev pasid s in
  (r.1.1 ≠ 0 ∧ r.1.2 = s ∧ held attach_effect r.2 = Some []) ∨
  (r.1.1 = 0 ∧
   ∃ p log,
     kzalloc e = Some p ∧
     r.1.2 = mk_state (info_domain s) (devices s)
               (mk_dev_pasid_info p dev pasid :: dev_pasids s) ∧
     r.2 = log ++ [DomainLock; DomainUnlock] ∧
     held attach_effect log = Some [IommuAttachment; Allocation p] ∧
     held attach_effect r.2 = Some [IommuAttachment; Allocation p]).
Proof.
  intros r. subst r. unfold intel_nested_set_dev_pasid.
  destruct (pasid_supported e); simpl; [|left; split; [by compute|done]].
  case_decide; [left; split; [by compute|done]|].
  case_decide as Hprep; [left; by split|].
  destruct (kzalloc e) as [p|] eqn:Hk; simpl; [|left; split; [by compute|done]].
  case_decide as Hatt.
  { left. split; [done|]. split; [done|].
    unfold held. simpl. rewrite decide_False by done. simpl. by rewrite decide_True. }
  assert (Ha0 : domain_attach_iommu e = 0) by lia. rewrite Ha0. clear Hatt.
  case_decide as Hset.
  { left. split; [done|]. split; [done|].
    unfold held. simpl. by rewrite decide_True. }
  right. split; [done|]. exists p.
  exists [PrepareDomainAttachDevice (prepare_domain_attach_device e); Kzalloc (Some p);
          DomainAttachIommu 0; IntelPasidSetupNested pasid (intel_pasid_setup_nested e pasid)].
  by repeat split.
Qed.

Lemma nested_set_dev_pasid_outcome_witness :
  (intel_nested_set_dev_pasid env_attach_ok 1 5 st_detached).1.2
    = mk_state None [] [mk_dev_pasid_info 64 1 5] ∧
  (intel_nested_set_dev_pasid env_no_pasid_entry 1 5 st_detached).1.1 = - EBUSY ∧
  held attach_effect (intel_nested_set_dev_pasid env_no_pasid_entry 1 5 st_detached).2
    = Some [].
Proof.
  split; [reflexivity|]. split; [reflexivity|].
  destruct (nested_set_dev_pasid_outcome env_no_pasid_entry 1 5 st_detached)
    as [(_ & _ & Hheld)|(Hret & _)].
  - exact Hheld.
  - discriminate Hret.
Defined.

(** X29: [intel_nested_attach_dev] links the device or leaves the lists
    alone.  A device that already has a domain is blocked first, before
    any check.  When an errno is returned the state is the one the
    blocking left (the state before, for a device without a domain), and
    the domain is detached from the IOMMU again if it had been attached.
    When 0 is returned [info->domain] is the nested domain, the device is
    new at the head of [devices], and the attachment is kept. *)
Theorem nested_attach_dev_outcome (e : Env) (dom dev : nat) (s : state) :
  let r := intel_nested_attach_dev e dom dev s in
  let s0 := match info_domain s with Some _ => device_block_translation e s | None => s end in
  (r.1.1 ≠ 0 ∧ r.1.2 = s0 ∧ held attach_effect r.2 = Some [] ∨
   r.1.1 = 0 ∧ r.1.2 = mk_state (Some dom) (dev :: devices s0) (dev_pasids s0) ∧
     held attach_effect r.2 = Some [IommuAttachment]) ∧
  (is_Some (info_domain s) → head r.2 = Some DeviceBlockTranslation) ∧
  (info_domain s = None → DeviceBlockTranslation ∉ r.2).
Proof.
  intros r s0. subst r s0. unfold intel_nested_attach_dev.
  destruct (info_domain s) as [d|] eqn:Hd.
  - split; [|split; [|done]].
    + case_decide; [left; split; [by compute|done]|].
      case_decide as Hprep; [left; by split|].
      case_decide as Hatt.
      { left. split; [done|]. split; [done|].
        unfold held. simpl. by rewrite decide_False. }
      assert (Ha0 : domain_attach_iommu e = 0) by lia. rewrite Ha0. clear Hatt.
      case_decide as Hset; [left; by split|].
      right. by split.
    + intros _. by repeat case_decide.
  - split; [|split; [by intros [? ?]|]].
    + case_decide; [left; split; [by compute|done]|].
      case_decide as Hprep; [left; by split|].
      case_decide as Hatt.
      { left. split; [done|]. split; [done|].
        unfold held. simpl. by rewrite decide_False. }
      assert (Ha0 : domain_attach_iommu e = 0) by lia. rewrite Ha0. clear Hatt.
      case_decide as Hset; [left; by split|].
      right. by split.
    + intros _ Hin. repeat case_decide; simpl in Hin;
        repeat (apply elem_of_cons in Hin as [Hin|Hin]; [discriminate|]);
        by apply elem_of_nil in Hin.
Qed.

Lemma nested_attach_dev_outcome_witness :
  (intel_nested_attach_dev env_attach_ok 7 1 (mk_state (Some 8%nat) [2%nat] [])).1.2
    = mk_state (Some 7%nat) [1%nat] [] ∧
  head (intel_nested_attach_dev env_no_pasid_entry 7 1 (mk_state (Some 8%nat) [2%nat] [])).2
    = Some DeviceBlockTranslation.
Proof.
  split; [reflexivity|].
  apply (nested_attach_dev_outcome env_no_pasid_entry 7 1 (mk_state (Some 8%nat) [2%nat] [])).
  by exists 8%nat.
Defined.

Lemma aligned_shift (addr k : Z) :
  0 ≤ k → IS_ALIGNED addr (Z.shiftl 1 k) = true → Z.shiftl (Z.shiftr addr k) k = addr.
Proof.
  intros Hk Hal. unfold IS_ALIGNED in Hal. apply bool_decide_eq_true in Hal.
  rewrite Z.shiftl_1_l in Hal.
  replace (2 ^ k - 1) with (Z.ones k) in Hal by (rewrite Z.ones_equiv; lia).
  rewrite Z.land_ones in Hal by done.
  rewrite Z.shiftr_div_pow2, Z.shiftl_mul_pow2 by done.
  pose proof (Z.div_mod addr (2 ^ k)) as Hdm.
  assert (2 ^ k ≠ 0) by (apply Z.pow_nonzero; lia).
  specialize (Hdm ltac:(done)). lia.
Qed.

(** The loop, from any index. *)
Lemma invalidate_loop_spec (e : InvEnv) (todo index : nat) (ret : Z) :
  let r := invalidate_loop e todo index ret in
  (index ≤ r.1.2 ≤ index + todo)%nat ∧
  (∀ i, (index ≤ i < r.1.2)%nat →
     (fetch e i).1 = 0 ∧ inv_rejected e (fetch e i).2 = false) ∧
  ((r.1.2 < index + todo)%nat →
     r.1.1 ≠ 0 ∧
     ((fetch e r.1.2).1 = r.1.1 ∨
      (fetch e r.1.2).1 = 0 ∧ inv_rejected e (fetch e r.1.2).2 = true ∧
        r.1.1 = - EINVAL)) ∧
  (r.1.2 = (index + todo)%nat → r.1.1 = if decide (todo = 0%nat) then ret else 0) ∧
  r.2 = flat_map (λ i, inv_flush e (fetch e i).2) (seq index (r.1.2 - index)).
Proof.
  revert index ret. induction todo as [|todo IH]; intros index ret; simpl.
  { split; [lia|]. split; [intros i ?; lia|]. split; [lia|]. split; [done|].
    by rewrite Nat.sub_diag. }
  destruct (fetch e index) as [rc inv_info] eqn:Hf.
  destruct (decide (rc ≠ 0)) as [Hrc|Hrc].
  { simpl. split; [lia|]. split; [intros i ?; lia|]. split.
    - intros _. split; [done|]. left. by rewrite Hf.
    - split; [lia|]. by rewrite Nat.sub_diag. }
  assert (rc = 0) as -> by lia.
  destruct (inv_rejected e inv_info) eqn:Hrej.
  { simpl. split; [lia|]. split; [intros i ?; lia|]. split.
    - intros _. split; [by compute|]. right. by rewrite Hf.
    - split; [lia|]. by rewrite Nat.sub_diag. }
  specialize (IH (S index) 0).
  destruct (invalidate_loop e todo (S index) 0) as [[ret' index'] log] eqn:Hloop.
  simpl in IH |- *. destruct IH as (Hrange & Hok & Hstop & Hend & Hlog).
  split; [lia|]. split; [|split; [|split]].
  - intros i Hi. destruct (decide (i = index)) as [->|Hne].
    + by rewrite Hf.
    + apply Hok. lia.
  - intros Hlt. apply Hstop. lia.
  - intros Hall. rewrite Hend by lia. by case_decide.
  - replace (index' - index)%nat with (S (index' - S index)) by lia.
    simpl. by rewrite Hf, Hlog.
Qed.

(** X30: [intel_nested_cache_invalidate_user] handles a prefix of the
    array.  [array->entry_num] afterwards is the number of leading entries
    that could be fetched and passed the checks, never more than before;
    the flushes are those of exactly these entries, in order; a range
    flush goes to an IOMMU of the domain with the page frame of the
    address the user gave.  When it stops early the errno is the one of
    the fetch, or -EINVAL for an entry that fails a check; when it handles
    a non-empty array to the end it returns 0.  For an empty array it
    returns its local [ret] as it found it, never assigned.
    [*cerror_idx] is always 0. *)
Theorem cache_invalidate_user_prefix (e : InvEnv) (entry_num : nat) :
  0 ≤ VTD_PAGE_SHIFT e →
  let r := intel_nested_cache_invalidate_user e entry_num in
  let ret := r.1.1.1 in
  let n := r.1.1.2 in
  (n ≤ entry_num)%nat ∧ r.1.2 = 0 ∧
  (∀ i, (i < n)%nat → (fetch e i).1 = 0 ∧ inv_rejected e (fetch e i).2 = false) ∧
  ((n < entry_num)%nat →
     ret ≠ 0 ∧
     ((fetch e n).1 = ret ∨
      (fetch e n).1 = 0 ∧ inv_rejected e (fetch e n).2 = true ∧ ret = - EINVAL)) ∧
  (n = entry_num → ret = if decide (entry_num = 0%nat) then ret_uninit e else 0) ∧
  r.2 = flat_map (λ i, inv_flush e (fetch e i).2) (seq 0 n) ∧
  (∀ iommu pfn npages,
     IommuFlushIotlbPsi iommu pfn npages ∈ r.2 →
     iommu ∈ iommu_array e ∧
     ∃ i, (i < n)%nat ∧ inv_addr (fetch e i).2 = Z.shiftl pfn (VTD_PAGE_SHIFT e) ∧
          inv_npages (fetch e i).2 = npages).
Proof.
  intros Hshift r ret n. subst r ret n. unfold intel_nested_cache_invalidate_user.
  pose proof (invalidate_loop_spec e entry_num 0 (ret_uninit e)) as Hspec.
  destruct (invalidate_loop e entry_num 0 (ret_uninit e)) as [[ret n] log] eqn:Hloop.
  simpl in Hspec |- *. destruct Hspec as (Hrange & Hok & Hstop & Hend & Hlog).
  rewrite Nat.sub_0_r in Hlog.
  split; [lia|]. split; [done|]. split; [intros i Hi; apply Hok; lia|].
  split; [done|]. split; [done|]. split; [done|].
  intros iommu pfn npages Hin. rewrite Hlog in Hin.
  apply list_elem_of_In, in_flat_map in Hin as (i & Hi & Hin).
  apply in_seq in Hi. apply list_elem_of_In in Hin.
  destruct (Hok i ltac:(lia)) as [_ Hrej].
  unfold inv_flush in Hin. case_decide as Hall.
  { apply list_elem_of_singleton in Hin. discriminate. }
  unfold domain_flush_iotlb_psi in Hin.
  apply list_elem_of_fmap in Hin as (iommu' & Heq & Hio).
  injection Heq as -> -> ->. split; [done|]. exists i. split; [lia|]. split; [|done].
  symmetry. apply aligned_shift; [done|].
  unfold inv_rejected in Hrej. fold (VTD_PAGE_SIZE e).
  destruct (IS_ALIGNED (inv_addr (fetch e i).2) (VTD_PAGE_SIZE e)); [done|].
  by rewrite orb_true_r in Hrej.
Qed.

Lemma cache_invalidate_user_prefix_witness :
  intel_nested_cache_invalidate_user env_three_entries 3
    = (- EINVAL, 2%nat, 0, [IommuFlushIotlbPsi 0 2 2; IntelFlushIotlbAll]) ∧
  ((intel_nested_cache_invalidate_user env_three_entries 3).1.1.2 ≤ 3)%nat.
Proof.
  split; [reflexivity|].
  assert (Hs : 0 ≤ VTD_PAGE_SHIFT env_three_entries) by (simpl; lia).
  exact (proj1 (cache_invalidate_user_prefix env_three_entries 3 Hs)).
Defined.

End intel_nested_properties.
